(** * deepsignal: feature extraction ([deepsignal/extract_features.py])

    A shallow embedding of the feature-extraction module and the
    properties of its central-signal sampler, motif expansion,
    coordinate mapping and per-read error handling.

    Conventions.
    - Python integers are [Z]; list lengths enter arithmetic through [len].
    - A Python exception is a value of [exn]; a computation that may raise
      returns a [result].
    - The hidden state of the [random] module and the list [features_str]
      that [_extract_features] mutates are threaded explicitly through the
      state-and-error monad [M].
    - Signal samples are floating point numbers; they are kept abstract
      (type [R]) since every property below is about positions and
      lengths, not about sample values. *)

From stdpp Require Import gmap strings list sorting.
From Stdlib Require Import ZArith Lia Ascii.

(** ** Python values and exceptions *)

Inductive exn : Type :=
  | IOError | RuntimeError | ValueError | KeyError
  | IndexError | TypeError | AssertionError | RecursionError.

Inductive result (X : Type) : Type :=
  | Ok (x : X)
  | Raise (e : exn).
Arguments Ok {X} x.
Arguments Raise {X} e.

(** Every class above derives from [Exception], which is what the handler
    [except Exception] of [_extract_features] tests. *)
Definition isinstance_Exception (e : exn) : bool :=
  match e with
  | IOError | RuntimeError | ValueError | KeyError
  | IndexError | TypeError | AssertionError | RecursionError => true
  end.

Definition len {A} (l : list A) : Z := Z.of_nat (length l).

(** [sum(xs)] on integers. *)
Definition py_sum (xs : list Z) : Z := foldr Z.add 0%Z xs.

(** A slice bound: a negative bound counts from the end, and the outcome is
    clamped to [0 .. n]. *)
Definition slice_bound (n : nat) (i : Z) : nat :=
  Z.to_nat (Z.min (Z.of_nat n) (if (i <? 0)%Z then Z.max 0 (Z.of_nat n + i) else i)).

(** [l[lo:hi]], either bound possibly omitted. *)
Definition py_slice {A} (l : list A) (lo hi : option Z) : list A :=
  let n := length l in
  let a := from_option (slice_bound n) 0 lo in
  let b := from_option (slice_bound n) n hi in
  take (b - a) (drop a l).

(** [l[i]]: a negative index counts from the end; out of range raises. *)
Definition py_getitem {A} (l : list A) (i : Z) : result A :=
  let j := if (i <? 0)%Z then (len l + i)%Z else i in
  if (j <? 0)%Z then Raise IndexError
  else match l !! Z.to_nat j with
       | Some x => Ok x
       | None => Raise IndexError
       end.

(** ** State and error monad *)

Section Monad.
Context {St : Type}.

Definition M (X : Type) : Type := St → result X * St.

Definition ret {X} (x : X) : M X := λ s, (Ok x, s).
Definition raise {X} (e : exn) : M X := λ s, (Raise e, s).
Definition lift {X} (r : result X) : M X := λ s, (r, s).
Definition bind {X Y} (m : M X) (k : X → M Y) : M Y :=
  λ s, match m s with
       | (Ok x, s') => k x s'
       | (Raise e, s') => (Raise e, s')
       end.

(** [assert c] *)
Definition py_assert (c : bool) : M unit :=
  if c then ret tt else raise AssertionError.

(** [[f x for x in xs]] *)
Fixpoint list_comp {X Y} (f : X → M Y) (xs : list X) : M (list Y) :=
  match xs with
  | [] => ret []
  | x :: xs' =>
      bind (f x) (λ y, bind (list_comp f xs') (λ ys, ret (y :: ys)))
  end.

(** [try: body except Exception: handler] *)
Definition try_except_Exception (body handler : M unit) : M unit :=
  λ s, match body s with
       | (Ok u, s') => (Ok u, s')
       | (Raise e, s') =>
           if isinstance_Exception e then handler s' else (Raise e, s')
       end.
End Monad.

Notation "x <- m ;; k" := (bind m (λ x, k))
  (at level 100, m at next level, right associativity).
Notation "m ;;; k" := (bind m (λ _, k))
  (at level 100, right associativity).

(** ** numpy and random *)

Section Numpy.
Context {R : Type}.

(** [np.concatenate(arrays)]: needs at least one array. *)
Definition np_concatenate (arrays : list (list R)) : result (list R) :=
  match arrays with
  | [] => Raise ValueError
  | _ => Ok (concat arrays)
  end.

(** [np.append(a, b)] on one-dimensional arrays. *)
Definition np_append (a b : list R) : list R := a ++ b.
End Numpy.

(** [sorted(xs)] on indices. *)
Definition sorted (xs : list nat) : list nat := merge_sort Nat.le xs.

Section Random.
(** The state of the [random] module, and the indices it hands out on a
    call [random.sample(range(m), k)] with [0 <= k <= m]. *)
Context {rng : Type}.
Variable draw : rng → nat → nat → list nat * rng.

(** [random.sample(range(m), k)]: raises when the sample is larger than
    the population or negative. *)
Definition random_sample (m k : Z) : @M rng (list nat) :=
  λ g, if ((k <? 0) || (m <? k))%Z then (Raise ValueError, g)
       else let '(d, g') := draw g (Z.to_nat m) (Z.to_nat k) in (Ok d, g').

(** What [random.sample] promises of a draw: [k] distinct indices
    below [m]. *)
Definition is_sample (m k : nat) (d : list nat) : Prop :=
  length d = k ∧ NoDup d ∧ Forall (λ i, i < m) d.

(** ** The central-signal sampler *)

Context {R : Type}.
Variable zero : R.

Definition _get_central_signals (signals_list : list (list R))
    (rawsignal_num : Z) : @M rng (list R) :=
  let signal_lens := len <$> signals_list in
  if (py_sum signal_lens <? rawsignal_num)%Z then
    real_signals <- lift (np_concatenate signals_list) ;;
    ret (np_append real_signals
           (replicate (Z.to_nat (rawsignal_num - len real_signals)) zero))
  else
    let mid_loc := ((len signals_list - 1) ÷ 2)%Z in
    mid <- lift (py_getitem signals_list mid_loc) ;;
    let mid_base_len := len mid in
    if (rawsignal_num <=? mid_base_len)%Z then
      allcentsignals <- lift (py_getitem signals_list mid_loc) ;;
      chosen <- random_sample (len allcentsignals) rawsignal_num ;;
      list_comp (λ x, lift (py_getitem allcentsignals (Z.of_nat x)))
                (sorted chosen)
    else
      let left_len := ((rawsignal_num - mid_base_len) `div` 2)%Z in
      let right_len := (rawsignal_num - left_len)%Z in
      left_signals <- lift (np_concatenate (py_slice signals_list None (Some mid_loc))) ;;
      right_signals <- lift (np_concatenate (py_slice signals_list (Some mid_loc) None)) ;;
      let '(left_len, right_len) :=
        if (len left_signals <? left_len)%Z then
          (len left_signals, (right_len + left_len - len left_signals)%Z)
        else if (len right_signals <? right_len)%Z then
          ((left_len + right_len - len right_signals)%Z, len right_signals)
        else (left_len, right_len) in
      py_assert (right_len + left_len =? rawsignal_num)%Z ;;;
      if (left_len =? 0)%Z then
        ret (py_slice right_signals None (Some right_len))
      else
        ret (np_append (py_slice left_signals (Some (- left_len)%Z) None)
                       (py_slice right_signals None (Some right_len))).
End Random.

(** ** Motif expansion *)

(** [s.split(sep)] for a one-character separator: always at least one
    piece, empty pieces kept. *)
Fixpoint py_split (sep : ascii) (s : string) : list string :=
  match s with
  | EmptyString => [EmptyString]
  | String c s' =>
      if decide (c = sep) then EmptyString :: py_split sep s'
      else match py_split sep s' with
           | [] => [String c EmptyString]
           | w :: ws => String c w :: ws
           end
  end.

(** The characters of a string, as [for bbase in ori_seq] visits them. *)
Fixpoint chars (s : string) : list ascii :=
  match s with
  | EmptyString => []
  | String c s' => c :: chars s'
  end.

Definition result_bind {X Y} (r : result X) (k : X → result Y) : result Y :=
  match r with
  | Ok x => k x
  | Raise e => Raise e
  end.

(** [[f(x) for x in xs]] where [f] may raise. *)
Fixpoint result_map {X Y} (f : X → result Y) (xs : list X) : result (list Y) :=
  match xs with
  | [] => Ok []
  | x :: xs' =>
      result_bind (f x) (λ y, result_bind (result_map f xs') (λ ys, Ok (y :: ys)))
  end.

Notation "x <~ m ;; k" := (result_bind m (λ x, k))
  (at level 100, m at next level, right associativity).

(** The two nested loops of [recursive_permute]:
    [for fbase in b0: for sbase in b1: pseqs.append(fbase + sbase)]. *)
Definition permute_two (b0 b1 : list string) : list string :=
  fbase ← b0; sbase ← b1; [fbase +:+ sbase].

Section Motif.
(** [utils.process_utils.iupac_alphabets]: a dictionary from a letter to
    the bases it stands for. The table itself is not part of this module;
    the expansion is stated for an arbitrary table. *)
Variable iupac_alphabets : gmap ascii (list string).

(** [recursive_permute]. The recursion is not structural ([bases_list[1:]]
    of the empty list is the empty list again), and the interpreter bounds
    the depth of the call stack: [depth] is the number of nested calls the
    recursion limit ([sys.getrecursionlimit()]) still allows where
    [recursive_permute] is first called, each call takes one of them, and a
    call made when none is left raises [RecursionError]. Nothing in the
    function catches an exception, so the error of an inner call is the
    outcome of the outer one. *)
Fixpoint recursive_permute (depth : nat) (bases_list : list (list string))
    : result (list string) :=
  match depth with
  | O => Raise RecursionError
  | S depth' =>
      if (len bases_list =? 1)%Z then py_getitem bases_list 0
      else if (len bases_list =? 2)%Z then
        result_bind (py_getitem bases_list 0) (λ b0,
        result_bind (py_getitem bases_list 1) (λ b1,
        Ok (permute_two b0 b1)))
      else
        result_bind (recursive_permute depth' (py_slice bases_list (Some 1%Z) None))
          (λ pseqs,
        result_bind (py_getitem bases_list 0) (λ b0,
        recursive_permute depth' [b0; pseqs]))
  end.

(** The same function without the recursion limit, as a big-step relation:
    [rp_eval l r] holds when the call on [l] ends with [r] after finitely
    many calls. *)
Inductive rp_eval : list (list string) → result (list string) → Prop :=
  | rp_eval_one bases_list :
      len bases_list = 1%Z →
      rp_eval bases_list (py_getitem bases_list 0)
  | rp_eval_two bases_list :
      len bases_list ≠ 1%Z → len bases_list = 2%Z →
      rp_eval bases_list
        (result_bind (py_getitem bases_list 0) (λ b0,
         result_bind (py_getitem bases_list 1) (λ b1,
         Ok (permute_two b0 b1))))
  | rp_eval_tail_raises bases_list e :
      len bases_list ≠ 1%Z → len bases_list ≠ 2%Z →
      rp_eval (py_slice bases_list (Some 1%Z) None) (Raise e) →
      rp_eval bases_list (Raise e)
  | rp_eval_head_raises bases_list pseqs e :
      len bases_list ≠ 1%Z → len bases_list ≠ 2%Z →
      rp_eval (py_slice bases_list (Some 1%Z) None) (Ok pseqs) →
      py_getitem bases_list 0 = Raise e →
      rp_eval bases_list (Raise e)
  | rp_eval_more bases_list pseqs b0 r :
      len bases_list ≠ 1%Z → len bases_list ≠ 2%Z →
      rp_eval (py_slice bases_list (Some 1%Z) None) (Ok pseqs) →
      py_getitem bases_list 0 = Ok b0 →
      rp_eval [b0; pseqs] r →
      rp_eval bases_list r.

(** [iupac_alphabets[bbase]] *)
Definition iupac_lookup (bbase : ascii) : result (list string) :=
  match iupac_alphabets !! bbase with
  | Some bases => Ok bases
  | None => Raise KeyError
  end.

Definition _convert_motif_seq (depth : nat) (ori_seq : string)
    : result (list string) :=
  result_bind (result_map iupac_lookup (chars ori_seq)) (λ outbases,
  recursive_permute depth outbases).

(** The loop [for ori_motif in ori_motif_seqs: motif_seqs += ...]. *)
Fixpoint _get_motif_seqs_loop (depth : nat) (motif_seqs : list string)
    (ori_motif_seqs : list string) : result (list string) :=
  match ori_motif_seqs with
  | [] => Ok motif_seqs
  | ori_motif :: rest =>
      result_bind (_convert_motif_seq depth ori_motif) (λ seqs,
      _get_motif_seqs_loop depth (motif_seqs ++ seqs) rest)
  end.

Definition _get_motif_seqs (depth : nat) (motifs : string)
    : result (list string) :=
  let ori_motif_seqs := py_split ","%char motifs in
  _get_motif_seqs_loop depth [] ori_motif_seqs.

(** The cartesian product of the expansion sets, first letter outermost:
    what the expansion of one element is expected to be. *)
Fixpoint cartesian (bases_list : list (list string)) : list string :=
  match bases_list with
  | [] => [EmptyString]
  | b0 :: rest => permute_two b0 (cartesian rest)
  end.
End Motif.

(** ** Reads and feature records *)

(** A value that is an integer or a string: [chrom_start] is the integer
    attribute [mapped_start], or [''] when the read has no alignment. *)
Inductive pyval : Type :=
  | PyInt (z : Z)
  | PyStr (s : string).

(** [a + b] with [b] an integer: a string on the left is a [TypeError]. *)
Definition py_add_int (a : pyval) (b : Z) : result Z :=
  match a with
  | PyInt z => Ok (z + b)%Z
  | PyStr _ => Raise TypeError
  end.

(** [a + b] with [a] an integer. *)
Definition py_int_add (a : Z) (b : pyval) : result Z :=
  match b with
  | PyInt z => Ok (a + z)%Z
  | PyStr _ => Raise TypeError
  end.

(** [s.endswith(suffix)] *)
Definition py_endswith (s suffix : string) : bool :=
  let n := String.length s in
  let k := String.length suffix in
  (k <=? n) && String.eqb (String.substring (n - k) k s) suffix.

(** [s[lo:hi]] on a string. *)
Definition str_slice (s : string) (lo hi : option Z) : string :=
  String.string_of_list_ascii (py_slice (chars s) lo hi).

(** The dataset [Events] of a re-squiggled read: its attributes and its
    three columns. *)
Record events_table : Type := {
  ev_attrs : gmap string Z;
  ev_start : list Z;
  ev_length : list Z;
  ev_base : list string;
}.

(** The attributes of the group [Alignment]. *)
Record alignment_attrs : Type := {
  mapped_strand : string;
  mapped_chrom : string;
  mapped_start : Z;
}.

(** What the module reads of an opened fast5 file. A field is [None] when
    the path is absent from the file. The last two are indexed by the
    corrected group and the basecall subgroup. *)
Record h5file {R : Type} : Type := {
  h5_signal : option (list R);
  h5_read_id : option string;
  h5_events : string → string → option events_table;
  h5_alignment : string → string → option alignment_attrs;
}.
Arguments h5file R : clear implicits.

(** One output line, before its fields are rendered and joined by tabs. *)
Record feature {R : Type} : Type := {
  f_chrom : string;
  f_pos : Z;
  f_alignstrand : string;
  f_cpgloc_in_ref : Z;
  f_readname : string;
  f_strand : string;
  f_k_mer : string;
  f_signal_means : list R;
  f_signal_stds : list R;
  f_signal_lens : list Z;
  f_cent_signals : list R;
  f_methy_label : string;
}.
Arguments feature R : clear implicits.

(** The state [_extract_features] runs in: the [random] module, what was
    printed ([extracted success a of b] as the pair [(a, b)]), and the two
    locals the loop mutates. *)
Record estate {rng R : Type} : Type := {
  st_rng : rng;
  st_stdout : list (Z * Z);
  features_str : list (feature R);
  error : Z;
}.
Arguments estate rng R : clear implicits.

(** Floating point, as the module uses it: the sample [0] used for padding,
    [np.mean], [np.std], [np.median], [robust.mad], subtraction, division and
    [np.around(_, decimals=6)]. *)
Class Numpy (R : Type) : Type := {
  np_zero : R;
  np_mean : list R → R;
  np_std : list R → R;
  np_median : list R → R;
  robust_mad : list R → R;
  np_sub : R → R → R;
  np_div : R → R → R;
  np_around6 : R → R;
}.

Section Extraction.
Context {rng R : Type} `{!Numpy R}.
Variable draw : rng → nat → nat → list nat * rng.

(** [h5py.File(fn, 'r')]: [None] when the file cannot be opened. *)
Variable h5py_File : string → option (h5file R).

(** [utils.process_utils.get_refloc_of_methysite_in_motif]. *)
Variable get_refloc_of_methysite_in_motif : string → string → Z → list Z.

Abbreviation estate := (estate rng R).
Abbreviation feature := (feature R).

Definition _get_label_raw (fast5_fn correct_group correct_subgroup : string)
    : result (list R * list (Z * Z * string)) :=
  match h5py_File fast5_fn with
  | None => Raise IOError
  | Some fast5_data =>
      match h5_signal fast5_data with
      | None => Raise RuntimeError
      | Some raw_dat =>
          match h5_events fast5_data correct_group correct_subgroup with
          | None => Raise RuntimeError
          | Some event =>
              match ev_attrs event !! "read_start_rel_to_raw" with
              | None => Raise KeyError
              | Some read_start_rel_to_raw =>
                  let starts := (λ x, x + read_start_rel_to_raw)%Z <$> ev_start event in
                  let lengths := ev_length event in
                  let base := ev_base event in
                  if negb (len starts =? len lengths)%Z then Raise AssertionError
                  else if negb (len lengths =? len base)%Z then Raise AssertionError
                  else Ok (raw_dat, zip (zip starts lengths) base)
              end
          end
      end
  end.

Definition _get_alignment_attrs_of_each_strand (strand_path : string)
    (alignment_attrs : alignment_attrs) : string * string * string * Z :=
  let strand := if py_endswith strand_path "template" then "t" else "c" in
  let alignstrand := mapped_strand alignment_attrs in
  let chrom := mapped_chrom alignment_attrs in
  let chrom_start := mapped_start alignment_attrs in
  (strand, alignstrand, chrom, chrom_start).

Definition _get_readid_from_fast5 (h5file : h5file R) : result string :=
  match h5_read_id h5file with
  | Some read_id => Ok read_id
  | None => Raise KeyError
  end.

(** The five empty strings returned for a read without alignment. *)
Definition no_alignment : string * string * string * string * pyval :=
  ("", "", "", "", PyStr "").

Definition _get_alignment_info_from_fast5
    (fast5_path corrected_group basecall_subgroup : string)
    : result (string * string * string * string * pyval) :=
  match h5py_File fast5_path with
  | None => Ok no_alignment
  | Some h5file =>
      let corrgroup_path := "Analyses" +:+ "/" +:+ corrected_group in
      match h5_alignment h5file corrected_group basecall_subgroup with
      | Some attrs =>
          result_bind (_get_readid_from_fast5 h5file) (λ readname,
            let '(strand, alignstrand, chrom, chrom_start) :=
              _get_alignment_attrs_of_each_strand
                (corrgroup_path +:+ "/" +:+ basecall_subgroup) attrs in
            Ok (readname, strand, alignstrand, chrom, PyInt chrom_start))
      | None => Ok no_alignment
      end
  end.

Definition _normalize_signals (signals : list R) (normalize_method : string)
    : result (list R) :=
  let rescale sshift sscale :=
    Ok (np_around6 <$> ((λ x, np_div (np_sub x sshift) sscale) <$> signals)) in
  if String.eqb normalize_method "zscore" then
    rescale (np_mean signals) (np_std signals)
  else if String.eqb normalize_method "mad" then
    rescale (np_median signals) (robust_mad signals)
  else Raise ValueError.

(** *** Effects on the state *)

Definition with_rng {X} (m : @M rng X) : @M estate X :=
  λ s, let '(r, g) := m (st_rng s) in
       (r, {| st_rng := g; st_stdout := st_stdout s;
              features_str := features_str s; error := error s |}).

(** [features_str.append(f)] *)
Definition features_str_append (f : feature) : @M estate unit :=
  λ s, (Ok tt, {| st_rng := st_rng s; st_stdout := st_stdout s;
                  features_str := features_str s ++ [f]; error := error s |}).

(** [error += 1] *)
Definition error_incr : @M estate unit :=
  λ s, (Ok tt, {| st_rng := st_rng s; st_stdout := st_stdout s;
                  features_str := features_str s; error := (error s + 1)%Z |}).

(** [features_str = []; error = 0] *)
Definition init_locals : @M estate unit :=
  λ s, (Ok tt, {| st_rng := st_rng s; st_stdout := st_stdout s;
                  features_str := []; error := 0%Z |}).

(** [print("extracted success {} of {}".format(a, b))] *)
Definition print_success (total : Z) : @M estate unit :=
  λ s, (Ok tt, {| st_rng := st_rng s;
                  st_stdout := st_stdout s ++ [((total - error s)%Z, total)];
                  features_str := features_str s; error := error s |}).

(** [return features_str, error] *)
Definition return_locals : @M estate (list feature * Z) :=
  λ s, (Ok (features_str s, error s), s).

(** [for x in xs: body(x)] *)
Fixpoint for_each {X} (body : X → @M estate unit) (xs : list X) : @M estate unit :=
  match xs with
  | [] => ret tt
  | x :: xs' => body x ;;; for_each body xs'
  end.

(** *** [_extract_features] *)

(** The locals of the [try] block that the loop over the sites reads. *)
Record read_locals : Type := {
  genomeseq : string;
  signal_list : list (list R);
  readname : string;
  strand : string;
  alignstrand : string;
  chrom : string;
  chromlen : Z;
  chrom_start_in_alignstrand : pyval;
  cpg_site_locs : list Z;
  num_bases : Z;
}.

Section PerRead.
Variables (corrected_group basecall_subgroup normalize_method : string).
Variable motif_seqs : list string.
Variable methyloc : Z.
Variable chrom2len : gmap string Z.
Variables kmer_len raw_signals_len : Z.
Variable methy_label : string.

(** The [try] block up to the loop over the sites: it reads the file and
    computes the locals, or raises. *)
Definition read_setup (fast5_fp : string) : result read_locals :=
  label_raw <~ _get_label_raw fast5_fp corrected_group basecall_subgroup ;;
  let '(raw_signal, events) := label_raw in
  norm_signals <~ _normalize_signals raw_signal normalize_method ;;
  let genomeseq := foldl (λ acc e, acc +:+ e.2) "" events in
  let signal_list :=
    (λ e, py_slice norm_signals (Some e.1.1) (Some (e.1.1 + e.1.2)%Z)) <$> events in
  info <~ _get_alignment_info_from_fast5 fast5_fp corrected_group basecall_subgroup ;;
  let '(readname, strand, alignstrand, chrom, chrom_start) := info in
  chromlen <~ match chrom2len !! chrom with
              | Some n => Ok n
              | None => Raise KeyError
              end ;;
  chrom_start_in_alignstrand <~
    (if String.eqb alignstrand "+" then Ok chrom_start
     else s <~ py_add_int chrom_start (Z.of_nat (String.length genomeseq)) ;;
          Ok (PyInt (chromlen - s)%Z)) ;;
  let cpg_site_locs :=
    mseq ← motif_seqs; get_refloc_of_methysite_in_motif genomeseq mseq methyloc in
  _ <~ (if (kmer_len `mod` 2 =? 0)%Z then Raise ValueError else Ok tt) ;;
  let num_bases := ((kmer_len - 1) `div` 2)%Z in
  Ok {| genomeseq := genomeseq; signal_list := signal_list;
        readname := readname; strand := strand; alignstrand := alignstrand;
        chrom := chrom; chromlen := chromlen;
        chrom_start_in_alignstrand := chrom_start_in_alignstrand;
        cpg_site_locs := cpg_site_locs; num_bases := num_bases |}.

(** The body of [for cpgloc_in_read in cpg_site_locs]. *)
Definition site_features (L : read_locals) (cpgloc_in_read : Z) : @M estate unit :=
  if ((num_bases L <=? cpgloc_in_read)
      && (cpgloc_in_read <? Z.of_nat (String.length (genomeseq L)) - num_bases L))%Z
  then
    cpgloc_in_ref <- lift (py_int_add cpgloc_in_read (chrom_start_in_alignstrand L)) ;;
    let pos := if String.eqb (alignstrand L) "-"
               then (chromlen L - 1 - cpgloc_in_ref)%Z
               else cpgloc_in_ref in
    let k_mer := str_slice (genomeseq L) (Some (cpgloc_in_read - num_bases L)%Z)
                   (Some (cpgloc_in_read + num_bases L + 1)%Z) in
    let k_signals := py_slice (signal_list L) (Some (cpgloc_in_read - num_bases L)%Z)
                       (Some (cpgloc_in_read + num_bases L + 1)%Z) in
    let signal_lens := len <$> k_signals in
    let signal_means := np_mean <$> k_signals in
    let signal_stds := np_std <$> k_signals in
    cent_signals <- with_rng (_get_central_signals draw np_zero k_signals raw_signals_len) ;;
    features_str_append
      {| f_chrom := chrom L; f_pos := pos; f_alignstrand := alignstrand L;
         f_cpgloc_in_ref := cpgloc_in_ref; f_readname := readname L;
         f_strand := strand L; f_k_mer := k_mer;
         f_signal_means := np_around6 <$> signal_means;
         f_signal_stds := np_around6 <$> signal_stds;
         f_signal_lens := signal_lens;
         f_cent_signals := cent_signals;
         f_methy_label := methy_label |}
  else ret tt.

(** The body of the [try] block, for one file. *)
Definition read_features (fast5_fp : string) : @M estate unit :=
  L <- lift (read_setup fast5_fp) ;;
  for_each (site_features L) (cpg_site_locs L).

Definition _extract_features (fast5s : list string)
    : @M estate (list feature * Z) :=
  init_locals ;;;
  for_each (λ fast5_fp, try_except_Exception (read_features fast5_fp) error_incr)
           fast5s ;;;
  print_success (len fast5s) ;;;
  return_locals.
End PerRead.
End Extraction.

(** ** The sampler, as the design describes it *)

(** The floor-midpoint index of a window, and its central vector. *)
Definition mid_index {A} (l : list A) : nat := (length l - 1) / 2.

Definition central {R} (signals_list : list (list R)) : list R :=
  default [] (signals_list !! mid_index signals_list).

(** The last [k] and the first [k] samples of a vector. *)
Definition last_samples {A} (k : Z) (l : list A) : list A :=
  drop (length l - Z.to_nat k) l.
Definition first_samples {A} (k : Z) (l : list A) : list A :=
  take (Z.to_nat k) l.

(** The left and right concatenations of the split branch. *)
Definition left_part {R} (signals_list : list (list R)) : list R :=
  concat (take (mid_index signals_list) signals_list).
Definition right_part {R} (signals_list : list (list R)) : list R :=
  concat (drop (mid_index signals_list) signals_list).

(** The budget of the split branch: half of what the central vector leaves
    goes to the left, the rest to the right, and a shortfall on one side is
    moved to the other. *)
Definition split_budget (target_len mid_len left_avail right_avail : Z) : Z * Z :=
  let left_len := ((target_len - mid_len) `div` 2)%Z in
  let right_len := (target_len - left_len)%Z in
  if (left_avail <? left_len)%Z then
    (left_avail, (right_len + (left_len - left_avail))%Z)
  else if (right_avail <? right_len)%Z then
    ((left_len + (right_len - right_avail))%Z, right_avail)
  else (left_len, right_len).

(** The three branches of the sampler. *)
Definition pad_branch {R} (signals_list : list (list R)) (target_len : Z) : Prop :=
  (py_sum (len <$> signals_list) < target_len)%Z.
Definition random_branch {R} (signals_list : list (list R)) (target_len : Z) : Prop :=
  (target_len ≤ len (central signals_list))%Z.
Definition split_branch {R} (signals_list : list (list R)) (target_len : Z) : Prop :=
  (target_len ≤ py_sum (len <$> signals_list))%Z
  ∧ (len (central signals_list) < target_len)%Z.

(** ** Motif expansion, as the design describes it *)

(** The expansion sets of the letters of one element, an element that can be
    expanded (not empty, every letter in the table), and the expansion of a
    comma-separated specification. *)
Definition expansion_sets (tbl : gmap ascii (list string)) (elem : string)
    : list (list string) :=
  (λ c, default [] (tbl !! c)) <$> chars elem.

Definition well_formed_element (tbl : gmap ascii (list string)) (elem : string) : Prop :=
  elem ≠ EmptyString ∧ Forall (λ c, is_Some (tbl !! c)) (chars elem).

Definition expand_motifs (tbl : gmap ascii (list string)) (motifs : string)
    : list string :=
  elem ← py_split ","%char motifs; cartesian (expansion_sets tbl elem).

(** The product of the sizes of the expansion sets. *)
Definition product (ns : list nat) : nat := foldr Nat.mul 1 ns.

(** ** Coordinates, as the design describes them *)

(** The coordinate mapper: the position in the align strand and the position
    in the strand of a site at [offset_in_read]. *)
Definition map_to_reference (offset_in_read genome_sequence_len : Z)
    (alignstrand : string) (chrom_start chrom_len : Z) : Z * Z :=
  let start_in_alignstrand :=
    if String.eqb alignstrand "+" then chrom_start
    else (chrom_len - (chrom_start + genome_sequence_len))%Z in
  let ref_pos_in_alignstrand := (offset_in_read + start_in_alignstrand)%Z in
  let ref_pos_in_strand :=
    if String.eqb alignstrand "-" then (chrom_len - 1 - ref_pos_in_alignstrand)%Z
    else ref_pos_in_alignstrand in
  (ref_pos_in_alignstrand, ref_pos_in_strand).

(** The inverse strand formula: undo the flip of the reverse strand, then
    subtract the start of the read in the align strand. *)
Definition recover_offset (ref_pos_in_strand genome_sequence_len : Z)
    (alignstrand : string) (chrom_start chrom_len : Z) : Z :=
  let start_in_alignstrand :=
    if String.eqb alignstrand "+" then chrom_start
    else (chrom_len - (chrom_start + genome_sequence_len))%Z in
  let ref_pos_in_alignstrand :=
    if String.eqb alignstrand "-" then (chrom_len - 1 - ref_pos_in_strand)%Z
    else ref_pos_in_strand in
  (ref_pos_in_alignstrand - start_in_alignstrand)%Z.

(** A site far enough from both ends of the read for a full k-mer. *)
Definition in_bounds {R} (L : @read_locals R) (o : Z) : Prop :=
  (num_bases L ≤ o < Z.of_nat (String.length (genomeseq L)) - num_bases L)%Z.

Global Instance in_bounds_dec {R} (L : @read_locals R) (o : Z) : Decision (in_bounds L o).
Proof. unfold in_bounds. apply _. Defined.

(** The record of a site at offset [o] of a read that starts at [start] in
    the align strand, with central samples [cent]. *)
Definition site_record {R} `{!Numpy R} (methy_label : string) (L : @read_locals R)
    (o start : Z) (cent : list R) : feature R :=
  let lo := (o - num_bases L)%Z in
  let hi := (o + num_bases L + 1)%Z in
  let k_signals := py_slice (signal_list L) (Some lo) (Some hi) in
  {| f_chrom := chrom L;
     f_pos := if String.eqb (alignstrand L) "-"
              then (chromlen L - 1 - (o + start))%Z else (o + start)%Z;
     f_alignstrand := alignstrand L;
     f_cpgloc_in_ref := (o + start)%Z;
     f_readname := readname L;
     f_strand := strand L;
     f_k_mer := str_slice (genomeseq L) (Some lo) (Some hi);
     f_signal_means := np_around6 <$> (np_mean <$> k_signals);
     f_signal_stds := np_around6 <$> (np_std <$> k_signals);
     f_signal_lens := len <$> k_signals;
     f_cent_signals := cent;
     f_methy_label := methy_label |}.

(** ** A batch, read by read *)

Section Batch.
Context {rng R : Type} `{!Numpy R}.
Variable draw : rng → nat → nat → list nat * rng.
Variable h5py_File : string → option (h5file R).
Variable get_refloc_of_methysite_in_motif : string → string → Z → list Z.
Variables (corrected_group basecall_subgroup normalize_method : string).
Variable motif_seqs : list string.
Variable methyloc : Z.
Variable chrom2len : gmap string Z.
Variables kmer_len raw_signals_len : Z.
Variable methy_label : string.

(** A state with nothing printed, no record and no failure. *)
Definition fresh (g : rng) : estate rng R :=
  {| st_rng := g; st_stdout := []; features_str := []; error := 0%Z |}.

(** [extend s s1]: the state [s] after a computation that, started from a
    fresh state, ends in [s1]. A computation is [framed] when it behaves
    that way: it only appends to the output, to the records and to the
    failure count, and reads none of them. *)
Definition extend (s s1 : estate rng R) : estate rng R :=
  {| st_rng := st_rng s1;
     st_stdout := st_stdout s ++ st_stdout s1;
     features_str := features_str s ++ features_str s1;
     error := (error s + error s1)%Z |}.

Definition framed {X} (m : @M (estate rng R) X) : Prop :=
  ∀ s, m s = ((m (fresh (st_rng s))).1, extend s (m (fresh (st_rng s))).2).

(** [new] holds records of sites of [sites] only, each in bounds, of a
    read with locals [L]. *)
Definition records_of (L : @read_locals R) (sites : list Z)
    (new : list (feature R)) : Prop :=
  Forall (λ rec, ∃ o z cent,
            o ∈ sites ∧ in_bounds L o
            ∧ chrom_start_in_alignstrand L = PyInt z
            ∧ rec = site_record methy_label L o z cent) new.

(** What each read of a batch does on its own, the generator being handed
    from one read to the next: the records it appends, and whether its
    [try] block ends normally or raises. *)
Fixpoint read_outcomes (fast5s : list string) (g : rng)
    : list (list (feature R) * result unit) * rng :=
  match fast5s with
  | [] => ([], g)
  | fast5_fp :: rest =>
      let '(r, s) :=
        read_features draw h5py_File get_refloc_of_methysite_in_motif
          corrected_group basecall_subgroup normalize_method motif_seqs
          methyloc chrom2len kmer_len raw_signals_len methy_label
          fast5_fp (fresh g) in
      let '(outcomes, g') := read_outcomes rest (st_rng s) in
      ((features_str s, r) :: outcomes, g')
  end.

(** A configuration the design rejects: an even k-mer length, or a
    normalization method that is neither [zscore] nor [mad]. *)
Definition bad_config : Prop :=
  (kmer_len `mod` 2 = 0)%Z
  ∨ (normalize_method ≠ "zscore" ∧ normalize_method ≠ "mad").

Definition raised {X} (r : result X) : bool :=
  match r with Ok _ => false | Raise _ => true end.

(** The number of reads of a batch whose [try] block raises. *)
Definition failures (outcomes : list (list (feature R) * result unit)) : Z :=
  len (filter (λ o, raised o.2 = true) outcomes).
End Batch.

(** ** Concrete instances for the examples *)

(** A generator whose state counts the calls made and which picks the last
    [k] indices of the population, highest first. *)
Definition last_first_draw (g : nat) (m k : nat) : list nat * nat :=
  (reverse (seq (m - k) k), S g).

(** Modelled from the spec: [utils.process_utils.iupac_alphabets] is not
    part of this module; the table below is the IUPAC nucleotide code, each
    letter with the bases it covers. *)
Definition iupac_standard : gmap ascii (list string) :=
  list_to_map
    [("A"%char, ["A"]); ("C"%char, ["C"]); ("G"%char, ["G"]); ("T"%char, ["T"]);
     ("R"%char, ["A"; "G"]); ("M"%char, ["A"; "C"]); ("S"%char, ["C"; "G"]);
     ("Y"%char, ["C"; "T"]); ("K"%char, ["G"; "T"]); ("W"%char, ["A"; "T"]);
     ("B"%char, ["C"; "G"; "T"]); ("D"%char, ["A"; "G"; "T"]);
     ("H"%char, ["A"; "C"; "T"]); ("V"%char, ["A"; "C"; "G"]);
     ("N"%char, ["A"; "C"; "G"; "T"])].

(** Integer samples stand in for floating point in the examples. *)
Definition integer_samples : Numpy Z :=
  {| np_zero := 0%Z;
     np_mean := λ l, (py_sum l `div` len l)%Z;
     np_std := λ _, 1%Z;
     np_median := λ l, (py_sum l `div` len l)%Z;
     robust_mad := λ _, 1%Z;
     np_sub := Z.sub;
     np_div := Z.div;
     np_around6 := id |}.

(** Modelled from the spec: [utils.process_utils.get_refloc_of_methysite_in_motif]
    is not part of this module; it returns every offset at which the motif
    occurs in the sequence, each moved by the position of the targeted base
    in the motif. *)
Fixpoint find_sites_from (i : Z) (seqstr motif : string) (methyloc : Z) : list Z :=
  match seqstr with
  | EmptyString => []
  | String _ rest =>
      (if String.prefix motif seqstr then [(i + methyloc)%Z] else [])
      ++ find_sites_from (i + 1) rest motif methyloc
  end.

Definition find_sites : string → string → Z → list Z := find_sites_from 0.

(** A read of five bases [AACGT], two samples per base, and the files of the
    examples: the read aligned to the forward strand, the same read aligned
    to the reverse strand, and a read without the group [Alignment]; any
    other path cannot be opened. *)
Definition example_events : events_table :=
  {| ev_attrs := {[ "read_start_rel_to_raw" := 0%Z ]};
     ev_start := [0; 2; 4; 6; 8]%Z;
     ev_length := [2; 2; 2; 2; 2]%Z;
     ev_base := ["A"; "A"; "C"; "G"; "T"] |}.

Definition example_read (mapped_strand : option string) : h5file Z :=
  {| h5_signal := Some [10; 20; 30; 40; 50; 60; 70; 80; 90; 100]%Z;
     h5_read_id := Some "read-1";
     h5_events := λ _ _, Some example_events;
     h5_alignment := λ _ _,
       strand ← mapped_strand;
       Some {| mapped_strand := strand; mapped_chrom := "chr1";
               mapped_start := 100%Z |} |}.

Definition example_files (fn : string) : option (h5file Z) :=
  if String.eqb fn "plus.fast5" then Some (example_read (Some "+"))
  else if String.eqb fn "minus.fast5" then Some (example_read (Some "-"))
  else if String.eqb fn "unaligned.fast5" then Some (example_read None)
  else None.

(** A read of five bases [CGACG], two samples per base, aligned to the
    forward strand: the motif [CG] occurs at the offsets 0 and 3, and with
    3-mers the first occurrence is too close to the start of the read. *)
Definition example_edge_events : events_table :=
  {| ev_attrs := {[ "read_start_rel_to_raw" := 0%Z ]};
     ev_start := [0; 2; 4; 6; 8]%Z;
     ev_length := [2; 2; 2; 2; 2]%Z;
     ev_base := ["C"; "G"; "A"; "C"; "G"] |}.

Definition example_edge_files (fn : string) : option (h5file Z) :=
  if String.eqb fn "edge.fast5" then
    Some {| h5_signal := Some [10; 20; 30; 40; 50; 60; 70; 80; 90; 100]%Z;
            h5_read_id := Some "read-2";
            h5_events := λ _ _, Some example_edge_events;
            h5_alignment := λ _ _,
              Some {| mapped_strand := "+"; mapped_chrom := "chr1";
                      mapped_start := 200%Z |} |}
  else None.

Definition example_chrom2len : gmap string Z := {[ "chr1" := 1000%Z ]}.

(** [_extract_features] on the example files, with motif [CG], site at the
    first base of the motif, and four central samples. *)
Definition example_extract (normalize_method : string) (kmer_len : Z)
    (fast5s : list string) : @M (estate nat Z) (list (feature Z) * Z) :=
  _extract_features (Numpy0 := integer_samples) last_first_draw example_files find_sites
    "RawGenomeCorrected_000" "BaseCalled_template" normalize_method
    ["CG"] 0 example_chrom2len kmer_len 4 "1" fast5s.

Definition example_state : estate nat Z :=
  {| st_rng := 0; st_stdout := []; features_str := []; error := 0%Z |}.

(** The [try] block of [_extract_features] on one example file, with the
    method [mad] and 3-mers, and its part before the loop over the sites. *)
Definition example_body (fast5_fp : string) : @M (estate nat Z) unit :=
  read_features (Numpy0 := integer_samples) last_first_draw example_files find_sites
    "RawGenomeCorrected_000" "BaseCalled_template" "mad"
    ["CG"] 0 example_chrom2len 3 4 "1" fast5_fp.

Definition example_setup (fast5_fp : string) : result (@read_locals Z) :=
  read_setup (Numpy0 := integer_samples) example_files find_sites
    "RawGenomeCorrected_000" "BaseCalled_template" "mad"
    ["CG"] 0 example_chrom2len 3 fast5_fp.

(** The record of the site [C] of [AACGT] on the reverse strand. *)
Definition example_minus_record : feature Z :=
  {| f_chrom := "chr1"; f_pos := 102; f_alignstrand := "-";
     f_cpgloc_in_ref := 897; f_readname := "read-1"; f_strand := "t";
     f_k_mer := "ACG";
     f_signal_means := [-20; 0; 20]%Z; f_signal_stds := [1; 1; 1]%Z;
     f_signal_lens := [2; 2; 2]%Z; f_cent_signals := [-15; -5; 5; 15]%Z;
     f_methy_label := "1" |}.

(** A generator that hands out the last [k] indices, lowest first when its
    state is even and highest first when it is odd. *)
Definition parity_draw (g : nat) (m k : nat) : list nat * nat :=
  (if Nat.even g then seq (m - k) k else reverse (seq (m - k) k), S g).

(** ** The pipeline: batches, workers and the writer *)

(** A [multiprocessing.Queue] is a pipe shared by the processes, and in each
    process that puts a buffer with a feeder thread: [put] adds at the end
    of the buffer of the process, the feeder thread moves what is in the
    buffer to the pipe, in order and in its own time, [get] takes the head
    of the pipe and waits while the pipe holds nothing, and [empty] says
    whether the pipe holds nothing, whatever the buffers hold. A process
    that ends waits for its feeder thread to have emptied its buffer. The
    pipe is taken without a bound on what it holds.

    What the workers put on the result queue is a list of lines; the main
    process ends the stream with the string ["kill"]. *)
Inductive message (A : Type) : Type :=
  | Features (features_str : list A)
  | Kill.
Arguments Features {A} features_str.
Arguments Kill {A}.

(** [np.arange(0, stop, step)] on integers: [ceil(stop / step)] values
    [0, step, 2 * step, ...], none when that number is not positive; a step
    of [0] raises, which is [None] here. *)
Definition np_arange (stop step : Z) : option (list Z) :=
  if (step =? 0)%Z then None
  else Some ((λ i, Z.of_nat i * step)%Z <$> seq 0 (Z.to_nat (- ((- stop) `div` step)))).

Definition _fill_files_queue {X} (fast5s_q : list (list X)) (fast5_files : list X)
    (batch_size : Z) : option (list (list X)) :=
  starts ← np_arange (len fast5_files) batch_size;
  Some (fast5s_q
        ++ ((λ i, py_slice fast5_files (Some i) (Some (i + batch_size)%Z)) <$> starts)).

(** [_write_featurestr_to_file], as a function of the messages that reach
    [featurestr_q] over time: the lines written since the file was opened
    and the messages left unread, or [None] when the writer is left waiting
    in [get]. The file is opened for writing, so [wf] starts empty. *)
Fixpoint write_loop {A} (wf : list A) (featurestr_q : list (message A))
    : option (list A * list (message A)) :=
  match featurestr_q with
  | [] => None
  | Kill :: rest => Some (wf, rest)
  | Features features_str :: rest => write_loop (wf ++ features_str) rest
  end.

Definition _write_featurestr_to_file {A} (featurestr_q : list (message A))
    : option (list A * list (message A)) :=
  write_loop [] featurestr_q.

(** Where a worker process is in [_get_a_batch_features_str]: at the test
    [fast5s_q.empty()] of the loop, at [fast5s_q.get()], at the call of
    [_extract_features] on the batch it has taken, or returned. *)
Inductive worker_pc : Type :=
  | AtEmptyTest
  | AtGet
  | AtExtract (fast5s : list string)
  | Returned.

(** A worker process: where it is, its state, and the messages it has put
    on [featurestr_q] that its feeder thread has not yet written to the
    pipe. *)
Record worker {rng R : Type} : Type := {
  w_pc : worker_pc;
  w_state : estate rng R;
  w_buffer : list (message (feature R));
}.
Arguments worker rng R : clear implicits.

(** The two queues: the batches the main process has put on [fast5s_q] that
    its feeder thread has not yet written, the pipe of [fast5s_q], and the
    pipe of [featurestr_q]. *)
Record queues {R : Type} : Type := {
  fast5s_buffer : list (list string);
  fast5s_q : list (list string);
  featurestr_q : list (message (feature R));
}.
Arguments queues R : clear implicits.

(** What happens next: the feeder thread of the main process writes a batch
    to the pipe of [fast5s_q]; the worker [i] makes its next action; or the
    feeder thread of the worker [i] writes a message to the pipe of
    [featurestr_q]. *)
Inductive action : Type :=
  | Feed
  | Act (i : nat)
  | Flush (i : nat).

(** The number of worker processes [extract_features] starts:
    [if nproc > 1: nproc -= 1], then [for _ in range(nproc)]. *)
Definition worker_count (nproc : Z) : nat :=
  Z.to_nat (if (1 <? nproc)%Z then (nproc - 1)%Z else nproc).

(** The feeder thread of the main process writes the oldest batch of its
    buffer to the pipe. *)
Definition feed {R} (q : queues R) : queues R :=
  match fast5s_buffer q with
  | [] => q
  | fast5s :: rest =>
      {| fast5s_buffer := rest; fast5s_q := fast5s_q q ++ [fast5s];
         featurestr_q := featurestr_q q |}
  end.

(** The feeder thread of a worker writes the oldest message of its buffer
    to the pipe. *)
Definition flush {rng R} (w : worker rng R) (q : queues R) : worker rng R * queues R :=
  match w_buffer w with
  | [] => (w, q)
  | features_str :: rest =>
      ({| w_pc := w_pc w; w_state := w_state w; w_buffer := rest |},
       {| fast5s_buffer := fast5s_buffer q; fast5s_q := fast5s_q q;
          featurestr_q := featurestr_q q ++ [features_str] |})
  end.

Section Pipeline.
Context {rng R : Type} `{!Numpy R}.
Variable draw : rng → nat → nat → list nat * rng.
Variable h5py_File : string → option (h5file R).
Variable get_refloc_of_methysite_in_motif : string → string → Z → list Z.
Variables (corrected_group basecall_subgroup normalize_method : string).
Variable motif_seqs : list string.
Variable methyloc : Z.
Variable chrom2len : gmap string Z.
Variables kmer_len raw_signals_len : Z.
Variable methy_label : string.

(** [_get_a_batch_features_str], one action at a time, in a process that
    runs among others: the test [fast5s_q.empty()], which ends the loop
    when the pipe holds nothing, even when batches are still in the buffer
    of the main process; [fast5s_q.get()], which waits, the worker staying
    where it is, while the pipe holds nothing; or the work on the batch
    taken, with the [put] of its records. [get] is called without a
    timeout and raises nothing, so that the handler around it is never
    entered. An exception that leaves the loop body ends the process. *)
Definition _get_a_batch_features_str (w : worker rng R) (q : queues R)
    : worker rng R * queues R :=
  match w_pc w with
  | Returned => (w, q)
  | AtEmptyTest =>
      match fast5s_q q with
      | [] => ({| w_pc := Returned; w_state := w_state w; w_buffer := w_buffer w |}, q)
      | _ :: _ => ({| w_pc := AtGet; w_state := w_state w; w_buffer := w_buffer w |}, q)
      end
  | AtGet =>
      match fast5s_q q with
      | [] => (w, q)
      | fast5s :: rest =>
          ({| w_pc := AtExtract fast5s; w_state := w_state w; w_buffer := w_buffer w |},
           {| fast5s_buffer := fast5s_buffer q; fast5s_q := rest;
              featurestr_q := featurestr_q q |})
      end
  | AtExtract fast5s =>
      match _extract_features draw h5py_File get_refloc_of_methysite_in_motif
              corrected_group basecall_subgroup normalize_method motif_seqs
              methyloc chrom2len kmer_len raw_signals_len methy_label fast5s
              (w_state w) with
      | (Ok (features_str, error_num), s) =>
          ({| w_pc := AtEmptyTest; w_state := s;
              w_buffer := w_buffer w ++ [Features features_str] |}, q)
      | (Raise e, s) =>
          ({| w_pc := Returned; w_state := s; w_buffer := w_buffer w |}, q)
      end
  end.

(** The worker processes and the queues, and what an action makes of
    them. *)
Definition schedule_step (sys : list (worker rng R) * queues R) (a : action)
    : list (worker rng R) * queues R :=
  match a with
  | Feed => (sys.1, feed sys.2)
  | Act i =>
      match sys.1 !! i with
      | None => sys
      | Some w =>
          let '(w', q') := _get_a_batch_features_str w sys.2 in
          (<[i := w']> sys.1, q')
      end
  | Flush i =>
      match sys.1 !! i with
      | None => sys
      | Some w =>
          let '(w', q') := flush w sys.2 in
          (<[i := w']> sys.1, q')
      end
  end.

(** [p.join()] returns for every worker: each has returned from
    [_get_a_batch_features_str] and its feeder thread has written all its
    messages. *)
Definition all_joined (ws : list (worker rng R)) : bool :=
  forallb (λ w, match w_pc w, w_buffer w with
                | Returned, [] => true
                | _, _ => false
                end) ws.

(** [extract_features] under a schedule: [schedule] lists, in order, what
    happens after the workers are started, and [worker_rng i] is the state
    of the [random] module in the worker [i] when it starts. The batches
    are in the buffer of the main process when [_fill_files_queue] returns.
    The result is the content of the output file, or [None] when the call
    does not return: the batch size is [0], or a worker has not ended when
    the schedule ends, so that the main process is still in [join]. *)
Definition extract_features (worker_rng : nat → rng) (schedule : list action)
    (fast5_files : list string) (batch_size nproc : Z)
    : option (list (feature R)) :=
  fast5s ← _fill_files_queue [] fast5_files batch_size;
  let workers :=
    (λ i, {| w_pc := AtEmptyTest; w_state := fresh (worker_rng i); w_buffer := [] |})
      <$> seq 0 (worker_count nproc) in
  let sys := foldl schedule_step
               (workers,
                {| fast5s_buffer := fast5s; fast5s_q := []; featurestr_q := [] |})
               schedule in
  if all_joined sys.1 then
    fst <$> _write_featurestr_to_file (featurestr_q sys.2 ++ [Kill])
  else None.
End Pipeline.

(** ** Tables of single bases *)

(** Every entry of the table lists strings of one character, as the IUPAC
    table does. *)
Definition single_letter_bases (tbl : gmap ascii (list string)) : Prop :=
  ∀ c bs, tbl !! c = Some bs → Forall (λ b, String.length b = 1) bs.

(** No entry of the table lists a base twice. *)
Definition distinct_bases (tbl : gmap ascii (list string)) : Prop :=
  ∀ c bs, tbl !! c = Some bs → NoDup bs.

(** The letter [c] of a motif element stands for the character [ch]. *)
Definition covers (tbl : gmap ascii (list string)) (ch c : ascii) : Prop :=
  ∃ bs, tbl !! c = Some bs ∧ String ch EmptyString ∈ bs.

(** ** Well-formed generators and reads *)

(** [random.sample] keeps its promise in every state of the generator. *)
Definition sample_contract {rng} (draw : rng → nat → nat → list nat * rng) : Prop :=
  ∀ g m k, k ≤ m → is_sample m k (draw g m k).1.

(** Every base called in the events of the file is one character. *)
Definition single_letter_calls {R} (h5py_File : string → option (h5file R))
    (corrected_group basecall_subgroup fast5_fp : string) : Prop :=
  ∀ h event, h5py_File fast5_fp = Some h →
             h5_events h corrected_group basecall_subgroup = Some event →
             Forall (λ b, String.length b = 1) (ev_base event).

(** Every event of the file lies inside its raw signal, once moved by
    [read_start_rel_to_raw], and has a length that is not negative. *)
Definition events_in_signal {R} (h5py_File : string → option (h5file R))
    (corrected_group basecall_subgroup fast5_fp : string) : Prop :=
  ∀ h event raw_dat rel,
    h5py_File fast5_fp = Some h →
    h5_events h corrected_group basecall_subgroup = Some event →
    h5_signal h = Some raw_dat →
    ev_attrs event !! "read_start_rel_to_raw" = Some rel →
    Forall2 (λ start length,
               (0 ≤ start + rel ∧ 0 ≤ length ∧ start + rel + length ≤ len raw_dat)%Z)
      (ev_start event) (ev_length event).

(** The signal vectors of the k-mer around the site at offset [o]. *)
Definition site_window {R} (L : @read_locals R) (o : Z) : list (list R) :=
  py_slice (signal_list L) (Some (o - num_bases L)%Z) (Some (o + num_bases L + 1)%Z).

Section BatchRecords.
Context {rng R : Type} `{!Numpy R}.
Variable draw : rng → nat → nat → list nat * rng.
Variable h5py_File : string → option (h5file R).
Variable get_refloc_of_methysite_in_motif : string → string → Z → list Z.
Variables (corrected_group basecall_subgroup normalize_method : string).
Variable motif_seqs : list string.
Variable methyloc : Z.
Variable chrom2len : gmap string Z.
Variables kmer_len raw_signals_len : Z.
Variable methy_label : string.

(** The records of each batch of a queue, the generator being handed from
    one batch to the next. *)
Fixpoint batch_records (batches : list (list string)) (g : rng)
    : list (list (feature R)) * rng :=
  match batches with
  | [] => ([], g)
  | fast5s :: rest =>
      let o := read_outcomes draw h5py_File get_refloc_of_methysite_in_motif
                 corrected_group basecall_subgroup normalize_method motif_seqs
                 methyloc chrom2len kmer_len raw_signals_len methy_label fast5s g in
      let '(records, g') := batch_records rest o.2 in
      (concat (o.1.*1) :: records, g')
  end.
End BatchRecords.

(** The batch a worker has taken from the work queue and not yet worked
    through, and these batches over all workers. *)
Definition hand {rng R} (w : worker rng R) : list (list string) :=
  match w_pc w with AtExtract fast5s => [fast5s] | _ => [] end.

Definition in_hand {rng R} (ws : list (worker rng R)) : list (list string) :=
  ws ≫= hand.

(** The messages the workers have put that no feeder thread has written
    yet. *)
Definition pending {rng R} (ws : list (worker rng R)) : list (message (feature R)) :=
  ws ≫= w_buffer.

(** The worker [i] waits in [fast5s_q.get()] while the pipe of the work
    queue holds nothing and nothing is left to be written to it. *)
Definition starved {rng R} (i : nat) (sys : list (worker rng R) * queues R) : Prop :=
  ∃ w, sys.1 !! i = Some w ∧ w_pc w = AtGet
       ∧ fast5s_q sys.2 = [] ∧ fast5s_buffer sys.2 = [].

(** A worker that is at the test of the loop, or has returned, with
    nothing left to be written by its feeder thread. *)
Definition at_rest {rng R} (w : worker rng R) : Prop :=
  (w_pc w = AtEmptyTest ∨ w_pc w = Returned) ∧ w_buffer w = [].

(** The schedule in which the worker [i] keeps pace with the feeder thread
    of the main process, [n] times over: a batch is written to the pipe,
    the worker finds the pipe not empty, takes the batch and works through
    it, and its feeder thread writes the message. *)
Definition lockstep (i n : nat) : list action :=
  concat (replicate n [Feed; Act i; Act i; Act i; Flush i]).

(** [extract_features] on the example files, with the settings of
    [example_extract], every worker starting with the generator in the
    state [0]. *)
Definition example_pipeline (normalize_method : string) (kmer_len : Z)
    (schedule : list action) (fast5_files : list string) (batch_size nproc : Z)
    : option (list (feature Z)) :=
  extract_features (Numpy0 := integer_samples) last_first_draw example_files find_sites
    "RawGenomeCorrected_000" "BaseCalled_template" normalize_method
    ["CG"] 0 example_chrom2len kmer_len 4 "1" (λ _, 0) schedule fast5_files
    batch_size nproc.

(** * Properties *)

(** ** Lists, slices and indices *)

Lemma len_nonneg {A} (l : list A) : (0 ≤ len l)%Z.
Proof. unfold len. lia. Qed.

Lemma len_app {A} (l k : list A) : len (l ++ k) = (len l + len k)%Z.
Proof. unfold len. rewrite length_app. lia. Qed.

Lemma len_concat {A} (ls : list (list A)) : len (concat ls) = py_sum (len <$> ls).
Proof.
  induction ls as [|l ls IH]; [done|].
  cbn [concat fmap list_fmap py_sum foldr]. rewrite len_app, IH. done.
Qed.

Lemma py_slice_to {A} (l : list A) (k : Z) :
  (0 ≤ k)%Z → py_slice l None (Some k) = take (Z.to_nat k) l.
Proof.
  intros Hk. unfold py_slice, slice_bound; cbn [from_option].
  destruct (Z.ltb_spec k 0); [lia|].
  rewrite drop_0, Nat.sub_0_r.
  destruct (Z.le_ge_cases k (Z.of_nat (length l))).
  - by rewrite Z.min_r by lia.
  - rewrite Z.min_l, Nat2Z.id by lia.
    rewrite !take_ge; [done|lia..].
Qed.

Lemma py_slice_from {A} (l : list A) (k : Z) :
  (0 ≤ k)%Z → py_slice l (Some k) None = drop (Z.to_nat k) l.
Proof.
  intros Hk. unfold py_slice, slice_bound; cbn [from_option].
  destruct (Z.ltb_spec k 0); [lia|].
  rewrite take_ge by (rewrite length_drop; lia).
  destruct (Z.le_ge_cases k (Z.of_nat (length l))).
  - by rewrite Z.min_r by lia.
  - rewrite Z.min_l, Nat2Z.id by lia.
    rewrite !drop_ge; [done|lia..].
Qed.

Lemma py_slice_last {A} (l : list A) (k : Z) :
  (0 < k ≤ len l)%Z → py_slice l (Some (- k)%Z) None = last_samples k l.
Proof.
  unfold len, last_samples. intros Hk. unfold py_slice, slice_bound; cbn [from_option].
  destruct (Z.ltb_spec (- k) 0); [|lia].
  rewrite take_ge by (rewrite length_drop; lia).
  f_equal. lia.
Qed.

Lemma py_getitem_lookup {A} (l : list A) (i : nat) x :
  l !! i = Some x → py_getitem l (Z.of_nat i) = Ok x.
Proof.
  intros H. unfold py_getitem.
  destruct (Z.ltb_spec (Z.of_nat i) 0); [lia|].
  destruct (Z.ltb_spec (Z.of_nat i) 0); [lia|].
  by rewrite Nat2Z.id, H.
Qed.

Lemma mid_loc_mid_index {A} (l : list A) :
  l ≠ [] → ((len l - 1) ÷ 2)%Z = Z.of_nat (mid_index l).
Proof.
  intros Hl. unfold len, mid_index.
  assert (0 < length l) by (destruct l; [done|simpl; lia]).
  rewrite Z.quot_div_nonneg by lia.
  rewrite Nat2Z.inj_div, Nat2Z.inj_sub by lia. done.
Qed.

Lemma mid_index_lt {A} (l : list A) : l ≠ [] → mid_index l < length l.
Proof.
  intros Hl. unfold mid_index.
  assert (0 < length l) by (destruct l; [done|simpl; lia]).
  apply Nat.Div0.div_lt_upper_bound. lia.
Qed.

Lemma central_lookup {R} (signals_list : list (list R)) :
  signals_list ≠ [] →
  signals_list !! mid_index signals_list = Some (central signals_list).
Proof.
  intros Hl. unfold central.
  destruct (lookup_lt_is_Some_2 signals_list (mid_index signals_list)) as [x Hx].
  - by apply mid_index_lt.
  - by rewrite Hx.
Qed.

Lemma len_le_py_sum (xs : list Z) (i : nat) x :
  Forall (λ y, 0 ≤ y)%Z xs → xs !! i = Some x → (x ≤ py_sum xs)%Z.
Proof.
  intros Hxs. revert i. induction Hxs as [|y ys Hy Hys IH]; intros [|i] Hi;
    simplify_eq/=.
  - assert (0 ≤ py_sum ys)%Z; [|unfold py_sum in *; lia].
    clear IH. induction Hys; simpl; [done|]. unfold py_sum in *. simpl. lia.
  - specialize (IH _ Hi). unfold py_sum in *. lia.
Qed.

Lemma central_le_total {R} (signals_list : list (list R)) :
  signals_list ≠ [] →
  (len (central signals_list) ≤ py_sum (len <$> signals_list))%Z.
Proof.
  intros Hl. apply (len_le_py_sum _ (mid_index signals_list)).
  - apply Forall_fmap, Forall_true. intros x. apply len_nonneg.
  - by rewrite list_lookup_fmap, central_lookup.
Qed.

Lemma left_right_total {R} (signals_list : list (list R)) :
  (len (left_part signals_list) + len (right_part signals_list))%Z
  = py_sum (len <$> signals_list).
Proof.
  unfold left_part, right_part.
  rewrite <- len_app, <- concat_app, take_drop. apply len_concat.
Qed.

(** ** The central-signal sampler *)

Lemma np_concatenate_nonempty {R} (arrays : list (list R)) :
  arrays ≠ [] → np_concatenate arrays = Ok (concat arrays).
Proof. by destruct arrays. Qed.

Lemma StronglySorted_le_NoDup (l : list nat) :
  StronglySorted le l → NoDup l → StronglySorted lt l.
Proof.
  induction 1 as [|x xs Hs IH Hx]; intros Hnd; [constructor|].
  apply NoDup_cons in Hnd as [Hx' Hnd]. constructor; [by apply IH|].
  apply Forall_forall. intros y Hy.
  rewrite Forall_forall in Hx. specialize (Hx y Hy).
  assert (x ≠ y) by (intros ->; done). lia.
Qed.

Lemma sorted_is_sample (m k : nat) (d : list nat) :
  is_sample m k d →
  length (sorted d) = k ∧ StronglySorted lt (sorted d)
  ∧ Forall (λ i, i < m) (sorted d) ∧ sorted d ≡ₚ d.
Proof.
  intros (Hlen & Hnd & Hlt). unfold sorted.
  pose proof (merge_sort_Permutation Nat.le d) as Hp.
  split_and!; [by rewrite Hp| |by rewrite Hp|done].
  apply StronglySorted_le_NoDup; [|by rewrite Hp].
  apply (StronglySorted_merge_sort Nat.le).
Qed.

Lemma sorted_lookup_sublist {R} (c : list R) (idxs : list nat) (out : list R) :
  StronglySorted lt idxs →
  Forall2 (λ i x, c !! i = Some x) idxs out →
  out `sublist_of` c.
Proof.
  revert idxs out. induction c as [|a c IH]; intros idxs out Hs H2.
  - destruct H2 as [|i x ? ? Hi _]; [constructor|done].
  - destruct H2 as [|i x idxs out Hi H2]; [apply sublist_nil_l|].
    apply StronglySorted_inv in Hs as [Hs Hgt].
    assert (Forall2 (λ j y, c !! j = Some y) (pred <$> idxs) out) as H2'.
    { apply Forall2_fmap_l. clear -H2 Hgt.
      induction H2 as [|j y js ys Hj _ IH2]; [constructor|].
      apply Forall_cons in Hgt as [Hij Hgt].
      constructor; [|by apply IH2]. destruct j; [lia|done]. }
    assert (StronglySorted lt (pred <$> idxs)) as Hs'.
    { clear -Hs Hgt. induction Hs as [|j js Hjs IHs Hj]; [constructor|].
      apply Forall_cons in Hgt as [Hij Hgt].
      constructor; [by apply IHs|].
      apply Forall_fmap. eapply Forall_impl; [exact Hj|].
      intros k Hk. simpl. lia. }
    destruct i as [|i]; simplify_eq/=.
    + apply sublist_skip. by eapply IH.
    + apply sublist_cons. apply (IH (i :: (pred <$> idxs))).
      * constructor; [done|]. apply Forall_fmap.
        eapply Forall_impl; [exact Hgt|]. intros k Hk. simpl. lia.
      * by constructor.
Qed.

Section Sampler.
Context {rng R : Type}.
Variable draw : rng → nat → nat → list nat * rng.
Variable zero : R.
Implicit Types (signals_list : list (list R)) (g : rng).

Lemma list_comp_getitem (c : list R) (idxs : list nat) g :
  Forall (λ i, i < length c) idxs →
  ∃ out, list_comp (λ x, lift (py_getitem c (Z.of_nat x))) idxs g = (Ok out, g)
         ∧ Forall2 (λ i x, c !! i = Some x) idxs out.
Proof.
  induction 1 as [|i idxs Hi _ (out & Hrun & H2)]; [by exists []|].
  destruct (lookup_lt_is_Some_2 c i Hi) as [x Hx].
  exists (x :: out). split; [|by constructor].
  cbn [list_comp]. unfold bind at 1, lift at 1.
  rewrite (py_getitem_lookup _ _ _ Hx). unfold bind at 1. by rewrite Hrun.
Qed.

Lemma sampler_pad signals_list n g :
  signals_list ≠ [] → pad_branch signals_list n →
  _get_central_signals draw zero signals_list n g
  = (Ok (concat signals_list
         ++ replicate (Z.to_nat (n - len (concat signals_list))) zero), g).
Proof.
  intros Hl Hpad. unfold _get_central_signals, pad_branch in *.
  destruct (Z.ltb_spec (py_sum (len <$> signals_list)) n); [|lia].
  unfold bind, lift. by rewrite np_concatenate_nonempty.
Qed.

Lemma sampler_random signals_list n g :
  signals_list ≠ [] → (0 ≤ n)%Z → random_branch signals_list n →
  _get_central_signals draw zero signals_list n g
  = let d := draw g (length (central signals_list)) (Z.to_nat n) in
    list_comp (λ x, lift (py_getitem (central signals_list) (Z.of_nat x)))
              (sorted d.1) d.2.
Proof.
  intros Hl Hn Hr. unfold _get_central_signals, random_branch in *.
  pose proof (central_le_total _ Hl).
  destruct (Z.ltb_spec (py_sum (len <$> signals_list)) n); [lia|].
  rewrite (mid_loc_mid_index _ Hl).
  unfold bind at 1, lift at 1.
  rewrite (py_getitem_lookup _ _ _ (central_lookup _ Hl)).
  destruct (Z.leb_spec n (len (central signals_list))); [|lia].
  unfold bind at 1, lift at 1.
  unfold bind at 1, random_sample.
  destruct (Z.ltb_spec n 0); [lia|].
  destruct (Z.ltb_spec (len (central signals_list)) n); [lia|]. simpl.
  unfold len. rewrite Nat2Z.id. by destruct (draw _ _ _).
Qed.

Lemma mid_index_pos signals_list : 2 < length signals_list → 0 < mid_index signals_list.
Proof.
  intros H. unfold mid_index.
  apply (Nat.div_le_lower_bound (length signals_list - 1) 2 1); lia.
Qed.

Lemma split_budget_bounds (n mid_len la ra : Z) :
  (0 ≤ mid_len < n)%Z → (0 ≤ la)%Z → (0 ≤ ra)%Z → (n ≤ la + ra)%Z →
  let b := split_budget n mid_len la ra in
  (b.1 + b.2 = n ∧ 0 ≤ b.1 ≤ la ∧ 0 ≤ b.2 ≤ ra)%Z.
Proof.
  intros Hm Hla Hra Hn. unfold split_budget.
  assert (0 ≤ (n - mid_len) `div` 2)%Z by (apply Z.div_pos; lia).
  assert ((n - mid_len) `div` 2 ≤ n - mid_len)%Z
    by (apply Z.div_le_upper_bound; lia).
  repeat case Z.ltb_spec; intros; simpl; lia.
Qed.

Lemma sampler_split signals_list n g :
  2 < length signals_list → split_branch signals_list n →
  let b := split_budget n (len (central signals_list))
             (len (left_part signals_list)) (len (right_part signals_list)) in
  _get_central_signals draw zero signals_list n g
  = (Ok (last_samples b.1 (left_part signals_list)
         ++ first_samples b.2 (right_part signals_list)), g).
Proof.
  intros Hlen [Htot Hmid].
  assert (signals_list ≠ []) as Hl by (intros ->; simpl in *; lia).
  pose proof (mid_index_pos _ Hlen) as Hpos.
  pose proof (mid_index_lt _ Hl) as Hlt.
  pose proof (left_right_total signals_list) as Hsum.
  pose proof (split_budget_bounds n (len (central signals_list))
    (len (left_part signals_list)) (len (right_part signals_list))) as Hb.
  specialize (Hb ltac:(pose proof (len_nonneg (central signals_list)); lia)
    (len_nonneg _) (len_nonneg _) ltac:(lia)).
  intros b. fold b in Hb. destruct Hb as (Hbsum & Hb1 & Hb2).
  unfold _get_central_signals.
  destruct (Z.ltb_spec (py_sum (len <$> signals_list)) n); [lia|].
  rewrite (mid_loc_mid_index _ Hl).
  unfold bind at 1, lift at 1.
  rewrite (py_getitem_lookup _ _ _ (central_lookup _ Hl)).
  destruct (Z.leb_spec n (len (central signals_list))); [lia|].
  rewrite py_slice_to, py_slice_from, Nat2Z.id by lia.
  unfold bind at 1, lift at 1.
  rewrite np_concatenate_nonempty
    by (intros Hnil; apply (f_equal length) in Hnil;
        rewrite length_take in Hnil; simpl in Hnil; lia).
  unfold bind at 1, lift at 1.
  rewrite np_concatenate_nonempty
    by (intros Hnil; apply (f_equal length) in Hnil;
        rewrite length_drop in Hnil; simpl in Hnil; lia).
  fold (left_part signals_list) (right_part signals_list).
  subst b. unfold split_budget in *.
  set (left_len := ((n - len (central signals_list)) `div` 2)%Z) in *.
  destruct (Z.ltb_spec (len (left_part signals_list)) left_len);
    [|destruct (Z.ltb_spec (len (right_part signals_list)) (n - left_len))];
    cbn [fst snd] in *.
  all: match goal with |- context [py_assert (?a =? ?b)%Z] =>
      replace (a =? b)%Z with true by (symmetry; apply Z.eqb_eq; lia) end;
    unfold bind at 1, py_assert; cbn [ret].
  all: match goal with |- context [(?a =? 0)%Z] =>
      destruct (Z.eqb_spec a 0) as [Hz|Hz] end.
  all: unfold ret, np_append, first_samples.
  all: rewrite ?py_slice_to by lia.
  all: try (rewrite py_slice_last by lia).
  all: try (rewrite Hz; unfold last_samples; rewrite Nat.sub_0_r, drop_all).
  all: try (unfold last_samples;
            match goal with |- context [drop (?a - Z.to_nat ?z) _] =>
              replace (a - Z.to_nat z) with a by lia end; rewrite drop_all).
  all: cbn [app]; repeat f_equal; try lia; try done.
Qed.
End Sampler.

(** C4. In the random branch (the central vector holds at least
    [rawsignal_num] samples), whatever [random.sample] draws, the sampler
    returns the values of the central vector at [rawsignal_num] distinct
    indices taken in ascending order: the output has that length and is an
    order-preserving subsequence of the central vector. *)
Theorem central_signals_random_subsequence {rng R : Type}
    (draw : rng → nat → nat → list nat * rng) (zero : R)
    (signals_list : list (list R)) (n : Z) (g : rng) :
  signals_list ≠ [] → (0 ≤ n)%Z → random_branch signals_list n →
  is_sample (length (central signals_list)) (Z.to_nat n)
    (draw g (length (central signals_list)) (Z.to_nat n)).1 →
  ∃ idxs out,
    _get_central_signals draw zero signals_list n g
    = (Ok out, (draw g (length (central signals_list)) (Z.to_nat n)).2)
    ∧ len idxs = n
    ∧ StronglySorted lt idxs
    ∧ Forall (λ i, i < length (central signals_list)) idxs
    ∧ idxs ≡ₚ (draw g (length (central signals_list)) (Z.to_nat n)).1
    ∧ Forall2 (λ i x, central signals_list !! i = Some x) idxs out
    ∧ len out = n
    ∧ out `sublist_of` central signals_list.
Proof.
  intros Hl Hn Hr Hd.
  destruct (sorted_is_sample _ _ _ Hd) as (Hlen & Hs & Hlt & Hp).
  rewrite (sampler_random _ _ _ _ _ Hl Hn Hr). cbv zeta.
  destruct (list_comp_getitem (central signals_list) _
              (draw g (length (central signals_list)) (Z.to_nat n)).2 Hlt)
    as (out & Hrun & H2).
  exists (sorted (draw g (length (central signals_list)) (Z.to_nat n)).1), out.
  split_and!; try done.
  - unfold len. lia.
  - unfold len. rewrite <- (Forall2_length _ _ _ H2). lia.
  - by eapply sorted_lookup_sublist.
Qed.

Lemma central_signals_random_subsequence_witness :
  let signals_list := [[1; 2]; [3; 4; 5; 6; 7]; [8]]%Z in
  let d := last_first_draw 0 (length (central signals_list)) (Z.to_nat 3) in
  signals_list ≠ [] ∧ (0 ≤ 3)%Z ∧ random_branch signals_list 3
  ∧ is_sample (length (central signals_list)) (Z.to_nat 3) d.1
  ∧ ∃ idxs out,
      _get_central_signals last_first_draw 0%Z signals_list 3 0 = (Ok out, d.2)
      ∧ len idxs = 3%Z
      ∧ StronglySorted lt idxs
      ∧ Forall (λ i, i < length (central signals_list)) idxs
      ∧ idxs ≡ₚ d.1
      ∧ Forall2 (λ i x, central signals_list !! i = Some x) idxs out
      ∧ len out = 3%Z
      ∧ out `sublist_of` central signals_list.
Proof.
  assert (random_branch [[1; 2]; [3; 4; 5; 6; 7]; [8]]%Z 3) as Hr.
  { unfold random_branch. simpl. unfold len. simpl. lia. }
  assert (is_sample (length (central [[1; 2]; [3; 4; 5; 6; 7]; [8]]%Z)) (Z.to_nat 3)
            (last_first_draw 0 (length (central [[1; 2]; [3; 4; 5; 6; 7]; [8]]%Z))
               (Z.to_nat 3)).1) as Hd.
  { split_and!; [done| |].
    - apply (bool_decide_unpack _). by vm_compute.
    - apply (bool_decide_unpack _). by vm_compute. }
  split_and!; [done|lia|done|done|].
  apply (central_signals_random_subsequence last_first_draw 0%Z
           [[1; 2]; [3; 4; 5; 6; 7]; [8]]%Z 3 0); [done|lia|done|done].
Defined.







(** ** Motif expansion *)

Lemma append_cons (c : ascii) (s t : string) :
  String c s +:+ t = String c (s +:+ t).
Proof. reflexivity. Qed.

Lemma append_empty_r (s : string) : s +:+ "" = s.
Proof. induction s as [|c s IH]; [done|]. by rewrite append_cons, IH. Qed.

Lemma append_assoc (s t u : string) : (s +:+ t) +:+ u = s +:+ (t +:+ u).
Proof. induction s as [|c s IH]; [done|]. by rewrite !append_cons, IH. Qed.

Lemma chars_append (s t : string) : chars (s +:+ t) = chars s ++ chars t.
Proof.
  induction s as [|c s IH]; [done|]. rewrite append_cons. simpl. by rewrite IH.
Qed.

Lemma length_chars (s : string) : length (chars s) = String.length s.
Proof. induction s as [|c s IH]; [done|]. simpl. by rewrite IH. Qed.

Lemma permute_two_cons (f : string) (b0 b1 : list string) :
  permute_two (f :: b0) b1 = ((λ s, f +:+ s) <$> b1) ++ permute_two b0 b1.
Proof.
  unfold permute_two. cbn [mbind list_bind]. f_equal.
Qed.

Lemma permute_two_nil (b1 : list string) : permute_two [] b1 = [].
Proof. done. Qed.

Lemma length_permute_two (b0 b1 : list string) :
  length (permute_two b0 b1) = length b0 * length b1.
Proof.
  induction b0 as [|f b0 IH]; [done|].
  rewrite permute_two_cons, length_app, length_fmap, IH. simpl. lia.
Qed.

Lemma permute_two_unit (b0 : list string) : permute_two b0 [""] = b0.
Proof.
  induction b0 as [|f b0 IH]; [done|].
  rewrite permute_two_cons, IH. cbn [fmap list_fmap app].
  by rewrite append_empty_r.
Qed.

Lemma length_cartesian (bases_list : list (list string)) :
  length (cartesian bases_list) = product (length <$> bases_list).
Proof.
  induction bases_list as [|b0 rest IH]; [done|].
  cbn [cartesian]. rewrite length_permute_two, IH. done.
Qed.

(** Letters with a single base contribute a common prefix. *)
Lemma cartesian_singletons (ps : list string) (rest : list (list string)) :
  cartesian (((λ s, [s]) <$> ps) ++ rest)
  = (λ r, foldr String.append "" ps +:+ r) <$> cartesian rest.
Proof.
  induction ps as [|p ps IH].
  - simpl. by rewrite list_fmap_id.
  - cbn [fmap list_fmap app cartesian foldr]. fold (@fmap list _ _ _ (λ s : string, [s]) ps).
    rewrite IH, permute_two_cons, permute_two_nil, app_nil_r.
    rewrite <- list_fmap_compose. apply list_fmap_ext. intros _ r _. simpl.
    by rewrite append_assoc.
Qed.

Section MotifProps.
Variable tbl : gmap ascii (list string).

Lemma result_map_lookup (cs : list ascii) :
  Forall (λ c, is_Some (tbl !! c)) cs →
  result_map (iupac_lookup tbl) cs = Ok ((λ c, default [] (tbl !! c)) <$> cs).
Proof.
  induction 1 as [|c cs [b Hb] _ IH]; [done|].
  cbn [result_map fmap list_fmap]. unfold iupac_lookup at 1.
  rewrite Hb, IH. done.
Qed.

Lemma recursive_permute_cartesian (bases_list : list (list string)) (depth : nat) :
  bases_list ≠ [] → length bases_list ≤ depth →
  recursive_permute depth bases_list = Ok (cartesian bases_list).
Proof.
  revert depth. induction bases_list as [|b0 rest IH]; [done|].
  intros [|depth] _ Hd; [simpl in Hd; lia|].
  destruct rest as [|b1 [|b2 rest]].
  - cbn. by rewrite permute_two_unit.
  - cbn. by rewrite permute_two_unit.
  - assert (recursive_permute depth (b1 :: b2 :: rest)
            = Ok (cartesian (b1 :: b2 :: rest))) as Htail
      by (apply IH; [done|simpl in *; lia]).
    cbn [recursive_permute].
    replace (len (b0 :: b1 :: b2 :: rest) =? 1)%Z with false
      by (symmetry; apply Z.eqb_neq; unfold len; simpl; lia).
    replace (len (b0 :: b1 :: b2 :: rest) =? 2)%Z with false
      by (symmetry; apply Z.eqb_neq; unfold len; simpl; lia).
    rewrite py_slice_from by lia. change (drop (Z.to_nat 1) (b0 :: b1 :: b2 :: rest))
      with (b1 :: b2 :: rest).
    rewrite Htail. change (py_getitem (b0 :: b1 :: b2 :: rest) 0) with (Ok b0).
    cbn [result_bind]. destruct depth as [|depth]; [simpl in Hd; lia|]. reflexivity.
Qed.

(** An outcome other than [RecursionError] does not depend on the
    recursion limit: the call ends with it after finitely many calls. *)
Lemma recursive_permute_sound (depth : nat) (bases_list : list (list string)) r :
  recursive_permute depth bases_list = r → r ≠ Raise RecursionError →
  rp_eval bases_list r.
Proof.
  revert bases_list r. induction depth as [|depth IH]; intros l r Hr Hne;
    [by subst|].
  cbn [recursive_permute] in Hr.
  destruct (Z.eqb_spec (len l) 1) as [H1|H1].
  { subst. by apply rp_eval_one. }
  destruct (Z.eqb_spec (len l) 2) as [H2|H2].
  { subst. by apply rp_eval_two. }
  destruct (recursive_permute depth (py_slice l (Some 1%Z) None))
    as [pseqs|e] eqn:Htail; cbn [result_bind] in Hr.
  - apply IH in Htail; [|done].
    destruct (py_getitem l 0) as [b0|e] eqn:Hhead; cbn [result_bind] in Hr.
    + apply IH in Hr; [|done]. by eapply rp_eval_more.
    + subst. by eapply rp_eval_head_raises.
  - subst. apply rp_eval_tail_raises; [done..|]. by apply (IH _ _ Htail).
Qed.

Lemma recursive_permute_empty (depth : nat) :
  recursive_permute depth [] = Raise RecursionError.
Proof.
  induction depth as [|depth IH]; [done|]. cbn [recursive_permute].
  change (py_slice (@nil (list string)) (Some 1%Z) None) with (@nil (list string)).
  by rewrite IH.
Qed.

Lemma rp_eval_empty r : ¬ rp_eval [] r.
Proof.
  intros H. remember [] as l eqn:Hl.
  induction H as [l H1|l _ H2|l e _ _ _ IH|l pseqs e _ _ _ IH _
                 |l pseqs b0 r _ _ _ IH _ _ _]; subst; try done.
  all: by apply IH.
Qed.

Lemma convert_motif_seq_cartesian (elem : string) (depth : nat) :
  well_formed_element tbl elem → String.length elem ≤ depth →
  _convert_motif_seq tbl depth elem
  = Ok (cartesian (expansion_sets tbl elem)).
Proof.
  intros [Hne Hrec] Hd. unfold _convert_motif_seq, expansion_sets.
  rewrite (result_map_lookup _ Hrec). cbn [result_bind].
  apply recursive_permute_cartesian.
  - destruct elem; [done|]. done.
  - by rewrite length_fmap, length_chars.
Qed.

Lemma get_motif_seqs_loop_expand (depth : nat) (acc elems : list string) :
  Forall (well_formed_element tbl) elems →
  Forall (λ elem, String.length elem ≤ depth) elems →
  _get_motif_seqs_loop tbl depth acc elems
  = Ok (acc ++ (elem ← elems; cartesian (expansion_sets tbl elem))).
Proof.
  intros Hwf. revert acc. induction Hwf as [|elem elems Hw _ IH]; intros acc Hd.
  - simpl. by rewrite app_nil_r.
  - apply Forall_cons in Hd as [Hd Hds].
    cbn [_get_motif_seqs_loop]. rewrite convert_motif_seq_cartesian by done.
    cbn [result_bind]. rewrite IH by done. cbn [mbind list_bind].
    by rewrite app_assoc.
Qed.

Lemma convert_motif_seq_empty (depth : nat) :
  _convert_motif_seq tbl depth "" = Raise RecursionError.
Proof. unfold _convert_motif_seq. simpl. apply recursive_permute_empty. Qed.

Lemma get_motif_seqs_loop_empty_element (depth : nat) (acc elems : list string) v :
  EmptyString ∈ elems → _get_motif_seqs_loop tbl depth acc elems ≠ Ok v.
Proof.
  revert acc. induction elems as [|elem elems IH]; intros acc Hin.
  - by apply elem_of_nil in Hin.
  - cbn [_get_motif_seqs_loop]. apply elem_of_cons in Hin as [<-|Hin].
    + by rewrite convert_motif_seq_empty.
    + destruct (_convert_motif_seq tbl depth elem) as [seqs|e]; [|done].
      by apply IH.
Qed.

(** The elements that come before the first empty one are expanded; the
    empty one then ends the call with [RecursionError]. *)
Lemma get_motif_seqs_loop_first_empty (depth : nat) (acc pre post : list string) :
  Forall (well_formed_element tbl) pre →
  Forall (λ elem, String.length elem ≤ depth) pre →
  _get_motif_seqs_loop tbl depth acc (pre ++ EmptyString :: post)
  = Raise RecursionError.
Proof.
  intros Hwf. revert acc. induction Hwf as [|elem elems Hw _ IH]; intros acc Hd.
  - cbn [app _get_motif_seqs_loop]. by rewrite convert_motif_seq_empty.
  - apply Forall_cons in Hd as [Hd Hds]. rewrite <- app_comm_cons.
    cbn [_get_motif_seqs_loop]. rewrite convert_motif_seq_cartesian by done.
    cbn [result_bind]. by apply IH.
Qed.
End MotifProps.

Lemma py_split_trailing_last (sep : ascii) (s : string) :
  ∃ w ws, py_split sep (s +:+ String sep "") = (w :: ws) ++ [EmptyString].
Proof.
  induction s as [|c s (w & ws & IH)].
  - simpl. destruct (decide (sep = sep)); [|done]. by exists EmptyString, [].
  - rewrite append_cons. simpl. rewrite IH. destruct (decide (c = sep)).
    + by exists EmptyString, (w :: ws).
    + by exists (String c w), ws.
Qed.

Lemma py_split_trailing (sep : ascii) (s : string) :
  EmptyString ∈ py_split sep (s +:+ String sep "").
Proof.
  destruct (py_split_trailing_last sep s) as (w & ws & ->).
  apply elem_of_app. right. apply list_elem_of_here.
Qed.

Lemma py_split_doubled_tail (sep : ascii) (s t : string) :
  ∃ w ws, py_split sep (s +:+ String sep (String sep t)) = w :: ws
          ∧ EmptyString ∈ ws.
Proof.
  induction s as [|c s (w & ws & IH & Hin)].
  - simpl. destruct (decide (sep = sep)); [|done].
    eexists _, _. split; [done|]. apply list_elem_of_here.
  - rewrite append_cons. simpl. rewrite IH. destruct (decide (c = sep)).
    + eexists _, _. split; [done|]. by apply list_elem_of_further.
    + by eexists _, _.
Qed.

Lemma py_split_doubled (sep : ascii) (s t : string) :
  EmptyString ∈ py_split sep (s +:+ String sep (String sep t)).
Proof.
  destruct (py_split_doubled_tail sep s t) as (w & ws & -> & Hin).
  by apply list_elem_of_further.
Qed.

(** C9. Motif expansion splits the specification on commas and expands each
    element to the cartesian product of the expansion sets of its letters, so
    that an element has as many expansions as the product of the sizes of
    those sets; ["CG"] expands to exactly ["CG"]; and an element with one
    letter covering two bases, every other letter covering one, expands to
    exactly two strings that differ only at that letter. *)
Theorem motif_expansion_cartesian (tbl : gmap ascii (list string)) :
  (∀ motifs depth,
     Forall (well_formed_element tbl) (py_split ","%char motifs) →
     Forall (λ elem, String.length elem ≤ depth) (py_split ","%char motifs) →
     _get_motif_seqs tbl depth motifs = Ok (expand_motifs tbl motifs)
     ∧ Forall (λ elem, length (cartesian (expansion_sets tbl elem))
                       = product (length <$> expansion_sets tbl elem))
         (py_split ","%char motifs))
  ∧ (tbl !! "C"%char = Some ["C"] → tbl !! "G"%char = Some ["G"] →
     ∀ depth, 2 ≤ depth → _get_motif_seqs tbl depth "CG" = Ok ["CG"])
  ∧ (∀ pre post c x y ps qs depth,
       Forall2 (λ a s, tbl !! a = Some [s]) (chars pre) ps →
       Forall2 (λ a s, tbl !! a = Some [s]) (chars post) qs →
       tbl !! c = Some [x; y] →
       String.length (pre +:+ String c post) ≤ depth →
       _convert_motif_seq tbl depth (pre +:+ String c post)
       = Ok [foldr String.append "" ps +:+ x +:+ foldr String.append "" qs;
             foldr String.append "" ps +:+ y +:+ foldr String.append "" qs]).
Proof.
  assert (∀ s ss, Forall2 (λ a t, tbl !! a = Some [t]) (chars s) ss →
                  Forall (λ a, is_Some (tbl !! a)) (chars s)
                  ∧ expansion_sets tbl s = (λ t, [t]) <$> ss) as Hsingle.
  { intros s ss. unfold expansion_sets. generalize (chars s). intros cs H2.
    induction H2 as [|a t cs ss Ha _ [IH1 IH2]]; [done|].
    split; [constructor; [by eexists|done]|].
    cbn [fmap list_fmap]. rewrite Ha. simpl. f_equal. exact IH2. }
  split_and!.
  - intros motifs depth Hwf Hd. split.
    + unfold _get_motif_seqs, expand_motifs.
      by rewrite get_motif_seqs_loop_expand.
    + apply Forall_forall. intros elem _. apply length_cartesian.
  - intros HC HG depth Hd.
    unfold _get_motif_seqs. cbn [py_split]. simpl.
    unfold _convert_motif_seq. cbn [chars result_map]. unfold iupac_lookup.
    rewrite HC, HG. cbn [result_bind].
    destruct depth as [|depth]; [lia|]. reflexivity.
  - intros pre post c x y ps qs depth Hpre Hpost Hc Hd.
    destruct (Hsingle _ _ Hpre) as [Hpre1 Hpre2].
    destruct (Hsingle _ _ Hpost) as [Hpost1 Hpost2].
    rewrite convert_motif_seq_cartesian; [|split|done].
    + f_equal. unfold expansion_sets in *.
      rewrite chars_append. cbn [chars]. rewrite fmap_app. cbn [fmap list_fmap].
      rewrite Hpre2, Hpost2, Hc. cbn [default].
      rewrite cartesian_singletons. cbn [cartesian].
      rewrite <- (app_nil_r ((λ t, [t]) <$> qs)), cartesian_singletons.
      cbn [cartesian fmap list_fmap]. rewrite append_empty_r.
      unfold id. rewrite !permute_two_cons, permute_two_nil. reflexivity.
    + destruct pre; done.
    + rewrite chars_append. cbn [chars]. apply Forall_app. split; [done|].
      constructor; [by eexists|done].
Qed.

(** Discharges [well_formed_element] on a literal element. *)
Ltac well_formed_literal :=
  split; [done|repeat (constructor; [by eexists|]); constructor].

Lemma motif_expansion_cartesian_witness :
  _get_motif_seqs iupac_standard 3 "CG,YG,CHG"
  = Ok ["CG"; "CG"; "TG"; "CAG"; "CCG"; "CTG"]
  ∧ _get_motif_seqs iupac_standard 2 "CG" = Ok ["CG"]
  ∧ _convert_motif_seq iupac_standard 3 "CRG" = Ok ["CAG"; "CGG"].
Proof.
  destruct (motif_expansion_cartesian iupac_standard) as (Hall & HCG & Htwo).
  split_and!.
  - destruct (Hall "CG,YG,CHG" 3) as [Hrun _]; [| |exact Hrun].
    + repeat (constructor; [well_formed_literal|]). constructor.
    + repeat (constructor; [simpl; lia|]). constructor.
  - apply HCG; [reflexivity|reflexivity|lia].
  - apply (Htwo "C" "G" "R"%char "A" "G" ["C"] ["G"] 3).
    + repeat constructor.
    + repeat constructor.
    + reflexivity.
    + simpl. lia.
Defined.

(** C10 (amended). Expanding a non-empty element whose letters are all in
    the table terminates with its result, within a call depth of the length
    of the element. On the empty element, which a trailing or a doubled
    comma produces, [recursive_permute] calls itself on the empty list again
    ([bases_list[1:]] of the empty list is the empty list) and no finite
    number of calls reaches a base case; the call does not run for ever: it
    ends with [RecursionError], whatever the recursion limit, and no result
    is returned. *)
Theorem motif_expansion_termination (tbl : gmap ascii (list string)) :
  (∀ elem, well_formed_element tbl elem →
     ∃ v, rp_eval (expansion_sets tbl elem) (Ok v)
          ∧ ∀ depth, String.length elem ≤ depth →
                     _convert_motif_seq tbl depth elem = Ok v)
  ∧ py_slice (@nil (list string)) (Some 1%Z) None = []
  ∧ (∀ r, ¬ rp_eval [] r)
  ∧ (∀ depth, recursive_permute depth [] = Raise RecursionError)
  ∧ (∀ depth, _convert_motif_seq tbl depth "" = Raise RecursionError)
  ∧ (∀ motifs depth v,
       EmptyString ∈ py_split ","%char motifs →
       _get_motif_seqs tbl depth motifs ≠ Ok v)
  ∧ (∀ motifs depth pre post,
       py_split ","%char motifs = pre ++ EmptyString :: post →
       Forall (well_formed_element tbl) pre →
       Forall (λ elem, String.length elem ≤ depth) pre →
       _get_motif_seqs tbl depth motifs = Raise RecursionError)
  ∧ (∀ s, EmptyString ∈ py_split ","%char (s +:+ ","))
  ∧ (∀ s t, EmptyString ∈ py_split ","%char (s +:+ ",," +:+ t)).
Proof.
  split_and!.
  - intros elem Hwf. exists (cartesian (expansion_sets tbl elem)). split.
    + apply (recursive_permute_sound (String.length elem)); [|done].
      pose proof (convert_motif_seq_cartesian tbl elem (String.length elem) Hwf
                    (Nat.le_refl _)) as Hrun.
      unfold _convert_motif_seq in Hrun. destruct Hwf as [_ Hrec].
      rewrite (result_map_lookup _ _ Hrec) in Hrun. exact Hrun.
    + intros depth Hd. by apply convert_motif_seq_cartesian.
  - reflexivity.
  - apply rp_eval_empty.
  - apply recursive_permute_empty.
  - apply convert_motif_seq_empty.
  - intros motifs depth v Hin. by apply get_motif_seqs_loop_empty_element.
  - intros motifs depth pre post Hsplit Hwf Hd. unfold _get_motif_seqs.
    rewrite Hsplit. by apply get_motif_seqs_loop_first_empty.
  - intros s. apply py_split_trailing.
  - intros s t. apply py_split_doubled.
Qed.

Lemma motif_expansion_termination_witness :
  (∃ v, rp_eval (expansion_sets iupac_standard "CNG") (Ok v)
        ∧ ∀ depth, String.length "CNG" ≤ depth →
                   _convert_motif_seq iupac_standard depth "CNG" = Ok v)
  ∧ (∀ depth v, _get_motif_seqs iupac_standard depth "CG," ≠ Ok v)
  ∧ (∀ depth, String.length "CG" ≤ depth →
              _get_motif_seqs iupac_standard depth "CG," = Raise RecursionError).
Proof.
  destruct (motif_expansion_termination iupac_standard)
    as (Hterm & _ & _ & _ & _ & Hnone & Hraise & _ & _).
  split_and!.
  - apply Hterm. well_formed_literal.
  - intros depth v. apply Hnone. simpl. apply list_elem_of_further, list_elem_of_here.
  - intros depth Hd. apply (Hraise "CG," depth ["CG"] []); [reflexivity| |].
    + repeat (constructor; [well_formed_literal|]). constructor.
    + repeat (constructor; [exact Hd|]). constructor.
Defined.

(** C10 as stated fails on the specification ["CG,"]: with the recursion
    limit of the interpreter as it is set at start, 1000 nested calls, the
    call on the empty element does terminate, with [RecursionError]. *)
Lemma motif_expansion_recursion_error :
  EmptyString ∈ py_split ","%char "CG,"
  ∧ _get_motif_seqs iupac_standard 1000 "CG," = Raise RecursionError.
Proof.
  split; [apply list_elem_of_further, list_elem_of_here|].
  vm_compute. reflexivity.
Qed.

(** ** Feature extraction *)

Section ExtractionProps.
Context {rng R : Type} `{!Numpy R}.
Variable draw : rng → nat → nat → list nat * rng.
Variable h5py_File : string → option (h5file R).
Variable get_refloc_of_methysite_in_motif : string → string → Z → list Z.
Variables (corrected_group basecall_subgroup normalize_method : string).
Variable motif_seqs : list string.
Variable methyloc : Z.
Variable chrom2len : gmap string Z.
Variables kmer_len raw_signals_len : Z.
Variable methy_label : string.
Implicit Types (s : estate rng R) (L : @read_locals R) (g : rng).

Local Abbreviation site := (site_features draw raw_signals_len methy_label).
Local Abbreviation setup :=
  (read_setup h5py_File get_refloc_of_methysite_in_motif corrected_group
     basecall_subgroup normalize_method motif_seqs methyloc chrom2len kmer_len).
Local Abbreviation body :=
  (read_features draw h5py_File get_refloc_of_methysite_in_motif corrected_group
     basecall_subgroup normalize_method motif_seqs methyloc chrom2len kmer_len
     raw_signals_len methy_label).
Local Abbreviation extract :=
  (_extract_features draw h5py_File get_refloc_of_methysite_in_motif corrected_group
     basecall_subgroup normalize_method motif_seqs methyloc chrom2len kmer_len
     raw_signals_len methy_label).
Local Abbreviation outcomes :=
  (read_outcomes draw h5py_File get_refloc_of_methysite_in_motif corrected_group
     basecall_subgroup normalize_method motif_seqs methyloc chrom2len kmer_len
     raw_signals_len methy_label).

Lemma for_each_cons {X} (f : X → @M (estate rng R) unit) x xs s :
  for_each f (x :: xs) s
  = match f x s with
    | (Ok _, s1) => for_each f xs s1
    | (Raise e, s1) => (Raise e, s1)
    end.
Proof. reflexivity. Qed.

(** *** The loop over the sites *)

Lemma site_features_skip L o s : ¬ in_bounds L o → site L o s = (Ok tt, s).
Proof.
  intros Hout. unfold site_features, in_bounds in *.
  destruct (Z.leb_spec (num_bases L) o); [|done].
  destruct (Z.ltb_spec o (Z.of_nat (String.length (genomeseq L)) - num_bases L));
    [lia|done].
Qed.

Lemma site_features_run L o s :
  in_bounds L o →
  site L o s
  = match chrom_start_in_alignstrand L with
    | PyStr _ => (Raise TypeError, s)
    | PyInt z =>
        let rc := _get_central_signals draw np_zero
                    (py_slice (signal_list L) (Some (o - num_bases L)%Z)
                       (Some (o + num_bases L + 1)%Z))
                    raw_signals_len (st_rng s) in
        match rc.1 with
        | Ok cent =>
            (Ok tt, {| st_rng := rc.2; st_stdout := st_stdout s;
                       features_str :=
                         features_str s ++ [site_record methy_label L o z cent];
                       error := error s |})
        | Raise e =>
            (Raise e, {| st_rng := rc.2; st_stdout := st_stdout s;
                         features_str := features_str s; error := error s |})
        end
    end.
Proof.
  intros [Hlo Hhi]. unfold site_features.
  destruct (Z.leb_spec (num_bases L) o); [|lia].
  destruct (Z.ltb_spec o (Z.of_nat (String.length (genomeseq L)) - num_bases L));
    [|lia].
  cbn [andb]. destruct (chrom_start_in_alignstrand L) as [z|str]; [|done].
  unfold bind at 1, lift, py_int_add. unfold bind, with_rng. cbv zeta.
  destruct (_get_central_signals _ _ _ _ _) as [[cent|e] g']; reflexivity.
Qed.

Lemma records_of_mono L sites sites' new :
  sites ⊆ sites' → records_of methy_label L sites new → records_of methy_label L sites' new.
Proof.
  intros Hsub Hrec. unfold records_of in *. eapply Forall_impl; [exact Hrec|].
  intros rec (o & z & cent & Ho & H'). exists o, z, cent. split; [by apply Hsub|done].
Qed.

Lemma site_loop_effect L sites s :
  st_stdout (for_each (site L) sites s).2 = st_stdout s
  ∧ error (for_each (site L) sites s).2 = error s
  ∧ ∃ new, features_str (for_each (site L) sites s).2 = features_str s ++ new
           ∧ records_of methy_label L sites new.
Proof.
  revert s. induction sites as [|o sites IH]; intros s.
  { split_and!; [done..|]. exists []. split; [by rewrite app_nil_r|constructor]. }
  rewrite for_each_cons.
  destruct (decide (in_bounds L o)) as [Hin|Hout].
  - rewrite (site_features_run _ _ _ Hin).
    destruct (chrom_start_in_alignstrand L) as [z|str] eqn:Hstart.
    + cbv zeta.
      destruct (_get_central_signals _ _ _ _ _) as [[cent|e] g']; cbn [fst snd].
      * destruct (IH {| st_rng := g'; st_stdout := st_stdout s;
                        features_str := features_str s ++ [site_record methy_label L o z cent];
                        error := error s |}) as (H1 & H2 & new & H3 & H4).
        split_and!; [done..|].
        exists (site_record methy_label L o z cent :: new). split.
        { rewrite H3. cbn [features_str]. by rewrite <- app_assoc. }
        constructor.
        { exists o, z, cent. split_and!; try done. apply list_elem_of_here. }
        eapply records_of_mono; [|exact H4]. intros x Hx. by apply list_elem_of_further.
      * split_and!; [done..|]. exists []. split; [by rewrite app_nil_r|constructor].
    + split_and!; [done..|]. exists []. split; [by rewrite app_nil_r|constructor].
  - rewrite (site_features_skip _ _ _ Hout).
    destruct (IH s) as (H1 & H2 & new & H3 & H4).
    split_and!; [done..|]. exists new. split; [done|].
    eapply records_of_mono; [|exact H4]. intros x Hx. by apply list_elem_of_further.
Qed.

Lemma site_loop_filter L sites s :
  for_each (site L) sites s = for_each (site L) (filter (in_bounds L) sites) s.
Proof.
  revert s. induction sites as [|o sites IH]; intros s; [done|].
  rewrite filter_cons. destruct (decide (in_bounds L o)) as [Hin|Hout].
  - rewrite !for_each_cons.
    destruct (site L o s) as [[[]|e] s1]; [apply IH|done].
  - rewrite for_each_cons, (site_features_skip _ _ _ Hout). apply IH.
Qed.

(** *** One read *)

Lemma read_features_unfold fast5_fp s :
  body fast5_fp s
  = match setup fast5_fp with
    | Ok L => for_each (site L) (cpg_site_locs L) s
    | Raise e => (Raise e, s)
    end.
Proof.
  unfold read_features, bind, lift. by destruct (setup fast5_fp).
Qed.

Lemma read_setup_inv fast5_fp L :
  setup fast5_fp = Ok L →
  ∃ cs raw events,
    _get_alignment_info_from_fast5 h5py_File fast5_fp corrected_group basecall_subgroup
    = Ok (readname L, strand L, alignstrand L, chrom L, cs)
    ∧ chrom2len !! chrom L = Some (chromlen L)
    ∧ (if String.eqb (alignstrand L) "+" then chrom_start_in_alignstrand L = cs
       else ∃ z, cs = PyInt z
                 ∧ chrom_start_in_alignstrand L
                   = PyInt (chromlen L - (z + Z.of_nat (String.length (genomeseq L)))))
    ∧ (kmer_len `mod` 2 ≠ 0)%Z
    ∧ num_bases L = ((kmer_len - 1) `div` 2)%Z
    ∧ cpg_site_locs L
      = (mseq ← motif_seqs;
         get_refloc_of_methysite_in_motif (genomeseq L) mseq methyloc)
    ∧ _get_label_raw h5py_File fast5_fp corrected_group basecall_subgroup
      = Ok (raw, events)
    ∧ genomeseq L = foldl (λ acc e, acc +:+ e.2) "" events.
Proof.
  unfold read_setup. intros Hsetup.
  destruct (_get_label_raw _ _ _ _) as [[raw events]|e]; [|done].
  cbn [result_bind] in Hsetup.
  destruct (_normalize_signals _ _) as [norm|e]; [|done].
  cbn [result_bind] in Hsetup.
  destruct (_get_alignment_info_from_fast5 _ _ _ _)
    as [[[[[rn st] al] ch] cs]|e]; [|done].
  cbn [result_bind] in Hsetup.
  destruct (chrom2len !! ch) as [cl|] eqn:Hlen; [|done].
  cbn [result_bind] in Hsetup.
  exists cs, raw, events.
  destruct (String.eqb al "+") eqn:Hplus.
  - cbn [result_bind] in Hsetup.
    destruct (Z.eqb_spec (kmer_len `mod` 2) 0); [done|].
    cbn [result_bind] in Hsetup. simplify_eq. cbn. rewrite Hplus. done.
  - destruct cs as [z|str]; [|done].
    cbn [result_bind py_add_int] in Hsetup.
    destruct (Z.eqb_spec (kmer_len `mod` 2) 0); [done|].
    cbn [result_bind] in Hsetup. simplify_eq. cbn. rewrite Hplus.
    split_and!; try done. by exists z.
Qed.

Lemma read_features_effect fast5_fp s :
  st_stdout (body fast5_fp s).2 = st_stdout s
  ∧ error (body fast5_fp s).2 = error s
  ∧ ∃ new, features_str (body fast5_fp s).2 = features_str s ++ new
           ∧ ∀ L, setup fast5_fp = Ok L →
                  records_of methy_label L (cpg_site_locs L) new.
Proof.
  rewrite read_features_unfold. destruct (setup fast5_fp) as [L|e].
  - destruct (site_loop_effect L (cpg_site_locs L) s) as (H1 & H2 & new & H3 & H4).
    split_and!; [done..|]. exists new. split; [done|]. by intros L' [= <-].
  - split_and!; [done..|]. exists []. split; [by rewrite app_nil_r|done].
Qed.

(** *** Frames *)

Lemma extend_fresh s : extend s (fresh (st_rng s)) = s.
Proof.
  destruct s. unfold extend, fresh. cbn. by rewrite !app_nil_r, Z.add_0_r.
Qed.

Lemma extend_assoc s s1 s2 : extend (extend s s1) s2 = extend s (extend s1 s2).
Proof. unfold extend. cbn. by rewrite !app_assoc, Z.add_assoc. Qed.

Lemma framed_for_each {X} (f : X → @M (estate rng R) unit) (xs : list X) :
  (∀ x, framed (f x)) → framed (for_each f xs).
Proof.
  intros Hf. induction xs as [|x xs IH]; intros s.
  { cbn. by rewrite extend_fresh. }
  rewrite !for_each_cons, (Hf x s).
  destruct (f x (fresh (st_rng s))) as [[[]|e] s1]; cbn [fst snd]; [|done].
  rewrite (IH (extend s s1)), (IH s1). cbn [fst snd].
  change (st_rng (extend s s1)) with (st_rng s1).
  by rewrite extend_assoc.
Qed.

Lemma framed_site L o : framed (site L o).
Proof.
  intros s. destruct (decide (in_bounds L o)) as [Hin|Hout].
  - rewrite !(site_features_run _ _ _ Hin).
    destruct (chrom_start_in_alignstrand L) as [z|str].
    + cbv zeta. cbn [st_rng fresh].
      destruct (_get_central_signals _ _ _ _ _) as [[cent|e] g']; cbn [fst snd].
      * unfold extend. cbn. by rewrite app_nil_r, Z.add_0_r.
      * unfold extend. cbn. by rewrite !app_nil_r, Z.add_0_r.
    + cbn [fst snd]. by rewrite extend_fresh.
  - rewrite !(site_features_skip _ _ _ Hout). cbn [fst snd]. by rewrite extend_fresh.
Qed.

Lemma framed_body fast5_fp : framed (body fast5_fp).
Proof.
  intros s. rewrite !read_features_unfold. destruct (setup fast5_fp) as [L|e].
  - apply framed_for_each. intros o. apply framed_site.
  - cbn [fst snd]. by rewrite extend_fresh.
Qed.

(** *** The batch *)

Lemma read_step fast5_fp s :
  let run := body fast5_fp (fresh (st_rng s)) in
  try_except_Exception (body fast5_fp) error_incr s
  = (Ok tt, {| st_rng := st_rng run.2; st_stdout := st_stdout s;
               features_str := features_str s ++ features_str run.2;
               error := (error s + if raised run.1 then 1 else 0)%Z |}).
Proof.
  intros run. unfold try_except_Exception. rewrite (framed_body fast5_fp s).
  destruct (read_features_effect fast5_fp (fresh (st_rng s))) as (Hout & Herr & _).
  fold run in Hout, Herr |- *. cbn [fresh st_stdout error] in Hout, Herr.
  destruct run as [[[]|e] s1]; cbn [fst snd raised] in *.
  - unfold extend. rewrite Hout, Herr, app_nil_r. done.
  - replace (isinstance_Exception e) with true by (by destruct e).
    unfold error_incr, extend. cbn. rewrite Hout, Herr, app_nil_r.
    do 3 f_equal. lia.
Qed.

Lemma failures_cons (new : list (feature R)) (r : result unit) outs :
  failures ((new, r) :: outs)
  = ((if raised r then 1 else 0) + failures outs)%Z.
Proof.
  unfold failures. rewrite filter_cons. cbn [snd].
  destruct r as [[]|e]; cbn [raised];
    destruct (decide _) as [Heq|Hne]; try done; unfold len; cbn [length]; lia.
Qed.

Lemma batch_loop fast5s s :
  for_each (λ fast5_fp, try_except_Exception (body fast5_fp) error_incr) fast5s s
  = (Ok tt, {| st_rng := (outcomes fast5s (st_rng s)).2;
               st_stdout := st_stdout s;
               features_str :=
                 features_str s ++ concat ((outcomes fast5s (st_rng s)).1.*1);
               error := (error s + failures (outcomes fast5s (st_rng s)).1)%Z |}).
Proof.
  revert s. induction fast5s as [|fast5_fp rest IH]; intros s.
  { cbn. unfold ret, failures, len. cbn. rewrite app_nil_r, Z.add_0_r.
    by destruct s. }
  rewrite for_each_cons, read_step. cbv zeta. rewrite IH.
  cbn [read_outcomes st_rng st_stdout features_str error].
  destruct (body fast5_fp (fresh (st_rng s))) as [r s1]. cbn [fst snd].
  destruct (outcomes rest (st_rng s1)) as [outs g']. cbn [fst snd fmap list_fmap concat].
  by rewrite <- app_assoc, failures_cons, Z.add_assoc.
Qed.

Lemma extract_features_run fast5s s :
  let outs := outcomes fast5s (st_rng s) in
  extract fast5s s
  = (Ok (concat (outs.1.*1), failures outs.1),
     {| st_rng := outs.2;
        st_stdout := st_stdout s ++ [((len fast5s - failures outs.1)%Z, len fast5s)];
        features_str := concat (outs.1.*1);
        error := failures outs.1 |}).
Proof.
  intros outs. unfold _extract_features, bind at 1, init_locals.
  unfold bind at 1. rewrite batch_loop. cbn [st_rng st_stdout features_str error].
  fold outs. unfold bind, print_success, return_locals. cbn.
  reflexivity.
Qed.

Lemma length_outcomes fast5s g : length (outcomes fast5s g).1 = length fast5s.
Proof.
  revert g. induction fast5s as [|fast5_fp rest IH]; intros g; [done|].
  cbn [read_outcomes]. destruct (body fast5_fp (fresh g)) as [r s1].
  specialize (IH (st_rng s1)). destruct (outcomes rest (st_rng s1)) as [outs g'].
  cbn in *. by rewrite IH.
Qed.

Lemma failures_bounds (outs : list (list (feature R) * result unit)) :
  (0 ≤ failures outs ≤ len outs)%Z.
Proof.
  unfold failures, len. pose proof (length_filter (λ o, raised o.2 = true) outs). lia.
Qed.
End ExtractionProps.

Section ExtractionClaims.
Context {rng R : Type} `{!Numpy R}.
Variable draw : rng → nat → nat → list nat * rng.
Variable h5py_File : string → option (h5file R).
Variable get_refloc_of_methysite_in_motif : string → string → Z → list Z.
Variables (corrected_group basecall_subgroup normalize_method : string).
Variable motif_seqs : list string.
Variable methyloc : Z.
Variable chrom2len : gmap string Z.
Variables kmer_len raw_signals_len : Z.
Variable methy_label : string.
Implicit Types (s : estate rng R) (L : @read_locals R) (g : rng).

Local Abbreviation site := (site_features draw raw_signals_len methy_label).
Local Abbreviation setup :=
  (read_setup h5py_File get_refloc_of_methysite_in_motif corrected_group
     basecall_subgroup normalize_method motif_seqs methyloc chrom2len kmer_len).
Local Abbreviation body :=
  (read_features draw h5py_File get_refloc_of_methysite_in_motif corrected_group
     basecall_subgroup normalize_method motif_seqs methyloc chrom2len kmer_len
     raw_signals_len methy_label).
Local Abbreviation extract :=
  (_extract_features draw h5py_File get_refloc_of_methysite_in_motif corrected_group
     basecall_subgroup normalize_method motif_seqs methyloc chrom2len kmer_len
     raw_signals_len methy_label).
Local Abbreviation outcomes :=
  (read_outcomes draw h5py_File get_refloc_of_methysite_in_motif corrected_group
     basecall_subgroup normalize_method motif_seqs methyloc chrom2len kmer_len
     raw_signals_len methy_label).

(** The records a read appends to [features_str]. *)
Local Abbreviation emitted fast5_fp s :=
  (drop (length (features_str s)) (features_str (body fast5_fp s).2)).

(** Where a record comes from: the read has an alignment with an integer
    start, its chromosome has a length, and the record is the one of a
    located site in bounds. *)
Lemma emitted_record_inv fast5_fp s rec :
  rec ∈ emitted fast5_fp s →
  ∃ L o chrom_start cent,
    setup fast5_fp = Ok L
    ∧ _get_alignment_info_from_fast5 h5py_File fast5_fp corrected_group
        basecall_subgroup
      = Ok (readname L, strand L, alignstrand L, chrom L, PyInt chrom_start)
    ∧ chrom2len !! chrom L = Some (chromlen L)
    ∧ o ∈ cpg_site_locs L ∧ in_bounds L o
    ∧ rec = site_record methy_label L o
              (if String.eqb (alignstrand L) "+" then chrom_start
               else chromlen L
                    - (chrom_start + Z.of_nat (String.length (genomeseq L))))%Z
              cent.
Proof.
  destruct (read_features_effect draw h5py_File get_refloc_of_methysite_in_motif
              corrected_group basecall_subgroup normalize_method motif_seqs methyloc
              chrom2len kmer_len raw_signals_len methy_label fast5_fp s)
    as (_ & _ & new & Hnew & Hrec).
  rewrite Hnew, drop_app_length. intros Hin.
  destruct (setup fast5_fp) as [L|e] eqn:Hsetup.
  - specialize (Hrec L eq_refl). unfold records_of in Hrec.
    rewrite Forall_forall in Hrec.
    destruct (Hrec rec Hin) as (o & z & cent & Ho & Hb & Hstart & ->).
    destruct (read_setup_inv h5py_File get_refloc_of_methysite_in_motif corrected_group
              basecall_subgroup normalize_method motif_seqs methyloc chrom2len kmer_len
              fast5_fp L Hsetup)
      as (cs & raw & events & Hinfo & Hlen & Hcs & _).
    destruct (String.eqb (alignstrand L) "+") eqn:Hplus.
    + exists L, o, z, cent. rewrite Hplus. rewrite <- Hcs, Hstart in Hinfo. done.
    + destruct Hcs as (z' & -> & Hz). rewrite Hstart in Hz. simplify_eq.
      exists L, o, z', cent. by rewrite Hplus.
  - rewrite read_features_unfold, Hsetup in Hnew. cbn in Hnew.
    apply (f_equal length) in Hnew. rewrite length_app in Hnew.
    destruct new; [by apply elem_of_nil in Hin|simpl in Hnew; lia].
Qed.

(** C5. Every record comes from a located site [o]: with
    [start_in_alignstrand = chrom_start] on the strand [+] and
    [chromlen - (chrom_start + len(genomeseq))] otherwise, its position in
    the align strand is [o + start_in_alignstrand], and its position is
    [chromlen - 1 -] that value on the strand [-] and that value
    otherwise: the two are what the coordinate mapper of the design
    gives. *)
Theorem coordinate_mapping fast5_fp s rec :
  rec ∈ emitted fast5_fp s →
  ∃ L o chrom_start,
    setup fast5_fp = Ok L
    ∧ _get_alignment_info_from_fast5 h5py_File fast5_fp corrected_group
        basecall_subgroup
      = Ok (readname L, strand L, alignstrand L, chrom L, PyInt chrom_start)
    ∧ chrom2len !! chrom L = Some (chromlen L)
    ∧ o ∈ cpg_site_locs L
    ∧ f_alignstrand rec = alignstrand L
    ∧ (let start_in_alignstrand :=
         if String.eqb (alignstrand L) "+" then chrom_start
         else (chromlen L - (chrom_start + Z.of_nat (String.length (genomeseq L))))%Z in
       chrom_start_in_alignstrand L = PyInt start_in_alignstrand
       ∧ f_cpgloc_in_ref rec = (o + start_in_alignstrand)%Z
       ∧ f_pos rec = if String.eqb (alignstrand L) "-"
                     then (chromlen L - 1 - f_cpgloc_in_ref rec)%Z
                     else f_cpgloc_in_ref rec)
    ∧ (f_cpgloc_in_ref rec, f_pos rec)
      = map_to_reference o (Z.of_nat (String.length (genomeseq L)))
          (alignstrand L) chrom_start (chromlen L).
Proof.
  intros Hin.
  destruct (emitted_record_inv _ _ _ Hin)
    as (L & o & chrom_start & cent & Hsetup & Hinfo & Hlen & Ho & Hb & ->).
  exists L, o, chrom_start. split_and!; try done.
  destruct (read_setup_inv h5py_File get_refloc_of_methysite_in_motif corrected_group
              basecall_subgroup normalize_method motif_seqs methyloc chrom2len kmer_len
              fast5_fp L Hsetup)
    as (cs & raw & events & Hinfo' & _ & Hcs & _).
  rewrite Hinfo in Hinfo'. simplify_eq.
  destruct (String.eqb (alignstrand L) "+"); [done|].
  by destruct Hcs as (z & [= <-] & ->).
Qed.

(** C6. The inverse strand formula undoes the coordinate mapper, whatever
    the strand; and applied to the position of a record, with the length
    of the chromosome of the read, it gives back the offset in the read of
    the site the record is about, the centre of its k-mer. *)
Theorem coordinate_round_trip fast5_fp s rec :
  (∀ o genome_sequence_len alignstrand chrom_start chrom_len,
     recover_offset
       (map_to_reference o genome_sequence_len alignstrand chrom_start chrom_len).2
       genome_sequence_len alignstrand chrom_start chrom_len = o)
  ∧ (rec ∈ emitted fast5_fp s →
     ∃ L o chrom_start,
       setup fast5_fp = Ok L
       ∧ _get_alignment_info_from_fast5 h5py_File fast5_fp corrected_group
           basecall_subgroup
         = Ok (readname L, strand L, alignstrand L, chrom L, PyInt chrom_start)
       ∧ chrom2len !! chrom L = Some (chromlen L)
       ∧ o ∈ cpg_site_locs L
       ∧ f_k_mer rec = str_slice (genomeseq L) (Some (o - num_bases L)%Z)
                         (Some (o + num_bases L + 1)%Z)
       ∧ recover_offset (f_pos rec) (Z.of_nat (String.length (genomeseq L)))
           (alignstrand L) chrom_start (chromlen L) = o).
Proof.
  assert (∀ o gl al cs cl,
            recover_offset (map_to_reference o gl al cs cl).2 gl al cs cl = o)
    as Hpure.
  { intros o gl al cs cl. unfold recover_offset, map_to_reference. cbn [snd].
    destruct (String.eqb al "+"), (String.eqb al "-"); lia. }
  split; [exact Hpure|]. intros Hin.
  destruct (emitted_record_inv _ _ _ Hin)
    as (L & o & chrom_start & cent & Hsetup & Hinfo & Hlen & Ho & Hb & ->).
  exists L, o, chrom_start. split_and!; try done.
  rewrite <- (Hpure o (Z.of_nat (String.length (genomeseq L))) (alignstrand L)
                chrom_start (chromlen L)) at 2.
  reflexivity.
Qed.

(** C8. With [num_bases = (kmer_len - 1) / 2], a site [o] is given a record
    only if [num_bases <= o < len(genomeseq) - num_bases]. A site outside
    of this bound leaves the state as it is and raises nothing, so that
    the read does what it does on its sites in bounds alone; the loop over
    the sites never touches the failure count, and a read none of whose
    sites is in bounds is not counted as failed. *)
Theorem out_of_bounds_sites_skipped fast5_fp L :
  setup fast5_fp = Ok L →
  num_bases L = ((kmer_len - 1) `div` 2)%Z
  ∧ kmer_len = (2 * num_bases L + 1)%Z
  ∧ (∀ o s, ¬ in_bounds L o → site L o s = (Ok tt, s))
  ∧ (∀ s, body fast5_fp s
          = for_each (site L) (filter (in_bounds L) (cpg_site_locs L)) s)
  ∧ (∀ s rec, rec ∈ emitted fast5_fp s →
              ∃ o start cent,
                o ∈ cpg_site_locs L ∧ in_bounds L o
                ∧ rec = site_record methy_label L o start cent)
  ∧ (∀ s, error (body fast5_fp s).2 = error s)
  ∧ (Forall (λ o, ¬ in_bounds L o) (cpg_site_locs L) →
     ∀ s, try_except_Exception (body fast5_fp) error_incr s = (Ok tt, s)).
Proof.
  intros Hsetup.
  destruct (read_setup_inv h5py_File get_refloc_of_methysite_in_motif corrected_group
              basecall_subgroup normalize_method motif_seqs methyloc chrom2len kmer_len
              fast5_fp L Hsetup)
    as (cs & raw & events & _ & _ & _ & Hodd & Hnb & _).
  assert (∀ s, body fast5_fp s
               = for_each (site L) (filter (in_bounds L) (cpg_site_locs L)) s)
    as Hfilter.
  { intros s. rewrite read_features_unfold, Hsetup. apply site_loop_filter. }
  split_and!; try done.
  - rewrite Hnb. revert Hodd. clear. intros Hodd.
    Z.div_mod_to_equations. lia.
  - intros o s Hout. by apply site_features_skip.
  - intros s rec Hin.
    destruct (emitted_record_inv _ _ _ Hin)
      as (L' & o & chrom_start & cent & Hsetup' & _ & _ & Ho & Hb & ->).
    rewrite Hsetup in Hsetup'. simplify_eq. by eexists _, _, _.
  - intros s. by destruct (read_features_effect draw h5py_File
      get_refloc_of_methysite_in_motif corrected_group basecall_subgroup
      normalize_method motif_seqs methyloc chrom2len kmer_len raw_signals_len
      methy_label fast5_fp s) as (_ & ? & _).
  - intros Hall s. unfold try_except_Exception. rewrite Hfilter.
    replace (filter (in_bounds L) (cpg_site_locs L)) with (@nil Z); [done|].
    symmetry. clear -Hall. induction Hall as [|o sites Ho _ IH]; [done|].
    rewrite filter_cons. by destruct (decide (in_bounds L o)).
Qed.

(** C7. Whatever a read raises is caught by the handler of its own [try]
    block, which adds one to the failure count, and the loop goes on with
    the next read: the batch extractor always returns normally, with the
    records of every read put one after the other and the number of reads
    that raised, and it prints as success count the number of reads minus
    that number. *)
Theorem extract_features_isolates_failures fast5s s :
  let outs := outcomes fast5s (st_rng s) in
  (∀ fast5_fp s1,
     ∃ s2, try_except_Exception (body fast5_fp) error_incr s1 = (Ok tt, s2)
           ∧ error s2 = (error s1 + if raised (body fast5_fp s1).1 then 1 else 0)%Z)
  ∧ extract fast5s s
    = (Ok (concat (outs.1.*1), failures outs.1),
       {| st_rng := outs.2;
          st_stdout := st_stdout s ++ [((len fast5s - failures outs.1)%Z, len fast5s)];
          features_str := concat (outs.1.*1);
          error := failures outs.1 |})
  ∧ length outs.1 = length fast5s
  ∧ (0 ≤ failures outs.1 ≤ len fast5s)%Z
  ∧ (∀ new r rec, (new, r) ∈ outs.1 → rec ∈ new → rec ∈ concat (outs.1.*1)).
Proof.
  intros outs. split_and!.
  - intros fast5_fp s1. eexists. split; [apply read_step|].
    cbn [error]. by rewrite (framed_body draw h5py_File get_refloc_of_methysite_in_motif
      corrected_group basecall_subgroup normalize_method motif_seqs methyloc chrom2len
      kmer_len raw_signals_len methy_label fast5_fp s1).
  - apply extract_features_run.
  - apply length_outcomes.
  - pose proof (failures_bounds outs.1) as Hb. unfold len in *.
    unfold outs in *. rewrite length_outcomes in Hb. lia.
  - pose proof (failures_bounds outs.1) as Hb. unfold len in *.
    unfold outs in *. rewrite length_outcomes in Hb. lia.
  - intros new r rec Hin Hrec. apply list_elem_of_In, in_concat. exists new.
    split; [|by apply list_elem_of_In]. apply list_elem_of_In.
    apply list_elem_of_fmap. by exists (new, r).
Qed.

(** *** Configuration errors *)

Lemma read_setup_bad_config fast5_fp :
  bad_config normalize_method kmer_len → raised (setup fast5_fp) = true.
Proof.
  intros Hbad. unfold read_setup.
  destruct (_get_label_raw _ _ _ _) as [[raw events]|e]; [|done].
  cbn [result_bind].
  destruct (_normalize_signals raw normalize_method) as [norm|e] eqn:Hnorm; [|done].
  cbn [result_bind].
  destruct (_get_alignment_info_from_fast5 _ _ _ _)
    as [[[[[rn st] al] ch] cs]|e]; [|done].
  cbn [result_bind].
  destruct (chrom2len !! ch) as [cl|]; [|done].
  cbn [result_bind].
  assert ((kmer_len `mod` 2 =? 0)%Z = true) as ->.
  { destruct Hbad as [Heven|[Hz Hm]]; [by apply Z.eqb_eq|].
    unfold _normalize_signals in Hnorm.
    apply String.eqb_neq in Hz, Hm. by rewrite Hz, Hm in Hnorm. }
  destruct (String.eqb al "+"); [done|]. by destruct cs.
Qed.

Lemma bad_config_outcomes fast5s g :
  bad_config normalize_method kmer_len →
  (outcomes fast5s g).2 = g
  ∧ concat ((outcomes fast5s g).1.*1) = []
  ∧ failures (outcomes fast5s g).1 = len fast5s.
Proof.
  intros Hbad. induction fast5s as [|fast5_fp rest (IH1 & IH2 & IH3)]; [done|].
  cbn [read_outcomes]. rewrite read_features_unfold.
  pose proof (read_setup_bad_config fast5_fp Hbad) as Hraise.
  destruct (setup fast5_fp) as [L|e]; [done|]. cbn [fresh st_rng features_str].
  destruct (outcomes rest g) as [outs g']. cbn [fst snd] in *.
  rewrite failures_cons. cbn [fmap list_fmap concat raised fst app].
  split_and!; [done..|]. unfold len in *. cbn [length]. lia.
Qed.

(** C2, on the code. With an even [kmer_len], or a normalization method that
    is neither [zscore] nor [mad], the batch extractor does not fail: the
    [ValueError] is raised inside the [try] block of each read and caught
    there, so that every read is counted as failed, no record is produced
    and the extractor returns normally, reporting 0 successes. *)
Theorem extract_features_swallows_config_error fast5s s :
  bad_config normalize_method kmer_len →
  extract fast5s s
  = (Ok ([], len fast5s),
     {| st_rng := st_rng s;
        st_stdout := st_stdout s ++ [(0%Z, len fast5s)];
        features_str := [];
        error := len fast5s |}).
Proof.
  intros Hbad. rewrite extract_features_run. cbv zeta.
  destruct (bad_config_outcomes fast5s (st_rng s) Hbad) as (-> & -> & ->).
  by rewrite Z.sub_diag.
Qed.
End ExtractionClaims.

Lemma coordinate_mapping_witness :
  example_minus_record
    ∈ drop (length (features_str example_state))
        (features_str (example_body "minus.fast5" example_state).2)
  ∧ ∃ L o chrom_start,
      example_setup "minus.fast5" = Ok L
      ∧ o ∈ cpg_site_locs L
      ∧ (f_cpgloc_in_ref example_minus_record, f_pos example_minus_record)
        = map_to_reference o (Z.of_nat (String.length (genomeseq L)))
            (alignstrand L) chrom_start (chromlen L).
Proof.
  assert (example_minus_record
            ∈ drop (length (features_str example_state))
                (features_str (example_body "minus.fast5" example_state).2)) as Hin.
  { vm_compute. apply list_elem_of_here. }
  split; [exact Hin|].
  destruct (coordinate_mapping (Numpy0 := integer_samples) last_first_draw
              example_files find_sites "RawGenomeCorrected_000" "BaseCalled_template"
              "mad" ["CG"] 0 example_chrom2len 3 4 "1" "minus.fast5" example_state
              example_minus_record Hin)
    as (L & o & chrom_start & Hsetup & _ & _ & Ho & _ & _ & Hmap).
  exists L, o, chrom_start. split; [exact Hsetup|]. split; [exact Ho|exact Hmap].
Defined.

Lemma coordinate_round_trip_witness :
  example_minus_record
    ∈ drop (length (features_str example_state))
        (features_str (example_body "minus.fast5" example_state).2)
  ∧ ∃ L o chrom_start,
      example_setup "minus.fast5" = Ok L
      ∧ o ∈ cpg_site_locs L
      ∧ recover_offset (f_pos example_minus_record)
          (Z.of_nat (String.length (genomeseq L))) (alignstrand L) chrom_start
          (chromlen L) = o.
Proof.
  assert (example_minus_record
            ∈ drop (length (features_str example_state))
                (features_str (example_body "minus.fast5" example_state).2)) as Hin.
  { vm_compute. apply list_elem_of_here. }
  split; [exact Hin|].
  destruct (coordinate_round_trip (Numpy0 := integer_samples) last_first_draw
              example_files find_sites "RawGenomeCorrected_000" "BaseCalled_template"
              "mad" ["CG"] 0 example_chrom2len 3 4 "1" "minus.fast5" example_state
              example_minus_record) as [_ Hcode].
  destruct (Hcode Hin) as (L & o & chrom_start & Hsetup & _ & _ & Ho & _ & Hback).
  exists L, o, chrom_start. split; [exact Hsetup|]. split; [exact Ho|exact Hback].
Defined.

Lemma out_of_bounds_sites_skipped_witness :
  (∃ L, read_setup (Numpy0 := integer_samples) example_edge_files find_sites
          "RawGenomeCorrected_000" "BaseCalled_template" "mad" ["CG"] 0
          example_chrom2len 3 "edge.fast5" = Ok L
        ∧ cpg_site_locs L = [0; 3]%Z
        ∧ num_bases L = ((3 - 1) `div` 2)%Z
        ∧ ¬ in_bounds L 0 ∧ in_bounds L 3
        ∧ (∀ s : estate nat Z,
             site_features (Numpy0 := integer_samples) last_first_draw 4 "1" L 0 s
             = (Ok tt, s))
        ∧ (∀ s, read_features (Numpy0 := integer_samples) last_first_draw
                  example_edge_files find_sites "RawGenomeCorrected_000"
                  "BaseCalled_template" "mad" ["CG"] 0 example_chrom2len 3 4 "1"
                  "edge.fast5" s
                = for_each
                    (site_features (Numpy0 := integer_samples) last_first_draw 4 "1" L)
                    [3%Z] s))
  ∧ (∃ L, read_setup (Numpy0 := integer_samples) example_edge_files find_sites
            "RawGenomeCorrected_000" "BaseCalled_template" "mad" ["CG"] 0
            example_chrom2len 5 "edge.fast5" = Ok L
          ∧ cpg_site_locs L = [0; 3]%Z
          ∧ Forall (λ o, ¬ in_bounds L o) (cpg_site_locs L)
          ∧ try_except_Exception
              (read_features (Numpy0 := integer_samples) last_first_draw
                 example_edge_files find_sites "RawGenomeCorrected_000"
                 "BaseCalled_template" "mad" ["CG"] 0 example_chrom2len 5 4 "1"
                 "edge.fast5") error_incr example_state
            = (Ok tt, example_state)).
Proof.
  split.
  - destruct (read_setup (Numpy0 := integer_samples) example_edge_files find_sites
                "RawGenomeCorrected_000" "BaseCalled_template" "mad" ["CG"] 0
                example_chrom2len 3 "edge.fast5") as [L|e] eqn:Hsetup;
      [|by vm_compute in Hsetup].
    destruct (out_of_bounds_sites_skipped (Numpy0 := integer_samples) last_first_draw
                example_edge_files find_sites "RawGenomeCorrected_000"
                "BaseCalled_template" "mad" ["CG"] 0 example_chrom2len 3 4 "1"
                "edge.fast5" L Hsetup)
      as (Hnb & _ & Hskip & Hfilter & _).
    vm_compute in Hsetup. injection Hsetup as <-.
    match type of Hnb with num_bases ?L = _ => exists L end.
    split; [reflexivity|]. split; [reflexivity|]. split; [exact Hnb|].
    split; [unfold in_bounds; cbn; lia|]. split; [unfold in_bounds; cbn; lia|].
    split; [intros s; apply Hskip; unfold in_bounds; cbn; lia|exact Hfilter].
  - destruct (read_setup (Numpy0 := integer_samples) example_edge_files find_sites
                "RawGenomeCorrected_000" "BaseCalled_template" "mad" ["CG"] 0
                example_chrom2len 5 "edge.fast5") as [L|e] eqn:Hsetup;
      [|by vm_compute in Hsetup].
    destruct (out_of_bounds_sites_skipped (Numpy0 := integer_samples) last_first_draw
                example_edge_files find_sites "RawGenomeCorrected_000"
                "BaseCalled_template" "mad" ["CG"] 0 example_chrom2len 5 4 "1"
                "edge.fast5" L Hsetup)
      as (Hnb & _ & _ & _ & _ & _ & Hnone).
    vm_compute in Hsetup. injection Hsetup as <-.
    match type of Hnb with num_bases ?L = _ =>
      assert (Forall (λ o, ¬ in_bounds L o) (cpg_site_locs L)) as Hall
        by (repeat constructor; unfold in_bounds; cbn; lia);
      exists L
    end.
    split; [reflexivity|]. split; [reflexivity|].
    split; [exact Hall|]. exact (Hnone Hall example_state).
Defined.

Lemma extract_features_swallows_config_error_witness :
  bad_config "mad" 16
  ∧ example_extract "mad" 16 ["plus.fast5"; "missing.fast5"; "minus.fast5"] example_state
    = (Ok ([], 3%Z),
       {| st_rng := 0; st_stdout := [(0%Z, 3%Z)]; features_str := []; error := 3 |}).
Proof.
  assert (bad_config "mad" 16) as Hbad by (by left).
  split; [exact Hbad|].
  apply (extract_features_swallows_config_error (Numpy0 := integer_samples)
           last_first_draw example_files find_sites "RawGenomeCorrected_000"
           "BaseCalled_template" "mad" ["CG"] 0 example_chrom2len 16 4 "1"
           ["plus.fast5"; "missing.fast5"; "minus.fast5"] example_state Hbad).
Defined.

(** ** Examples *)

(** The three branches of the sampler on a window of three vectors. *)
Example sampler_pads :
  _get_central_signals last_first_draw 0%Z [[1; 2]; [3; 4; 5]; [6]]%Z 8 0
  = (Ok [1; 2; 3; 4; 5; 6; 0; 0]%Z, 0).
Proof. reflexivity. Qed.

Example sampler_subsamples :
  _get_central_signals last_first_draw 0%Z [[1; 2]; [3; 4; 5]; [6]]%Z 2 0
  = (Ok [4; 5]%Z, 1).
Proof. reflexivity. Qed.

Example sampler_splits :
  _get_central_signals last_first_draw 0%Z [[1; 2]; [3; 4; 5]; [6]]%Z 5 0
  = (Ok [2; 3; 4; 5; 6]%Z, 0).
Proof. reflexivity. Qed.

(** A shortfall on the left is taken from the right. *)
Example sampler_shifts_shortfall :
  _get_central_signals last_first_draw 0%Z [[1]; [2]; [3; 4; 5; 6; 7]]%Z 5 0
  = (Ok [1; 2; 3; 4; 5]%Z, 0).
Proof. reflexivity. Qed.

(** An empty window raises in either branch it can reach. *)
Example sampler_empty_window :
  _get_central_signals (R := Z) last_first_draw 0%Z [] 3 0 = (Raise ValueError, 0)
  ∧ _get_central_signals (R := Z) last_first_draw 0%Z [] 0 0 = (Raise IndexError, 0).
Proof. split; reflexivity. Qed.

Example split_keeps_empty_pieces : py_split ","%char "CG,,A," = ["CG"; ""; "A"; ""].
Proof. reflexivity. Qed.

Example expand_ambiguous :
  _get_motif_seqs iupac_standard 4 "CHG,CG"
  = Ok ["CAG"; "CCG"; "CTG"; "CG"].
Proof. vm_compute. reflexivity. Qed.

Example expand_unknown_letter :
  _get_motif_seqs iupac_standard 4 "CXG" = Raise KeyError.
Proof. vm_compute. reflexivity. Qed.

(** The read [AACGT] with motif [CG] and 3-mers: the only site is offset 2,
    and its k-mer is [ACG]; the file that cannot be opened and the read
    without alignment are counted as failed. *)
Example extract_example_batch :
  (example_extract "mad" 3
     ["plus.fast5"; "missing.fast5"; "minus.fast5"; "unaligned.fast5"]
     example_state).1
  = Ok ([ {| f_chrom := "chr1"; f_pos := 102; f_alignstrand := "+";
             f_cpgloc_in_ref := 102; f_readname := "read-1"; f_strand := "t";
             f_k_mer := "ACG";
             f_signal_means := [-20; 0; 20]%Z; f_signal_stds := [1; 1; 1]%Z;
             f_signal_lens := [2; 2; 2]%Z; f_cent_signals := [-15; -5; 5; 15]%Z;
             f_methy_label := "1" |};
          example_minus_record ], 2%Z).
Proof. vm_compute. reflexivity. Qed.

Example extract_example_reports :
  st_stdout
    (example_extract "mad" 3
       ["plus.fast5"; "missing.fast5"; "minus.fast5"; "unaligned.fast5"]
       example_state).2
  = [(2%Z, 4%Z)].
Proof. vm_compute. reflexivity. Qed.

(** * Further properties *)

(** ** The central-signal sampler *)

(** A list comprehension whose body only raises or returns leaves the state
    alone. *)
Lemma list_comp_lift {St X Y} (f : X → result Y) (xs : list X) (s : St) :
  list_comp (λ x, lift (f x)) xs s = (result_map f xs, s).
Proof.
  induction xs as [|x xs IH]; [done|].
  cbn [list_comp result_map]. unfold bind at 1, lift at 1.
  destruct (f x) as [y|e]; [|done]. unfold bind at 1. rewrite IH.
  by destruct (result_map f xs).
Qed.

Lemma sorted_permutation (d1 d2 : list nat) : d1 ≡ₚ d2 → sorted d1 = sorted d2.
Proof.
  intros Hp. unfold sorted.
  apply (Sorted_unique Nat.le).
  - apply (Sorted_merge_sort Nat.le).
  - apply (Sorted_merge_sort Nat.le).
  - by rewrite !merge_sort_Permutation.
Qed.

Lemma right_part_central {R} (signals_list : list (list R)) :
  signals_list ≠ [] →
  right_part signals_list
  = central signals_list ++ concat (drop (S (mid_index signals_list)) signals_list).
Proof.
  intros Hl. unfold right_part.
  by rewrite (drop_S _ _ _ (central_lookup _ Hl)).
Qed.

Lemma split_budget_covers_central (n mid_len la ra : Z) :
  (0 ≤ mid_len < n)%Z → (0 ≤ la)%Z → (mid_len ≤ ra)%Z →
  (mid_len ≤ (split_budget n mid_len la ra).2)%Z.
Proof.
  intros Hm Hla Hra. unfold split_budget.
  assert (0 ≤ (n - mid_len) `div` 2)%Z by (apply Z.div_pos; lia).
  assert ((n - mid_len) `div` 2 ≤ n - mid_len)%Z
    by (apply Z.div_le_upper_bound; lia).
  repeat case Z.ltb_spec; intros; simpl; lia.
Qed.

Section SamplerExtras.
Context {rng R : Type}.
Variable draw : rng → nat → nat → list nat * rng.
Variable zero : R.
Implicit Types (signals_list : list (list R)) (g : rng).

(** X1. An empty window raises whatever the target: [np.concatenate] refuses it
    when the target is positive, and indexing the midpoint fails
    otherwise. The generator is not consulted. *)
Theorem central_signals_empty_window (n : Z) g :
  _get_central_signals draw zero [] n g
  = (Raise (if (0 <? n)%Z then ValueError else IndexError), g).
Proof.
  unfold _get_central_signals. cbn [fmap list_fmap py_sum foldr].
  by destruct (0 <? n)%Z.
Qed.

(** X2. A negative target on a non-empty window reaches [random.sample], which
    raises [ValueError]; the generator is left as it was. *)
Theorem central_signals_negative_target signals_list (n : Z) g :
  signals_list ≠ [] → (n < 0)%Z →
  _get_central_signals draw zero signals_list n g = (Raise ValueError, g).
Proof.
  intros Hl Hn. unfold _get_central_signals.
  pose proof (central_le_total _ Hl) as Htot.
  pose proof (len_nonneg (central signals_list)) as Hc.
  destruct (Z.ltb_spec (py_sum (len <$> signals_list)) n); [lia|].
  rewrite (mid_loc_mid_index _ Hl).
  unfold bind at 1, lift at 1.
  rewrite (py_getitem_lookup _ _ _ (central_lookup _ Hl)).
  destruct (Z.leb_spec n (len (central signals_list))); [|lia].
  unfold bind at 1, lift at 1. unfold bind at 1, random_sample.
  by destruct (Z.ltb_spec n 0); [|lia].
Qed.

(** X3. In the padding branch nothing is lost: the output is every sample of
    the window in order, followed by zeros only, as many as the target
    exceeds the total; the generator is not consulted. *)
Theorem central_signals_padding signals_list (n : Z) g :
  signals_list ≠ [] → pad_branch signals_list n →
  ∃ out,
    _get_central_signals draw zero signals_list n g = (Ok out, g)
    ∧ take (length (concat signals_list)) out = concat signals_list
    ∧ drop (length (concat signals_list)) out
      = replicate (Z.to_nat (n - py_sum (len <$> signals_list))) zero.
Proof.
  intros Hl Hpad. eexists. split; [by apply sampler_pad|].
  rewrite take_app_length, drop_app_length, len_concat. done.
Qed.

(** X4. In the split branch, for a window of at least three vectors, the output
    is one contiguous run of the concatenated window, and it holds the
    central vector whole; the generator is not consulted. *)
Theorem central_signals_split_contiguous signals_list (n : Z) g :
  2 < length signals_list → split_branch signals_list n →
  ∃ before a b after,
    _get_central_signals draw zero signals_list n g
    = (Ok (a ++ central signals_list ++ b), g)
    ∧ concat signals_list = before ++ (a ++ central signals_list ++ b) ++ after
    ∧ before ++ a = left_part signals_list.
Proof.
  intros Hlen Hs.
  assert (signals_list ≠ []) as Hl by (intros ->; simpl in *; lia).
  pose proof (sampler_split draw zero signals_list n g Hlen Hs) as Hrun.
  cbv zeta in Hrun. destruct Hs as [Htot Hmid].
  pose proof (left_right_total signals_list) as Hsum.
  pose proof (len_nonneg (central signals_list)) as Hc.
  assert (len (central signals_list) ≤ len (right_part signals_list))%Z as Hcr.
  { rewrite (right_part_central _ Hl), len_app.
    pose proof (len_nonneg (concat (drop (S (mid_index signals_list)) signals_list))).
    lia. }
  pose proof (split_budget_covers_central n (len (central signals_list))
                (len (left_part signals_list)) (len (right_part signals_list))
                ltac:(lia) (len_nonneg _) Hcr) as Hcover.
  set (bud := split_budget n (len (central signals_list))
                (len (left_part signals_list)) (len (right_part signals_list))) in *.
  set (rest := concat (drop (S (mid_index signals_list)) signals_list)).
  exists (take (length (left_part signals_list) - Z.to_nat bud.1) (left_part signals_list)),
    (last_samples bud.1 (left_part signals_list)),
    (take (Z.to_nat bud.2 - length (central signals_list)) rest),
    (drop (Z.to_nat bud.2 - length (central signals_list)) rest).
  assert (first_samples bud.2 (right_part signals_list)
          = central signals_list
            ++ take (Z.to_nat bud.2 - length (central signals_list)) rest) as Hfirst.
  { unfold first_samples. rewrite (right_part_central _ Hl). fold rest.
    rewrite take_app. rewrite take_ge; [done|]. unfold len in *. lia. }
  split_and!.
  - by rewrite Hrun, Hfirst.
  - transitivity (left_part signals_list ++ right_part signals_list).
    { unfold left_part, right_part. by rewrite <- concat_app, take_drop. }
    rewrite (right_part_central _ Hl). fold rest. unfold last_samples.
    rewrite <- (take_drop (length (left_part signals_list) - Z.to_nat bud.1)
                  (left_part signals_list)) at 1.
    rewrite <- (take_drop (Z.to_nat bud.2 - length (central signals_list)) rest) at 1.
    by rewrite <- !app_assoc.
  - unfold last_samples. apply take_drop.
Qed.

(** X5. A window of at least three vectors that holds exactly the target
    number of samples, its central vector fewer, is returned whole. *)
Theorem central_signals_exact_total signals_list g :
  2 < length signals_list →
  (len (central signals_list) < py_sum (len <$> signals_list))%Z →
  _get_central_signals draw zero signals_list (py_sum (len <$> signals_list)) g
  = (Ok (concat signals_list), g).
Proof.
  intros Hlen Hmid.
  assert (split_branch signals_list (py_sum (len <$> signals_list))) as Hs
    by (split; [lia|done]).
  rewrite (sampler_split draw zero signals_list _ g Hlen Hs). cbv zeta.
  pose proof (left_right_total signals_list) as Hsum.
  pose proof (len_nonneg (central signals_list)) as Hc.
  destruct (split_budget_bounds (py_sum (len <$> signals_list))
    (len (central signals_list))
    (len (left_part signals_list)) (len (right_part signals_list)))
    as (Hbsum & Hb1 & Hb2); [lia|apply len_nonneg|apply len_nonneg|lia|].
  set (bud := split_budget _ _ _ _) in *.
  assert (bud.1 = len (left_part signals_list)) as -> by lia.
  assert (bud.2 = len (right_part signals_list)) as -> by lia.
  unfold last_samples, first_samples, len. rewrite !Nat2Z.id, Nat.sub_diag, drop_0.
  rewrite take_ge by lia.
  unfold left_part, right_part. by rewrite <- concat_app, take_drop.
Qed.

(** X6. In the random branch the order in which [random.sample] hands out the
    indices does not matter: two draws of the same indices give the same
    output. *)
Theorem central_signals_draw_order signals_list (n : Z) g1 g2 :
  signals_list ≠ [] → (0 ≤ n)%Z → random_branch signals_list n →
  (draw g1 (length (central signals_list)) (Z.to_nat n)).1
  ≡ₚ (draw g2 (length (central signals_list)) (Z.to_nat n)).1 →
  (_get_central_signals draw zero signals_list n g1).1
  = (_get_central_signals draw zero signals_list n g2).1.
Proof.
  intros Hl Hn Hr Hp.
  rewrite !(sampler_random draw zero signals_list n _ Hl Hn Hr). cbv zeta.
  rewrite !list_comp_lift. cbn [fst]. by rewrite (sorted_permutation _ _ Hp).
Qed.
End SamplerExtras.

Lemma central_signals_negative_target_witness :
  [[1; 2]; [3]]%Z ≠ [] ∧ (-1 < 0)%Z
  ∧ _get_central_signals last_first_draw 0%Z [[1; 2]; [3]]%Z (-1) 0
    = (Raise ValueError, 0).
Proof.
  split_and!; [done|lia|].
  apply (central_signals_negative_target last_first_draw 0%Z [[1; 2]; [3]]%Z (-1) 0);
    [done|lia].
Defined.

Lemma central_signals_padding_witness :
  let signals_list := [[1; 2]; [3]; [4]]%Z in
  signals_list ≠ [] ∧ pad_branch signals_list 6
  ∧ ∃ out,
      _get_central_signals last_first_draw 0%Z signals_list 6 0 = (Ok out, 0)
      ∧ take (length (concat signals_list)) out = concat signals_list
      ∧ drop (length (concat signals_list)) out
        = replicate (Z.to_nat (6 - py_sum (len <$> signals_list))) 0%Z.
Proof.
  assert (pad_branch [[1; 2]; [3]; [4]]%Z 6) as Hpad.
  { unfold pad_branch. simpl. unfold len. simpl. lia. }
  split_and!; [done|exact Hpad|].
  apply (central_signals_padding last_first_draw 0%Z [[1; 2]; [3]; [4]]%Z 6 0);
    [done|exact Hpad].
Defined.

Lemma central_signals_split_contiguous_witness :
  let signals_list := [[1; 2; 3]; [4; 5]; [6; 7; 8]]%Z in
  2 < length signals_list ∧ split_branch signals_list 5
  ∧ ∃ before a b after,
      _get_central_signals last_first_draw 0%Z signals_list 5 0
      = (Ok (a ++ central signals_list ++ b), 0)
      ∧ concat signals_list = before ++ (a ++ central signals_list ++ b) ++ after
      ∧ before ++ a = left_part signals_list.
Proof.
  assert (split_branch [[1; 2; 3]; [4; 5]; [6; 7; 8]]%Z 5) as Hs.
  { split; simpl; unfold len; simpl; lia. }
  split_and!; [simpl; lia|exact Hs|].
  apply (central_signals_split_contiguous last_first_draw 0%Z
           [[1; 2; 3]; [4; 5]; [6; 7; 8]]%Z 5 0); [simpl; lia|exact Hs].
Defined.

Lemma central_signals_exact_total_witness :
  let signals_list := [[1; 2; 3]; [4; 5]; [6; 7; 8]]%Z in
  2 < length signals_list
  ∧ (len (central signals_list) < py_sum (len <$> signals_list))%Z
  ∧ _get_central_signals last_first_draw 0%Z signals_list
      (py_sum (len <$> signals_list)) 0
    = (Ok (concat signals_list), 0).
Proof.
  assert (len (central [[1; 2; 3]; [4; 5]; [6; 7; 8]]%Z)
          < py_sum (len <$> [[1; 2; 3]; [4; 5]; [6; 7; 8]]%Z))%Z as Hmid.
  { simpl. unfold len. simpl. lia. }
  split_and!; [simpl; lia|exact Hmid|].
  apply (central_signals_exact_total last_first_draw 0%Z
           [[1; 2; 3]; [4; 5]; [6; 7; 8]]%Z 0); [simpl; lia|exact Hmid].
Defined.

Lemma central_signals_draw_order_witness :
  let signals_list := [[1]; [2; 3; 4; 5]; [6]]%Z in
  signals_list ≠ [] ∧ (0 ≤ 3)%Z ∧ random_branch signals_list 3
  ∧ (parity_draw 0 (length (central signals_list)) (Z.to_nat 3)).1
    ≡ₚ (parity_draw 1 (length (central signals_list)) (Z.to_nat 3)).1
  ∧ (_get_central_signals parity_draw 0%Z signals_list 3 0).1
    = (_get_central_signals parity_draw 0%Z signals_list 3 1).1.
Proof.
  assert (random_branch [[1]; [2; 3; 4; 5]; [6]]%Z 3) as Hr.
  { unfold random_branch. simpl. unfold len. simpl. lia. }
  assert ((parity_draw 0 (length (central [[1]; [2; 3; 4; 5]; [6]]%Z)) (Z.to_nat 3)).1
          ≡ₚ (parity_draw 1 (length (central [[1]; [2; 3; 4; 5]; [6]]%Z)) (Z.to_nat 3)).1)
    as Hp.
  { change ([1; 2; 3] ≡ₚ [3; 2; 1]). apply (reverse_Permutation [3; 2; 1]). }
  split_and!; [done|lia|exact Hr|exact Hp|].
  apply (central_signals_draw_order parity_draw 0%Z [[1]; [2; 3; 4; 5]; [6]]%Z 3 0 1);
    [done|lia|exact Hr|exact Hp].
Defined.

(** ** Motif expansion *)

Lemma py_split_nonempty (sep : ascii) (s : string) : py_split sep s ≠ [].
Proof.
  destruct s as [|c s]; [done|]. simpl.
  destruct (decide (c = sep)); [done|]. by destruct (py_split sep s).
Qed.

Lemma py_split_app (sep : ascii) (a b : string) :
  py_split sep (a +:+ String sep b) = py_split sep a ++ py_split sep b.
Proof.
  induction a as [|c a IH].
  - simpl. by destruct (decide (sep = sep)).
  - rewrite append_cons. cbn [py_split]. rewrite IH.
    destruct (decide (c = sep)); [done|].
    pose proof (py_split_nonempty sep a). by destruct (py_split sep a).
Qed.

Lemma single_letter_string (b : string) :
  String.length b = 1 → ∃ ch, b = String ch EmptyString.
Proof. destruct b as [|ch [|]]; [done| |done]. by exists ch. Qed.

Lemma chars_inj (s t : string) : chars s = chars t → s = t.
Proof.
  revert t. induction s as [|c s IH]; intros [|d t] Heq; simplify_eq/=; [done|].
  f_equal. by apply IH.
Qed.

Section MotifExtras.
Variable tbl : gmap ascii (list string).

Lemma result_map_unknown (cs : list ascii) (c : ascii) :
  c ∈ cs → tbl !! c = None →
  result_map (iupac_lookup tbl) cs = Raise KeyError.
Proof.
  intros Hin Hc. induction cs as [|d cs IH]; [by apply elem_of_nil in Hin|].
  cbn [result_map]. unfold iupac_lookup at 1.
  destruct (tbl !! d) as [bs|] eqn:Hd; [|done].
  apply elem_of_cons in Hin as [->|Hin]; [congruence|].
  cbn [result_bind]. by rewrite (IH Hin).
Qed.

(** X7. A letter that the table does not know makes the expansion of the
    element raise [KeyError], before [recursive_permute] is entered: also
    when the recursion limit leaves no call to make. *)
Theorem convert_motif_seq_unknown_letter (elem : string) (depth : nat) (c : ascii) :
  c ∈ chars elem → tbl !! c = None →
  _convert_motif_seq tbl depth elem = Raise KeyError.
Proof.
  intros Hin Hc. unfold _convert_motif_seq.
  by rewrite (result_map_unknown _ _ Hin Hc).
Qed.

Lemma get_motif_seqs_loop_acc (depth : nat) (acc elems : list string) :
  _get_motif_seqs_loop tbl depth acc elems
  = match _get_motif_seqs_loop tbl depth [] elems with
    | Ok seqs => Ok (acc ++ seqs)
    | other => other
    end.
Proof.
  revert acc. induction elems as [|elem elems IH]; intros acc.
  { simpl. by rewrite app_nil_r. }
  cbn [_get_motif_seqs_loop].
  destruct (_convert_motif_seq tbl depth elem) as [seqs|e]; [|done].
  cbn [result_bind]. rewrite (IH (acc ++ seqs)), (IH ([] ++ seqs)).
  destruct (_get_motif_seqs_loop tbl depth [] elems) as [seqs'|e]; [|done].
  by rewrite app_assoc.
Qed.

Lemma get_motif_seqs_loop_app (depth : nat) (acc xs ys : list string) :
  _get_motif_seqs_loop tbl depth acc (xs ++ ys)
  = match _get_motif_seqs_loop tbl depth acc xs with
    | Ok seqs => _get_motif_seqs_loop tbl depth seqs ys
    | other => other
    end.
Proof.
  revert acc. induction xs as [|x xs IH]; intros acc; [done|].
  cbn [app _get_motif_seqs_loop].
  destruct (_convert_motif_seq tbl depth x) as [seqs|e]; [|done].
  apply IH.
Qed.

(** X8. The specification is expanded piece by piece: the expansion of two
    specifications joined by a comma is the expansion of the first followed
    by the expansion of the second, in this order and with repetitions
    kept. *)
Theorem get_motif_seqs_comma (depth : nat) (a b : string) (ra rb : list string) :
  _get_motif_seqs tbl depth a = Ok ra →
  _get_motif_seqs tbl depth b = Ok rb →
  _get_motif_seqs tbl depth (a +:+ "," +:+ b) = Ok (ra ++ rb).
Proof.
  unfold _get_motif_seqs. intros Ha Hb.
  change (a +:+ "," +:+ b) with (a +:+ String ","%char b).
  rewrite py_split_app, get_motif_seqs_loop_app, Ha.
  by rewrite get_motif_seqs_loop_acc, Hb.
Qed.

Lemma elem_of_permute_two (s : string) (b0 b1 : list string) :
  s ∈ permute_two b0 b1 ↔ ∃ f t, f ∈ b0 ∧ t ∈ b1 ∧ s = f +:+ t.
Proof.
  unfold permute_two. rewrite list_elem_of_bind. split.
  - intros (f & Hs & Hf). apply list_elem_of_bind in Hs as (t & Hs & Ht).
    apply list_elem_of_singleton in Hs. by exists f, t.
  - intros (f & t & Hf & Ht & ->). exists f. split; [|done].
    apply list_elem_of_bind. exists t. split; [|done].
    by apply list_elem_of_singleton.
Qed.

Lemma elem_of_cartesian_letters (cs : list ascii) (s : string) :
  single_letter_bases tbl →
  Forall (λ c, is_Some (tbl !! c)) cs →
  s ∈ cartesian ((λ c, default [] (tbl !! c)) <$> cs)
  ↔ Forall2 (covers tbl) (chars s) cs.
Proof.
  intros Hone Hrec. revert s. induction Hrec as [|c cs [bs Hc] _ IH]; intros s.
  - cbn. rewrite list_elem_of_singleton. split.
    + intros ->. constructor.
    + intros Hnil%Forall2_nil_inv_r. by destruct s.
  - cbn [fmap list_fmap cartesian]. rewrite Hc. cbn [default].
    rewrite elem_of_permute_two. split.
    + intros (f & t & Hf & Ht & ->).
      pose proof (Hone c bs Hc) as Hlen. rewrite Forall_forall in Hlen.
      destruct (single_letter_string f (Hlen f Hf)) as [ch ->].
      rewrite append_cons. cbn [chars String.append].
      constructor; [by exists bs|]. by apply IH.
    + intros H2. destruct s as [|ch t]; [by apply Forall2_nil_cons_inv in H2|].
      cbn [chars] in H2. apply Forall2_cons in H2 as [(bs' & Hc' & Hch) H2].
      rewrite Hc in Hc'. simplify_eq.
      exists (String ch ""), t. split_and!; [done|by apply IH|done].
Qed.

(** X9. With a table of single bases, the expansions of an element are exactly
    the strings of its length whose characters are each covered by the
    letter at the same position. *)
Theorem convert_motif_seq_membership (elem : string) (depth : nat) :
  well_formed_element tbl elem → single_letter_bases tbl →
  String.length elem ≤ depth →
  ∃ seqs,
    _convert_motif_seq tbl depth elem = Ok seqs
    ∧ (∀ s, s ∈ seqs ↔ Forall2 (covers tbl) (chars s) (chars elem))
    ∧ (∀ s, s ∈ seqs → String.length s = String.length elem).
Proof.
  intros Hwf Hone Hd. exists (cartesian (expansion_sets tbl elem)).
  assert (∀ s, s ∈ cartesian (expansion_sets tbl elem)
               ↔ Forall2 (covers tbl) (chars s) (chars elem)) as Hmem.
  { intros s. apply elem_of_cartesian_letters; [done|by destruct Hwf]. }
  split_and!; [by apply convert_motif_seq_cartesian|done|].
  intros s Hs%Hmem. apply Forall2_length in Hs. by rewrite !length_chars in Hs.
Qed.

Lemma NoDup_permute_two (b0 b1 : list string) :
  Forall (λ b, String.length b = 1) b0 → NoDup b0 → NoDup b1 →
  NoDup (permute_two b0 b1).
Proof.
  intros Hlen Hb0 Hb1. induction Hb0 as [|f b0 Hf Hb0 IH]; [constructor|].
  apply Forall_cons in Hlen as [Hflen Hlen].
  rewrite permute_two_cons. apply NoDup_app. split_and!.
  - by apply (NoDup_fmap (String.append f)).
  - intros s (t & -> & Ht)%list_elem_of_fmap (f' & t' & Hf' & Ht' & Heq)%elem_of_permute_two.
    rewrite Forall_forall in Hlen.
    destruct (single_letter_string f Hflen) as [ch ->].
    destruct (single_letter_string f' (Hlen f' Hf')) as [ch' ->].
    rewrite !append_cons in Heq. simplify_eq/=. done.
  - by apply IH.
Qed.

(** X10. With a table of single bases that lists no base twice, no string occurs
    twice in the expansion of an element. *)
Theorem convert_motif_seq_no_duplicates (elem : string) (depth : nat) :
  well_formed_element tbl elem → single_letter_bases tbl → distinct_bases tbl →
  String.length elem ≤ depth →
  ∃ seqs, _convert_motif_seq tbl depth elem = Ok seqs ∧ NoDup seqs.
Proof.
  intros Hwf Hone Hdist Hd. exists (cartesian (expansion_sets tbl elem)).
  split; [by apply convert_motif_seq_cartesian|].
  destruct Hwf as [_ Hrec]. unfold expansion_sets.
  induction Hrec as [|c cs [bs Hc] _ IH]; [apply NoDup_singleton|].
  cbn [fmap list_fmap cartesian]. rewrite Hc. cbn [default].
  apply NoDup_permute_two; [by eapply Hone|by eapply Hdist|done].
Qed.
End MotifExtras.

Lemma iupac_standard_single_letter : single_letter_bases iupac_standard.
Proof.
  apply (bool_decide_unpack
           (map_Forall (λ _ bs, Forall (λ b, String.length b = 1) bs) iupac_standard)).
  by vm_compute.
Qed.

Lemma iupac_standard_distinct : distinct_bases iupac_standard.
Proof.
  apply (bool_decide_unpack (map_Forall (λ _ bs, NoDup bs) iupac_standard)).
  by vm_compute.
Qed.

Lemma convert_motif_seq_unknown_letter_witness :
  "X"%char ∈ chars "CXG" ∧ iupac_standard !! "X"%char = None
  ∧ _convert_motif_seq iupac_standard 0 "CXG" = Raise KeyError.
Proof.
  assert ("X"%char ∈ chars "CXG") as Hin
    by (apply list_elem_of_further, list_elem_of_here).
  split_and!; [exact Hin|reflexivity|].
  apply (convert_motif_seq_unknown_letter iupac_standard "CXG" 0 "X"%char Hin).
  reflexivity.
Defined.

Lemma get_motif_seqs_comma_witness :
  _get_motif_seqs iupac_standard 3 "CG" = Ok ["CG"]
  ∧ _get_motif_seqs iupac_standard 3 "CHG" = Ok ["CAG"; "CCG"; "CTG"]
  ∧ _get_motif_seqs iupac_standard 3 ("CG" +:+ "," +:+ "CHG")
    = Ok (["CG"] ++ ["CAG"; "CCG"; "CTG"]).
Proof.
  assert (_get_motif_seqs iupac_standard 3 "CG" = Ok ["CG"]) as Ha
    by (vm_compute; reflexivity).
  assert (_get_motif_seqs iupac_standard 3 "CHG" = Ok ["CAG"; "CCG"; "CTG"])
    as Hb by (vm_compute; reflexivity).
  split_and!; [exact Ha|exact Hb|].
  apply (get_motif_seqs_comma iupac_standard 3 "CG" "CHG" _ _ Ha Hb).
Defined.

Lemma convert_motif_seq_membership_witness :
  well_formed_element iupac_standard "CNG" ∧ single_letter_bases iupac_standard
  ∧ String.length "CNG" ≤ 3
  ∧ ∃ seqs,
      _convert_motif_seq iupac_standard 3 "CNG" = Ok seqs
      ∧ (∀ s, s ∈ seqs ↔ Forall2 (covers iupac_standard) (chars s) (chars "CNG"))
      ∧ (∀ s, s ∈ seqs → String.length s = String.length "CNG").
Proof.
  assert (well_formed_element iupac_standard "CNG") as Hwf by well_formed_literal.
  split_and!; [exact Hwf|exact iupac_standard_single_letter|simpl; lia|].
  apply (convert_motif_seq_membership iupac_standard "CNG" 3 Hwf
           iupac_standard_single_letter).
  simpl. lia.
Defined.

Lemma convert_motif_seq_no_duplicates_witness :
  well_formed_element iupac_standard "CNG" ∧ single_letter_bases iupac_standard
  ∧ distinct_bases iupac_standard ∧ String.length "CNG" ≤ 3
  ∧ ∃ seqs, _convert_motif_seq iupac_standard 3 "CNG" = Ok seqs ∧ NoDup seqs.
Proof.
  assert (well_formed_element iupac_standard "CNG") as Hwf by well_formed_literal.
  split_and!; [exact Hwf|exact iupac_standard_single_letter
              |exact iupac_standard_distinct|simpl; lia|].
  apply (convert_motif_seq_no_duplicates iupac_standard "CNG" 3 Hwf
           iupac_standard_single_letter iupac_standard_distinct).
  simpl. lia.
Defined.

(** ** Feature extraction *)

Lemma py_slice_nonneg {A} (l : list A) (lo hi : Z) :
  (0 ≤ lo)%Z → (0 ≤ hi)%Z →
  py_slice l (Some lo) (Some hi)
  = take (Z.to_nat hi - Z.to_nat lo) (drop (Z.to_nat lo) l).
Proof.
  intros Hlo Hhi. unfold py_slice, slice_bound; cbn [from_option].
  destruct (Z.ltb_spec lo 0); [lia|]. destruct (Z.ltb_spec hi 0); [lia|].
  destruct (Z.le_gt_cases lo (Z.of_nat (length l))) as [Hl|Hl].
  - rewrite (Z.min_r _ lo) by lia.
    destruct (Z.le_gt_cases hi (Z.of_nat (length l))).
    + by rewrite Z.min_r by lia.
    + rewrite Z.min_l, Nat2Z.id by lia.
      rewrite !take_ge; [done|rewrite length_drop; lia..].
  - rewrite (Z.min_l _ lo), Nat2Z.id by lia.
    rewrite !drop_ge by lia. by rewrite !take_nil.
Qed.

Lemma length_py_slice {A} (l : list A) (lo hi : Z) :
  (0 ≤ lo ≤ hi)%Z → (hi ≤ len l)%Z →
  len (py_slice l (Some lo) (Some hi)) = (hi - lo)%Z.
Proof.
  unfold len. intros Hlo Hhi. rewrite py_slice_nonneg by lia.
  rewrite length_take, length_drop. lia.
Qed.

Lemma fmap_py_slice {A B} (f : A → B) (l : list A) (lo hi : option Z) :
  f <$> py_slice l lo hi = py_slice (f <$> l) lo hi.
Proof. unfold py_slice. by rewrite fmap_take, fmap_drop, length_fmap. Qed.

Lemma length_string_of_list_ascii (cs : list ascii) :
  String.length (String.string_of_list_ascii cs) = length cs.
Proof. induction cs as [|c cs IH]; [done|]. simpl. by rewrite IH. Qed.

Lemma length_append (s t : string) :
  String.length (s +:+ t) = String.length s + String.length t.
Proof.
  induction s as [|c s IH]; [done|]. rewrite append_cons. simpl. by rewrite IH.
Qed.

Lemma length_genomeseq (events : list (Z * Z * string)) (acc : string) :
  Forall (λ e, String.length e.2 = 1) events →
  String.length (foldl (λ acc e, acc +:+ e.2) acc events)
  = String.length acc + length events.
Proof.
  intros Hone. revert acc. induction Hone as [|e events He _ IH]; intros acc.
  - simpl. lia.
  - cbn [foldl]. rewrite IH, length_append, He. simpl. lia.
Qed.

Lemma sampler_returns_length {rng R : Type}
    (draw : rng → nat → nat → list nat * rng) (zero : R)
    (signals_list : list (list R)) (n : Z) (g : rng) :
  sample_contract draw → signals_list ≠ [] → length signals_list ≠ 2 → (0 ≤ n)%Z →
  ∃ out g', _get_central_signals draw zero signals_list n g = (Ok out, g')
            ∧ len out = n.
Proof.
  intros Hdraw Hl Htwo Hn.
  destruct (Z.lt_ge_cases (py_sum (len <$> signals_list)) n) as [Hpad|Htot].
  { eexists _, _. split; [by apply sampler_pad|].
    rewrite len_app, len_concat. unfold len at 2.
    rewrite length_replicate. lia. }
  destruct (Z.le_gt_cases n (len (central signals_list))) as [Hr|Hmid].
  { rewrite (sampler_random draw zero signals_list n g Hl Hn Hr). cbv zeta.
    destruct (sorted_is_sample (length (central signals_list)) (Z.to_nat n)
                (draw g (length (central signals_list)) (Z.to_nat n)).1)
      as (Hlen & _ & Hlt & _).
    { apply Hdraw. unfold len in Hr. lia. }
    destruct (list_comp_getitem (central signals_list) _
                (draw g (length (central signals_list)) (Z.to_nat n)).2 Hlt)
      as (out & Hrun & H2).
    exists out, (draw g (length (central signals_list)) (Z.to_nat n)).2.
    split; [done|]. unfold len. rewrite <- (Forall2_length _ _ _ H2). lia. }
  assert (2 < length signals_list) as Hlen.
  { destruct signals_list as [|a [|b [|c l]]]; simpl in *; try lia; try done.
    unfold central, mid_index in Hmid. simpl in *. lia. }
  pose proof (left_right_total signals_list) as Hsum.
  pose proof (len_nonneg (central signals_list)) as Hc.
  destruct (split_budget_bounds n (len (central signals_list))
    (len (left_part signals_list)) (len (right_part signals_list)))
    as (Hbsum & Hb1 & Hb2); [lia|apply len_nonneg|apply len_nonneg|lia|].
  eexists _, _. split; [apply sampler_split; [done|by split]|].
  rewrite len_app. unfold len, last_samples, first_samples in *.
  rewrite length_drop, length_take. lia.
Qed.

Lemma last_first_draw_contract : sample_contract last_first_draw.
Proof.
  intros g m k Hk. unfold last_first_draw. cbn [fst]. split_and!.
  - by rewrite length_reverse, length_seq.
  - rewrite reverse_Permutation. apply NoDup_ListNoDup, List.seq_NoDup.
  - rewrite reverse_Permutation. apply Forall_forall.
    intros i Hi%list_elem_of_In%in_seq. lia.
Qed.

Lemma chars_substring (s : string) : ∀ n k,
  chars (String.substring n k s) = take k (drop n (chars s)).
Proof.
  induction s as [|c s IH]; intros [|n] [|k]; simpl; try done; by rewrite IH.
Qed.

(** [s.endswith(suffix)] looks at the last characters of [s] only. *)
Lemma py_endswith_drop (s suffix : string) :
  py_endswith s suffix = true
  ↔ String.length suffix ≤ String.length s
    ∧ drop (String.length s - String.length suffix) (chars s) = chars suffix.
Proof.
  unfold py_endswith. rewrite andb_true_iff, Nat.leb_le, String.eqb_eq.
  split; intros [Hlen Heq]; (split; [done|]).
  - apply (f_equal chars) in Heq. rewrite chars_substring in Heq.
    rewrite <- Heq. symmetry. apply take_ge.
    rewrite length_drop, length_chars. lia.
  - apply chars_inj. rewrite chars_substring, Heq. apply take_ge.
    by rewrite length_chars.
Qed.

(** Whether a path ends with a suffix that has no [/] is decided by its
    last component. *)
Lemma py_endswith_last_component (dir name suffix : string) :
  "/"%char ∉ chars suffix →
  py_endswith (dir +:+ "/" +:+ name) suffix = py_endswith name suffix.
Proof.
  intros Hslash. apply eq_true_iff_eq. rewrite !py_endswith_drop.
  rewrite !length_append, !chars_append. cbn [String.length chars].
  pose proof (length_chars dir) as Hdir. pose proof (length_chars name) as Hname.
  pose proof (length_chars suffix) as Hsuffix.
  set (k := String.length suffix) in *. set (n := String.length name) in *.
  replace (chars dir ++ ["/"%char] ++ chars name)
    with ((chars dir ++ ["/"%char]) ++ chars name) by by rewrite <- app_assoc.
  assert (length (chars dir ++ ["/"%char]) = S (String.length dir)) as Hpre
    by (rewrite length_app; cbn; lia).
  destruct (decide (k ≤ n)) as [Hle|Hgt].
  - replace (String.length dir + (1 + n) - k)
      with (length (chars dir ++ ["/"%char]) + (n - k)) by lia.
    rewrite drop_app_add. split; intros [_ Heq]; (split; [lia|done]).
  - split; [|lia]. intros [Hlen Heq]. exfalso. apply Hslash.
    rewrite <- Heq, drop_app_le by lia.
    rewrite drop_app_le by (rewrite Hdir; lia).
    rewrite <- !app_assoc. set_solver.
Qed.

Section ExtractionExtras.
Context {rng R : Type} `{!Numpy R}.
Variable draw : rng → nat → nat → list nat * rng.
Variable h5py_File : string → option (h5file R).
Variable get_refloc_of_methysite_in_motif : string → string → Z → list Z.
Variables (corrected_group basecall_subgroup normalize_method : string).
Variable motif_seqs : list string.
Variable methyloc : Z.
Variable chrom2len : gmap string Z.
Variables kmer_len raw_signals_len : Z.
Variable methy_label : string.
Implicit Types (s : estate rng R) (L : @read_locals R) (g : rng).

Local Abbreviation site := (site_features draw raw_signals_len methy_label).
Local Abbreviation setup :=
  (read_setup h5py_File get_refloc_of_methysite_in_motif corrected_group
     basecall_subgroup normalize_method motif_seqs methyloc chrom2len kmer_len).
Local Abbreviation body :=
  (read_features draw h5py_File get_refloc_of_methysite_in_motif corrected_group
     basecall_subgroup normalize_method motif_seqs methyloc chrom2len kmer_len
     raw_signals_len methy_label).
Local Abbreviation extract :=
  (_extract_features draw h5py_File get_refloc_of_methysite_in_motif corrected_group
     basecall_subgroup normalize_method motif_seqs methyloc chrom2len kmer_len
     raw_signals_len methy_label).
Local Abbreviation outcomes :=
  (read_outcomes draw h5py_File get_refloc_of_methysite_in_motif corrected_group
     basecall_subgroup normalize_method motif_seqs methyloc chrom2len kmer_len
     raw_signals_len methy_label).
Local Abbreviation emitted fast5_fp s :=
  (drop (length (features_str s)) (features_str (body fast5_fp s).2)).

(** *** Reading the file *)

Lemma label_raw_inv fast5_fp raw events :
  _get_label_raw h5py_File fast5_fp corrected_group basecall_subgroup = Ok (raw, events) →
  ∃ h event rel,
    h5py_File fast5_fp = Some h
    ∧ h5_signal h = Some raw
    ∧ h5_events h corrected_group basecall_subgroup = Some event
    ∧ ev_attrs event !! "read_start_rel_to_raw" = Some rel
    ∧ length (ev_start event) = length (ev_length event)
    ∧ length (ev_length event) = length (ev_base event)
    ∧ events = zip (zip ((λ x, x + rel)%Z <$> ev_start event) (ev_length event))
                 (ev_base event).
Proof.
  unfold _get_label_raw. intros Hraw.
  destruct (h5py_File fast5_fp) as [h|] eqn:Hh; [|done].
  destruct (h5_signal h) as [raw'|] eqn:Hsig; [|done].
  destruct (h5_events h corrected_group basecall_subgroup) as [event|] eqn:Hev; [|done].
  destruct (ev_attrs event !! "read_start_rel_to_raw") as [rel|] eqn:Hrel; [|done].
  unfold len in Hraw. rewrite length_fmap in Hraw.
  destruct (Z.eqb_spec (Z.of_nat (length (ev_start event)))
              (Z.of_nat (length (ev_length event)))) as [H1|]; [|done].
  destruct (Z.eqb_spec (Z.of_nat (length (ev_length event)))
              (Z.of_nat (length (ev_base event)))) as [H2|]; [|done].
  cbn in Hraw. simplify_eq. exists h, event, rel. split_and!; try done; lia.
Qed.

Lemma normalize_signals_length (signals norm : list R) (method : string) :
  _normalize_signals signals method = Ok norm → length norm = length signals.
Proof.
  unfold _normalize_signals.
  destruct (String.eqb method "zscore"); [|destruct (String.eqb method "mad")];
    intros Hn; simplify_eq; by rewrite !length_fmap.
Qed.

Lemma read_setup_signals fast5_fp L :
  setup fast5_fp = Ok L →
  ∃ raw events norm,
    _get_label_raw h5py_File fast5_fp corrected_group basecall_subgroup = Ok (raw, events)
    ∧ _normalize_signals raw normalize_method = Ok norm
    ∧ genomeseq L = foldl (λ acc e, acc +:+ e.2) "" events
    ∧ signal_list L
      = (λ e, py_slice norm (Some e.1.1) (Some (e.1.1 + e.1.2)%Z)) <$> events
    ∧ (kmer_len `mod` 2 ≠ 0)%Z
    ∧ num_bases L = ((kmer_len - 1) `div` 2)%Z.
Proof.
  unfold read_setup. intros Hsetup.
  destruct (_get_label_raw _ _ _ _) as [[raw events]|e]; [|done].
  cbn [result_bind] in Hsetup.
  destruct (_normalize_signals _ _) as [norm|e] eqn:Hnorm; [|done].
  cbn [result_bind] in Hsetup.
  destruct (_get_alignment_info_from_fast5 _ _ _ _)
    as [[[[[rn st] al] ch] cs]|e]; [|done].
  cbn [result_bind] in Hsetup.
  destruct (chrom2len !! ch) as [cl|]; [|done].
  cbn [result_bind] in Hsetup.
  exists raw, events, norm.
  destruct (String.eqb al "+").
  - cbn [result_bind] in Hsetup.
    destruct (Z.eqb_spec (kmer_len `mod` 2) 0); [done|].
    cbn [result_bind] in Hsetup. injection Hsetup as <-. by split_and!.
  - destruct cs as [z|str]; [|done].
    cbn [result_bind py_add_int] in Hsetup.
    destruct (Z.eqb_spec (kmer_len `mod` 2) 0); [done|].
    cbn [result_bind] in Hsetup. injection Hsetup as <-. by split_and!.
Qed.

(** With one character per called base, a read has as many signal vectors
    as bases, and [kmer_len] is [2 * num_bases + 1]. *)
Lemma read_setup_lengths fast5_fp L :
  setup fast5_fp = Ok L →
  single_letter_calls h5py_File corrected_group basecall_subgroup fast5_fp →
  String.length (genomeseq L) = length (signal_list L)
  ∧ kmer_len = (2 * num_bases L + 1)%Z.
Proof.
  intros Hsetup Hone.
  destruct (read_setup_signals _ _ Hsetup)
    as (raw & events & norm & Hraw & _ & -> & -> & Hodd & ->).
  destruct (label_raw_inv _ _ _ Hraw) as (h & event & rel & Hh & _ & Hev & _ & H1 & H2 & ->).
  split.
  - rewrite length_genomeseq, length_fmap; [done|].
    apply (proj1 (Forall_fmap snd (λ b : string, String.length b = 1) _)).
    rewrite snd_zip.
    + by apply (Hone h event).
    + rewrite length_zip, length_fmap. lia.
  - revert Hodd. clear. intros Hodd. Z.div_mod_to_equations. lia.
Qed.

Lemma window_lengths fast5_fp L o :
  setup fast5_fp = Ok L →
  single_letter_calls h5py_File corrected_group basecall_subgroup fast5_fp →
  (0 < kmer_len)%Z → in_bounds L o →
  len (site_window L o) = kmer_len
  ∧ Z.of_nat (String.length (str_slice (genomeseq L) (Some (o - num_bases L)%Z)
                               (Some (o + num_bases L + 1)%Z))) = kmer_len.
Proof.
  intros Hsetup Hone Hk [Hlo Hhi].
  destruct (read_setup_lengths _ _ Hsetup Hone) as [Hlen Hodd].
  split.
  - unfold site_window. rewrite length_py_slice; [lia|lia|]. unfold len. lia.
  - unfold str_slice. rewrite length_string_of_list_ascii.
    fold (len (py_slice (chars (genomeseq L)) (Some (o - num_bases L)%Z)
                 (Some (o + num_bases L + 1)%Z))).
    rewrite length_py_slice; [lia|lia|]. unfold len. rewrite length_chars. lia.
Qed.

(** *** The loop over the sites, once more *)

Lemma site_loop_sampled L sites s (P : Z → list R → Prop) :
  (∀ o g cent g',
     in_bounds L o →
     _get_central_signals draw np_zero (site_window L o) raw_signals_len g = (Ok cent, g') →
     P o cent) →
  ∃ new, features_str (for_each (site L) sites s).2 = features_str s ++ new
         ∧ Forall (λ rec, ∃ o z cent,
                     in_bounds L o ∧ P o cent
                     ∧ rec = site_record methy_label L o z cent) new.
Proof.
  intros HP. revert s. induction sites as [|o sites IH]; intros s.
  { exists []. split; [by rewrite app_nil_r|constructor]. }
  rewrite for_each_cons.
  destruct (decide (in_bounds L o)) as [Hin|Hout].
  - rewrite (site_features_run _ _ _ _ _ _ Hin).
    destruct (chrom_start_in_alignstrand L) as [z|str].
    + cbv zeta. fold (site_window L o).
      destruct (_get_central_signals _ _ _ _ _) as [[cent|e] g'] eqn:Hrun;
        cbn [fst snd].
      * destruct (IH {| st_rng := g'; st_stdout := st_stdout s;
                        features_str :=
                          features_str s ++ [site_record methy_label L o z cent];
                        error := error s |}) as (new & H3 & H4).
        exists (site_record methy_label L o z cent :: new). split.
        { rewrite H3. cbn [features_str]. by rewrite <- app_assoc. }
        constructor; [|done]. exists o, z, cent. split_and!; [done| |done].
        by eapply HP.
      * exists []. split; [by rewrite app_nil_r|constructor].
    + exists []. split; [by rewrite app_nil_r|constructor].
  - rewrite (site_features_skip _ _ _ _ _ _ Hout). apply IH.
Qed.


(** *** Batches *)

Lemma outcomes_app (a b : list string) g :
  outcomes (a ++ b) g
  = ((outcomes a g).1 ++ (outcomes b (outcomes a g).2).1,
     (outcomes b (outcomes a g).2).2).
Proof.
  revert g. induction a as [|fast5_fp a IH]; intros g.
  { cbn. by destruct (outcomes b g). }
  cbn [app read_outcomes].
  destruct (body fast5_fp (fresh g)) as [r s1]. rewrite IH.
  destruct (outcomes a (st_rng s1)) as [outs g']. cbn [fst snd].
  by destruct (outcomes b g').
Qed.

Lemma failures_app (x y : list (list (feature R) * result unit)) :
  failures (x ++ y) = (failures x + failures y)%Z.
Proof. unfold failures, len. rewrite filter_app, length_app. lia. Qed.

(** X11. Cutting a list of reads in two changes nothing to what is extracted:
    the records of the whole list are the records of the first part followed
    by those of the second part, run from the state the first part leaves,
    and the failure counts add up. *)
Theorem extract_features_app (a b : list string) s
    (recs_a recs_b : list (feature R)) (err_a err_b : Z) (s_a s_b : estate rng R) :
  extract a s = (Ok (recs_a, err_a), s_a) →
  extract b s_a = (Ok (recs_b, err_b), s_b) →
  ∃ s', extract (a ++ b) s = (Ok (recs_a ++ recs_b, (err_a + err_b)%Z), s')
        ∧ st_rng s' = st_rng s_b.
Proof.
  rewrite !extract_features_run. cbv zeta. intros Ha Hb.
  injection Ha as <- <- <-. cbn [st_rng] in Hb. injection Hb as <- <- <-.
  rewrite outcomes_app. cbn [fst snd].
  rewrite fmap_app, concat_app, failures_app.
  eexists. split; reflexivity.
Qed.

(** *** Reads that cannot be used *)

(** X12. A file that cannot be opened, or that has no group [Alignment], gives
    no record: its [try] block raises before the loop over the sites and
    leaves the state as it was, and the handler counts it as failed. *)
Theorem read_without_alignment fast5_fp s :
  (∀ h, h5py_File fast5_fp = Some h →
        h5_alignment h corrected_group basecall_subgroup = None) →
  (∃ e, body fast5_fp s = (Raise e, s))
  ∧ try_except_Exception (body fast5_fp) error_incr s
    = (Ok tt, {| st_rng := st_rng s; st_stdout := st_stdout s;
                 features_str := features_str s; error := (error s + 1)%Z |}).
Proof.
  intros Hno.
  assert (∃ e, setup fast5_fp = Raise e) as [e He].
  { unfold read_setup.
    destruct (_get_label_raw _ _ _ _) as [[raw events]|e] eqn:Hraw; [|by eexists].
    destruct (label_raw_inv _ _ _ Hraw) as (h & _ & _ & Hh & _).
    cbn [result_bind].
    destruct (_normalize_signals _ _) as [norm|e]; [|by eexists].
    cbn [result_bind]. unfold _get_alignment_info_from_fast5.
    rewrite Hh, (Hno h Hh). unfold no_alignment. cbn [result_bind].
    destruct (chrom2len !! "") as [cl|]; [|by eexists].
    cbn. by eexists. }
  assert (body fast5_fp s = (Raise e, s)) as Hbody
    by (by rewrite read_features_unfold, He).
  split; [by exists e|].
  unfold try_except_Exception. rewrite Hbody.
  replace (isinstance_Exception e) with true by (by destruct e). done.
Qed.

(** *** The records of a read *)


(** X14. With a positive [kmer_len] and one character per called base, every
    record has a k-mer of [kmer_len] characters and [kmer_len] means,
    deviations and lengths. *)
Theorem record_shape fast5_fp s rec :
  rec ∈ emitted fast5_fp s →
  (0 < kmer_len)%Z →
  single_letter_calls h5py_File corrected_group basecall_subgroup fast5_fp →
  Z.of_nat (String.length (f_k_mer rec)) = kmer_len
  ∧ len (f_signal_means rec) = kmer_len
  ∧ len (f_signal_stds rec) = kmer_len
  ∧ len (f_signal_lens rec) = kmer_len.
Proof.
  intros Hin Hk Hone.
  destruct (emitted_record_inv draw h5py_File get_refloc_of_methysite_in_motif
              corrected_group basecall_subgroup normalize_method motif_seqs methyloc
              chrom2len kmer_len raw_signals_len methy_label fast5_fp s rec Hin)
    as (L & o & chrom_start & cent & Hsetup & _ & _ & _ & Hb & ->).
  destruct (window_lengths _ _ _ Hsetup Hone Hk Hb) as [Hw Hkmer].
  unfold site_window in Hw. cbn [site_record f_k_mer f_signal_means f_signal_stds
    f_signal_lens]. unfold len in *. rewrite !length_fmap. done.
Qed.

(** X15. The fixed width of the central samples: with a positive [kmer_len], one
    character per called base, a target that is not negative and a
    generator that keeps the promise of [random.sample], every record holds
    exactly [raw_signals_len] central samples. *)
Theorem record_fixed_width fast5_fp s rec :
  rec ∈ emitted fast5_fp s →
  (0 < kmer_len)%Z → (0 ≤ raw_signals_len)%Z →
  single_letter_calls h5py_File corrected_group basecall_subgroup fast5_fp →
  sample_contract draw →
  len (f_cent_signals rec) = raw_signals_len.
Proof.
  intros Hin Hk Hn Hone Hdraw. revert Hin.
  rewrite read_features_unfold.
  destruct (setup fast5_fp) as [L|e] eqn:Hsetup;
    [|cbn; rewrite drop_all; by intros ?%elem_of_nil].
  destruct (site_loop_sampled L (cpg_site_locs L) s
              (λ _ cent, len cent = raw_signals_len)) as (new & -> & Hnew).
  { intros o g cent g' Hb Hrun.
    destruct (window_lengths _ _ _ Hsetup Hone Hk Hb) as [Hw _].
    destruct (read_setup_lengths _ _ Hsetup Hone) as [_ Hodd].
    destruct (sampler_returns_length draw np_zero (site_window L o) raw_signals_len g
                Hdraw) as (out & g2 & Hrun' & Hlen); [| |done|].
    - intros Hnil. rewrite Hnil in Hw. unfold len in Hw. simpl in Hw. lia.
    - unfold len in Hw. lia.
    - rewrite Hrun in Hrun'. by simplify_eq. }
  rewrite drop_app_length. intros Hin.
  rewrite Forall_forall in Hnew.
  by destruct (Hnew rec Hin) as (o & z & cent & _ & Hlen & ->).
Qed.

(** X16. When the events of the read lie inside its raw signal, the lengths a
    record reports are the lengths of the events of its k-mer. *)
Theorem record_signal_lens fast5_fp s rec :
  rec ∈ emitted fast5_fp s →
  events_in_signal h5py_File corrected_group basecall_subgroup fast5_fp →
  ∃ L o h event,
    setup fast5_fp = Ok L
    ∧ h5py_File fast5_fp = Some h
    ∧ h5_events h corrected_group basecall_subgroup = Some event
    ∧ o ∈ cpg_site_locs L ∧ in_bounds L o
    ∧ f_signal_lens rec
      = py_slice (ev_length event) (Some (o - num_bases L)%Z)
          (Some (o + num_bases L + 1)%Z).
Proof.
  intros Hin Hev.
  destruct (emitted_record_inv draw h5py_File get_refloc_of_methysite_in_motif
              corrected_group basecall_subgroup normalize_method motif_seqs methyloc
              chrom2len kmer_len raw_signals_len methy_label fast5_fp s rec Hin)
    as (L & o & chrom_start & cent & Hsetup & _ & _ & Ho & Hb & ->).
  destruct (read_setup_signals _ _ Hsetup)
    as (raw & events & norm & Hraw & Hnorm & _ & Hsig & _).
  destruct (label_raw_inv _ _ _ Hraw)
    as (h & event & rel & Hh & Hraw' & Hevent & Hrel & H1 & H2 & ->).
  exists L, o, h, event. split_and!; try done.
  cbn [site_record f_signal_lens]. rewrite fmap_py_slice. f_equal.
  rewrite Hsig. rewrite <- list_fmap_compose.
  specialize (Hev h event raw rel Hh Hevent Hraw' Hrel).
  apply normalize_signals_length in Hnorm.
  clear -Hev H2 Hnorm. revert H2. generalize (ev_base event).
  induction Hev as [|st ln sts lns (Hst & Hln & Hend) _ IH]; intros bases H2; [done|].
  destruct bases as [|b bases]; [done|]. cbn [fmap list_fmap zip zip_with].
  f_equal; [|apply IH; by simplify_eq/=].
  unfold compose. cbn [fst snd].
  rewrite length_py_slice; [lia|lia|]. unfold len in *. lia.
Qed.

(** X17. Where a record is, by strand: on the strand [-] the position counts
    back from the last base of the read, and it does not depend on the
    length of the chromosome; on the strand [+] it counts forward from the
    start of the alignment. *)
Theorem record_position_by_strand fast5_fp s rec :
  rec ∈ emitted fast5_fp s →
  ∃ L o chrom_start,
    setup fast5_fp = Ok L
    ∧ _get_alignment_info_from_fast5 h5py_File fast5_fp corrected_group
        basecall_subgroup
      = Ok (readname L, strand L, alignstrand L, chrom L, PyInt chrom_start)
    ∧ o ∈ cpg_site_locs L ∧ in_bounds L o
    ∧ (alignstrand L = "-" →
       f_pos rec
       = (chrom_start + (Z.of_nat (String.length (genomeseq L)) - 1 - o))%Z)
    ∧ (alignstrand L = "+" → f_pos rec = (chrom_start + o)%Z).
Proof.
  intros Hin.
  destruct (emitted_record_inv draw h5py_File get_refloc_of_methysite_in_motif
              corrected_group basecall_subgroup normalize_method motif_seqs methyloc
              chrom2len kmer_len raw_signals_len methy_label fast5_fp s rec Hin)
    as (L & o & chrom_start & cent & Hsetup & Hinfo & _ & Ho & Hb & ->).
  exists L, o, chrom_start. split_and!; try done.
  - intros Hminus. cbn [site_record f_pos]. rewrite Hminus. cbn. lia.
  - intros Hplus. cbn [site_record f_pos]. rewrite Hplus. cbn. lia.
Qed.
(** *** What is read of a file *)

(** X18. [_get_label_raw] loses no row of the table of events: when it returns,
    the events are as many as the rows, their starts are the stored starts
    moved by [read_start_rel_to_raw], and their lengths and bases are the
    stored ones. *)
Theorem get_label_raw_columns fast5_fp raw events :
  _get_label_raw h5py_File fast5_fp corrected_group basecall_subgroup = Ok (raw, events) →
  ∃ h event rel,
    h5py_File fast5_fp = Some h
    ∧ h5_signal h = Some raw
    ∧ h5_events h corrected_group basecall_subgroup = Some event
    ∧ ev_attrs event !! "read_start_rel_to_raw" = Some rel
    ∧ events.*1.*1 = (λ x, x + rel)%Z <$> ev_start event
    ∧ events.*1.*2 = ev_length event
    ∧ events.*2 = ev_base event.
Proof.
  intros (h & event & rel & Hh & Hsig & Hev & Hrel & Hl1 & Hl2 & ->)%label_raw_inv.
  exists h, event, rel. split_and!; [done..| | |].
  - rewrite fst_zip by (rewrite length_zip, length_fmap; lia).
    apply fst_zip. rewrite length_fmap. lia.
  - rewrite fst_zip by (rewrite length_zip, length_fmap; lia).
    apply snd_zip. rewrite length_fmap. lia.
  - apply snd_zip. rewrite length_zip, length_fmap. lia.
Qed.

(** X19. The read strand of an aligned read is [t] when the name of the
    basecall subgroup ends with [template] and [c] otherwise, whatever the
    corrected group; the three other fields are the attributes of the
    group [Alignment], and the name is the read id. *)
Theorem alignment_info_strand fast5_path readname strand alignstrand chrom
    (chrom_start : Z) :
  _get_alignment_info_from_fast5 h5py_File fast5_path corrected_group basecall_subgroup
  = Ok (readname, strand, alignstrand, chrom, PyInt chrom_start) →
  strand = (if py_endswith basecall_subgroup "template" then "t" else "c")
  ∧ ∃ h attrs,
      h5py_File fast5_path = Some h
      ∧ h5_alignment h corrected_group basecall_subgroup = Some attrs
      ∧ h5_read_id h = Some readname
      ∧ alignstrand = mapped_strand attrs
      ∧ chrom = mapped_chrom attrs
      ∧ chrom_start = mapped_start attrs.
Proof.
  unfold _get_alignment_info_from_fast5, _get_readid_from_fast5,
    _get_alignment_attrs_of_each_strand.
  destruct (h5py_File fast5_path) as [h|] eqn:Hh; [|done].
  destruct (h5_alignment h corrected_group basecall_subgroup) as [attrs|] eqn:Hal;
    [|done].
  destruct (h5_read_id h) as [read_id|] eqn:Hid; [|done].
  cbn [result_bind].
  rewrite py_endswith_last_component by by apply (bool_decide_unpack _); vm_compute.
  intros [= <- <- <- <- <-]. split; [done|]. by exists h, attrs.
Qed.
End ExtractionExtras.

Lemma example_minus_emitted :
  example_minus_record
    ∈ drop (length (features_str example_state))
        (features_str (example_body "minus.fast5" example_state).2).
Proof. vm_compute. apply list_elem_of_here. Qed.

Lemma example_single_letter_calls (fast5_fp : string) :
  single_letter_calls example_files "RawGenomeCorrected_000" "BaseCalled_template"
    fast5_fp.
Proof.
  intros h event Hh Hev.
  assert (∃ strand, h = example_read strand) as [strand ->].
  { unfold example_files in Hh.
    repeat (destruct (String.eqb fast5_fp _); [simplify_eq; by eexists|]). done. }
  cbn in Hev. simplify_eq. repeat constructor.
Qed.

Lemma example_events_in_signal (fast5_fp : string) :
  events_in_signal example_files "RawGenomeCorrected_000" "BaseCalled_template"
    fast5_fp.
Proof.
  intros h event raw rel Hh Hev Hraw Hrel.
  assert (∃ strand, h = example_read strand) as [strand ->].
  { unfold example_files in Hh.
    repeat (destruct (String.eqb fast5_fp _); [simplify_eq; by eexists|]). done. }
  cbn in Hev, Hraw. simplify_eq. vm_compute in Hrel. simplify_eq.
  repeat (constructor; [unfold len; simpl; lia|]). constructor.
Qed.

Lemma extract_features_app_witness :
  ∃ recs_a err_a s_a recs_b err_b s_b s',
    example_extract "mad" 3 ["plus.fast5"; "missing.fast5"] example_state
    = (Ok (recs_a, err_a), s_a)
    ∧ example_extract "mad" 3 ["minus.fast5"] s_a = (Ok (recs_b, err_b), s_b)
    ∧ example_extract "mad" 3 (["plus.fast5"; "missing.fast5"] ++ ["minus.fast5"])
        example_state
      = (Ok (recs_a ++ recs_b, (err_a + err_b)%Z), s')
    ∧ st_rng s' = st_rng s_b.
Proof.
  destruct (example_extract "mad" 3 ["plus.fast5"; "missing.fast5"] example_state)
    as [[[recs_a err_a]|e] s_a] eqn:Ha; [|by vm_compute in Ha].
  destruct (example_extract "mad" 3 ["minus.fast5"] s_a)
    as [[[recs_b err_b]|e] s_b] eqn:Hb.
  - destruct (extract_features_app (Numpy0 := integer_samples) last_first_draw
                example_files find_sites "RawGenomeCorrected_000" "BaseCalled_template"
                "mad" ["CG"] 0 example_chrom2len 3 4 "1"
                ["plus.fast5"; "missing.fast5"] ["minus.fast5"] example_state
                recs_a recs_b err_a err_b s_a s_b Ha Hb) as (s' & Hrun & Hrng).
    by exists recs_a, err_a, s_a, recs_b, err_b, s_b, s'.
  - exfalso. unfold example_extract in Hb.
    rewrite extract_features_run in Hb. discriminate Hb.
Defined.

Lemma read_without_alignment_witness :
  (∀ h, example_files "unaligned.fast5" = Some h →
        h5_alignment h "RawGenomeCorrected_000" "BaseCalled_template" = None)
  ∧ (∃ e, example_body "unaligned.fast5" example_state = (Raise e, example_state))
  ∧ try_except_Exception (example_body "unaligned.fast5") error_incr example_state
    = (Ok tt, {| st_rng := 0; st_stdout := []; features_str := []; error := 1 |}).
Proof.
  assert (∀ h, example_files "unaligned.fast5" = Some h →
               h5_alignment h "RawGenomeCorrected_000" "BaseCalled_template" = None)
    as Hno by (intros h [= <-]; reflexivity).
  split; [exact Hno|].
  apply (read_without_alignment (Numpy0 := integer_samples) last_first_draw
           example_files find_sites "RawGenomeCorrected_000" "BaseCalled_template"
           "mad" ["CG"] 0 example_chrom2len 3 4 "1" "unaligned.fast5" example_state Hno).
Defined.


Lemma record_shape_witness :
  Z.of_nat (String.length (f_k_mer example_minus_record)) = 3%Z
  ∧ len (f_signal_means example_minus_record) = 3%Z
  ∧ len (f_signal_stds example_minus_record) = 3%Z
  ∧ len (f_signal_lens example_minus_record) = 3%Z.
Proof.
  apply (record_shape (Numpy0 := integer_samples) last_first_draw
           example_files find_sites "RawGenomeCorrected_000" "BaseCalled_template"
           "mad" ["CG"] 0 example_chrom2len 3 4 "1" "minus.fast5" example_state
           example_minus_record example_minus_emitted);
    [lia|apply example_single_letter_calls].
Defined.

Lemma record_fixed_width_witness :
  len (f_cent_signals example_minus_record) = 4%Z.
Proof.
  apply (record_fixed_width (Numpy0 := integer_samples) last_first_draw
           example_files find_sites "RawGenomeCorrected_000" "BaseCalled_template"
           "mad" ["CG"] 0 example_chrom2len 3 4 "1" "minus.fast5" example_state
           example_minus_record example_minus_emitted);
    [lia|lia|apply example_single_letter_calls|apply last_first_draw_contract].
Defined.

Lemma record_signal_lens_witness :
  ∃ L o h event,
    example_setup "minus.fast5" = Ok L
    ∧ example_files "minus.fast5" = Some h
    ∧ h5_events h "RawGenomeCorrected_000" "BaseCalled_template" = Some event
    ∧ o ∈ cpg_site_locs L ∧ in_bounds L o
    ∧ f_signal_lens example_minus_record
      = py_slice (ev_length event) (Some (o - num_bases L)%Z)
          (Some (o + num_bases L + 1)%Z).
Proof.
  apply (record_signal_lens (Numpy0 := integer_samples) last_first_draw
           example_files find_sites "RawGenomeCorrected_000" "BaseCalled_template"
           "mad" ["CG"] 0 example_chrom2len 3 4 "1" "minus.fast5" example_state
           example_minus_record example_minus_emitted).
  apply example_events_in_signal.
Defined.

Lemma record_position_by_strand_witness :
  ∃ L o chrom_start,
    example_setup "minus.fast5" = Ok L
    ∧ _get_alignment_info_from_fast5 example_files "minus.fast5"
        "RawGenomeCorrected_000" "BaseCalled_template"
      = Ok (readname L, strand L, alignstrand L, chrom L, PyInt chrom_start)
    ∧ o ∈ cpg_site_locs L ∧ in_bounds L o
    ∧ (alignstrand L = "-" →
       f_pos example_minus_record
       = (chrom_start + (Z.of_nat (String.length (genomeseq L)) - 1 - o))%Z)
    ∧ (alignstrand L = "+" → f_pos example_minus_record = (chrom_start + o)%Z).
Proof.
  apply (record_position_by_strand (Numpy0 := integer_samples) last_first_draw
           example_files find_sites "RawGenomeCorrected_000" "BaseCalled_template"
           "mad" ["CG"] 0 example_chrom2len 3 4 "1" "minus.fast5" example_state
           example_minus_record example_minus_emitted).
Defined.

Lemma get_label_raw_columns_witness :
  ∃ raw events,
    _get_label_raw example_files "plus.fast5" "RawGenomeCorrected_000"
      "BaseCalled_template" = Ok (raw, events)
    ∧ ∃ h event rel,
        example_files "plus.fast5" = Some h
        ∧ h5_signal h = Some raw
        ∧ h5_events h "RawGenomeCorrected_000" "BaseCalled_template" = Some event
        ∧ ev_attrs event !! "read_start_rel_to_raw" = Some rel
        ∧ events.*1.*1 = (λ x, x + rel)%Z <$> ev_start event
        ∧ events.*1.*2 = ev_length event
        ∧ events.*2 = ev_base event.
Proof.
  destruct (_get_label_raw example_files "plus.fast5" "RawGenomeCorrected_000"
              "BaseCalled_template") as [[raw events]|e] eqn:Hraw;
    [|by vm_compute in Hraw].
  exists raw, events. split; [reflexivity|].
  exact (get_label_raw_columns example_files "RawGenomeCorrected_000"
           "BaseCalled_template" "plus.fast5" raw events Hraw).
Defined.

Lemma alignment_info_strand_witness :
  _get_alignment_info_from_fast5 example_files "minus.fast5" "RawGenomeCorrected_000"
    "BaseCalled_template" = Ok ("read-1", "t", "-", "chr1", PyInt 100)
  ∧ "t" = (if py_endswith "BaseCalled_template" "template" then "t" else "c")
  ∧ ∃ h attrs,
      example_files "minus.fast5" = Some h
      ∧ h5_alignment h "RawGenomeCorrected_000" "BaseCalled_template" = Some attrs
      ∧ h5_read_id h = Some "read-1"
      ∧ "-" = mapped_strand attrs
      ∧ "chr1" = mapped_chrom attrs
      ∧ 100%Z = mapped_start attrs.
Proof.
  assert (_get_alignment_info_from_fast5 example_files "minus.fast5"
            "RawGenomeCorrected_000" "BaseCalled_template"
          = Ok ("read-1", "t", "-", "chr1", PyInt 100)) as Hinfo by reflexivity.
  split; [exact Hinfo|].
  exact (alignment_info_strand example_files "RawGenomeCorrected_000"
           "BaseCalled_template" "minus.fast5" "read-1" "t" "-" "chr1" 100 Hinfo).
Defined.

(** ** The pipeline *)

(** *** Batches *)

Lemma concat_chunks {X} (B : nat) (files : list X) (k : nat) :
  concat ((λ i, take B (drop (i * B) files)) <$> seq 0 k) = take (k * B) files.
Proof.
  induction k as [|k IH]; [done|].
  rewrite seq_S, fmap_app, concat_app, IH. cbn [fmap list_fmap concat Nat.add].
  rewrite app_nil_r, take_take_drop. f_equal. lia.
Qed.

Lemma arange_count (n b : Z) :
  (0 ≤ n)%Z → (0 < b)%Z →
  let k := (- ((- n) `div` b))%Z in
  (0 ≤ k ∧ n ≤ k * b ∧ (k - 1) * b < n ∨ n = 0 ∧ k = 0)%Z
  ∧ k = ((n + b - 1) `div` b)%Z.
Proof. intros Hn Hb k. subst k. Z.div_mod_to_equations. nia. Qed.

Lemma fill_files_queue_batches {X} (q : list (list X)) (files : list X) (b : Z) :
  (0 < b)%Z →
  _fill_files_queue q files b
  = Some (q ++ ((λ i, take (Z.to_nat b) (drop (i * Z.to_nat b) files))
                  <$> seq 0 (Z.to_nat (- ((- len files) `div` b))))).
Proof.
  intros Hb. unfold _fill_files_queue, np_arange.
  destruct (Z.eqb_spec b 0); [lia|]. cbn [mbind option_bind]. do 2 f_equal.
  rewrite <- list_fmap_compose. apply list_fmap_ext. intros _ i _.
  unfold compose. rewrite py_slice_nonneg by lia. do 2 f_equal; lia.
Qed.

(** X20. With a positive batch size the batches put on the queue are a partition
    of the list of files: put end to end they give the list back, and each
    holds at least one file and at most [batch_size]. What was on the queue
    stays in front. *)
Theorem fill_files_queue_partition {X} (q : list (list X)) (files : list X) (b : Z) :
  (0 < b)%Z →
  ∃ batches,
    _fill_files_queue q files b = Some (q ++ batches)
    ∧ concat batches = files
    ∧ Forall (λ batch, (0 < len batch ≤ b)%Z) batches.
Proof.
  intros Hb. eexists. split; [by apply fill_files_queue_batches|].
  destruct (arange_count (len files) b (len_nonneg _) Hb) as [Hk _].
  set (k := (- ((- len files) `div` b))%Z) in *. split.
  - rewrite concat_chunks. apply take_ge. unfold len in *. nia.
  - apply Forall_fmap, Forall_forall. intros i Hi%list_elem_of_In%in_seq.
    cbn. unfold len in *. rewrite length_take, length_drop. nia.
Qed.

(** X21. With a positive batch size there are [ceil(n / batch_size)] batches for
    [n] files, and every batch but the last holds exactly [batch_size]
    files. *)
Theorem fill_files_queue_count {X} (q : list (list X)) (files : list X) (b : Z) :
  (0 < b)%Z →
  ∃ batches,
    _fill_files_queue q files b = Some (q ++ batches)
    ∧ len batches = ((len files + b - 1) `div` b)%Z
    ∧ ∀ i batch, batches !! i = Some batch → S i < length batches →
                 len batch = b.
Proof.
  intros Hb. eexists. split; [by apply fill_files_queue_batches|].
  destruct (arange_count (len files) b (len_nonneg _) Hb) as [Hk Hceil].
  set (k := (- ((- len files) `div` b))%Z) in *. split.
  - unfold len at 1. rewrite length_fmap, length_seq. lia.
  - intros i batch Hi Hlast. rewrite length_fmap, length_seq in Hlast.
    apply list_lookup_fmap_Some in Hi as (j & -> & Hj).
    apply lookup_seq in Hj as [-> _]. cbn.
    unfold len in *. rewrite length_take, length_drop. nia.
Qed.

(** X22. A negative batch size puts nothing on the queue, whatever the files,
    and a batch size of zero makes the call fail; an empty list of files
    puts nothing on the queue. *)
Theorem fill_files_queue_degenerate {X} (q : list (list X)) (files : list X) (b : Z) :
  ((b < 0)%Z → _fill_files_queue q files b = Some q)
  ∧ _fill_files_queue q files 0 = None
  ∧ (b ≠ 0%Z → _fill_files_queue q [] b = Some q).
Proof.
  split_and!.
  - intros Hb. unfold _fill_files_queue, np_arange.
    destruct (Z.eqb_spec b 0); [lia|]. cbn [mbind option_bind].
    replace (Z.to_nat (- ((- len files) `div` b))) with 0.
    { cbn. by rewrite app_nil_r. }
    pose proof (len_nonneg files).
    assert (- ((- len files) `div` b) ≤ 0)%Z by (Z.div_mod_to_equations; nia).
    lia.
  - done.
  - intros Hb. unfold _fill_files_queue, np_arange.
    destruct (Z.eqb_spec b 0); [lia|]. cbn. by rewrite app_nil_r.
Qed.

(** *** The writer *)

Lemma write_loop_features {A} (wf : list A) (batches : list (list A))
    (rest : list (message A)) :
  write_loop wf ((Features <$> batches) ++ rest)
  = write_loop (wf ++ concat batches) rest.
Proof.
  revert wf. induction batches as [|fs batches IH]; intros wf.
  { cbn. by rewrite app_nil_r. }
  cbn [fmap list_fmap app write_loop concat]. rewrite IH. by rewrite app_assoc.
Qed.

(** X23. The writer writes the records of the messages that come before the
    first ["kill"], in the order of arrival, and stops there, leaving what
    follows unread; a stream with no ["kill"] leaves it waiting. *)
Theorem write_featurestr_until_kill {A} (batches : list (list A))
    (rest : list (message A)) :
  _write_featurestr_to_file ((Features <$> batches) ++ Kill :: rest)
  = Some (concat batches, rest)
  ∧ _write_featurestr_to_file (Features <$> batches) = None.
Proof.
  unfold _write_featurestr_to_file. split.
  - by rewrite write_loop_features.
  - rewrite <- (app_nil_r (Features <$> batches)). by rewrite write_loop_features.
Qed.

(** *** Workers *)

Lemma Permutation_fmap_inv {A B} (f : A → B) (l : list B) (k : list A) :
  l ≡ₚ f <$> k → ∃ k', l = f <$> k' ∧ k' ≡ₚ k.
Proof.
  intros H. symmetry in H. remember (f <$> k) as m eqn:Hm. revert k Hm.
  induction H as [|x l l' _ IH|x y l|l l' l'' _ IH1 _ IH2]; intros k Hm.
  - symmetry in Hm. apply fmap_nil_inv in Hm as ->. by exists [].
  - symmetry in Hm. apply fmap_cons_inv in Hm as (a & k0 & -> & -> & ->).
    destruct (IH k0 eq_refl) as (k0' & -> & Hk). exists (a :: k0').
    split; [done|]. by constructor.
  - symmetry in Hm. apply fmap_cons_inv in Hm as (b & k1 & -> & Hm & ->).
    symmetry in Hm. apply fmap_cons_inv in Hm as (a & k0 & -> & -> & ->).
    exists (a :: b :: k0). split; [done|]. apply perm_swap.
  - destruct (IH1 k Hm) as (k1 & -> & Hk1).
    destruct (IH2 k1 eq_refl) as (k2 & -> & Hk2).
    exists k2. split; [done|]. by etrans.
Qed.

Lemma bind_insert {A B} (f : A → list B) (l : list A) (i : nat) (x y : A) :
  l !! i = Some x →
  ∃ l1 l2, l ≫= f = l1 ++ f x ++ l2 ∧ <[i := y]> l ≫= f = l1 ++ f y ++ l2.
Proof.
  intros Hx. exists (take i l ≫= f), (drop (S i) l ≫= f). split.
  - rewrite <- (take_drop_middle l i x Hx) at 1. by rewrite bind_app, bind_cons.
  - rewrite insert_take_drop by by eapply lookup_lt_Some.
    by rewrite bind_app, bind_cons.
Qed.

Section PipelineExtras.
Context {rng R : Type} `{!Numpy R}.
Variable draw : rng → nat → nat → list nat * rng.
Variable h5py_File : string → option (h5file R).
Variable get_refloc_of_methysite_in_motif : string → string → Z → list Z.
Variables (corrected_group basecall_subgroup normalize_method : string).
Variable motif_seqs : list string.
Variable methyloc : Z.
Variable chrom2len : gmap string Z.
Variables kmer_len raw_signals_len : Z.
Variable methy_label : string.
Implicit Types (s : estate rng R) (g : rng) (q : list (list string))
  (fq : list (message (feature R))) (ws : list (worker rng R)) (w : worker rng R)
  (qs : queues R) (sys : list (worker rng R) * queues R).

Local Abbreviation extract :=
  (_extract_features draw h5py_File get_refloc_of_methysite_in_motif corrected_group
     basecall_subgroup normalize_method motif_seqs methyloc chrom2len kmer_len
     raw_signals_len methy_label).
Local Abbreviation outcomes :=
  (read_outcomes draw h5py_File get_refloc_of_methysite_in_motif corrected_group
     basecall_subgroup normalize_method motif_seqs methyloc chrom2len kmer_len
     raw_signals_len methy_label).
Local Abbreviation records_by_batch :=
  (batch_records draw h5py_File get_refloc_of_methysite_in_motif corrected_group
     basecall_subgroup normalize_method motif_seqs methyloc chrom2len kmer_len
     raw_signals_len methy_label).
Local Abbreviation worker_act :=
  (_get_a_batch_features_str draw h5py_File get_refloc_of_methysite_in_motif
     corrected_group basecall_subgroup normalize_method motif_seqs methyloc chrom2len
     kmer_len raw_signals_len methy_label).
Local Abbreviation act :=
  (schedule_step draw h5py_File get_refloc_of_methysite_in_motif corrected_group
     basecall_subgroup normalize_method motif_seqs methyloc chrom2len kmer_len
     raw_signals_len methy_label).
Local Abbreviation records_of_run :=
  (λ r : list string * estate rng R, concat ((outcomes r.1 (st_rng r.2)).1.*1)).
Local Abbreviation start worker_rng :=
  (λ i : nat, {| w_pc := AtEmptyTest; w_state := fresh (R := R) (worker_rng i);
                 w_buffer := [] |}).

Lemma records_by_batch_concat q g :
  concat (records_by_batch q g).1 = concat ((outcomes (concat q) g).1.*1)
  ∧ (records_by_batch q g).2 = (outcomes (concat q) g).2.
Proof.
  revert g. induction q as [|fast5s q IH]; intros g; [done|].
  cbn [batch_records concat]. rewrite outcomes_app. cbv zeta.
  destruct (IH (outcomes fast5s g).2) as [IH1 IH2].
  destruct (records_by_batch q (outcomes fast5s g).2) as [records g'].
  cbn [fst snd concat] in *. by rewrite fmap_app, concat_app, IH1, IH2.
Qed.

Lemma length_records_by_batch q g : length (records_by_batch q g).1 = length q.
Proof.
  revert g. induction q as [|fast5s q IH]; intros g; [done|].
  cbn [batch_records]. cbv zeta. specialize (IH (outcomes fast5s g).2).
  destruct (records_by_batch q (outcomes fast5s g).2). cbn in *. by rewrite IH.
Qed.

Lemma records_by_batch_snoc q fast5s g :
  (records_by_batch (q ++ [fast5s]) g).1
  = (records_by_batch q g).1
    ++ [concat ((outcomes fast5s (records_by_batch q g).2).1.*1)]
  ∧ (records_by_batch (q ++ [fast5s]) g).2
    = (outcomes fast5s (records_by_batch q g).2).2.
Proof.
  revert g. induction q as [|b q IH]; intros g; [done|].
  cbn [app batch_records]. cbv zeta. destruct (IH (outcomes b g).2) as [IH1 IH2].
  destruct (records_by_batch (q ++ [fast5s]) (outcomes b g).2) as [r1 g1].
  destruct (records_by_batch q (outcomes b g).2) as [r2 g2].
  cbn [fst snd] in *. by rewrite IH1, IH2.
Qed.

Lemma fill_some {X} (files : list X) (b : Z) :
  b ≠ 0%Z → is_Some (_fill_files_queue [] files b).
Proof.
  intros Hb. unfold _fill_files_queue, np_arange.
  destruct (Z.eqb_spec b 0); [done|]. by eexists.
Qed.

Lemma fill_batches (files : list string) (b : Z) :
  (0 < b)%Z →
  ∃ batches, _fill_files_queue [] files b = Some batches
             ∧ concat batches = files ∧ length batches ≤ length files.
Proof.
  intros Hb. rewrite fill_files_queue_batches by done. eexists. split; [done|].
  destruct (arange_count (len files) b (len_nonneg _) Hb) as [Hk _].
  set (k := (- ((- len files) `div` b))%Z) in *. cbn [app]. split.
  - rewrite concat_chunks. apply take_ge. unfold len in *. nia.
  - rewrite length_fmap, length_seq. unfold len in *. nia.
Qed.

(** *** Actions *)

Lemma act_Act ws qs i w :
  ws !! i = Some w →
  act (ws, qs) (Act i) = (<[i := (worker_act w qs).1]> ws, (worker_act w qs).2).
Proof.
  intros Hw. unfold schedule_step. cbn [fst snd]. rewrite Hw.
  by destruct (worker_act w qs).
Qed.

Lemma act_Flush ws qs i w :
  ws !! i = Some w →
  act (ws, qs) (Flush i) = (<[i := (flush w qs).1]> ws, (flush w qs).2).
Proof.
  intros Hw. unfold schedule_step. cbn [fst snd]. rewrite Hw.
  by destruct (flush w qs).
Qed.

Lemma act_none ws qs i :
  ws !! i = None → act (ws, qs) (Act i) = (ws, qs) ∧ act (ws, qs) (Flush i) = (ws, qs).
Proof. intros Hw. unfold schedule_step. cbn [fst snd]. by rewrite Hw. Qed.

Lemma worker_extract fast5s s (buf : list (message (feature R))) qs :
  worker_act {| w_pc := AtExtract fast5s; w_state := s; w_buffer := buf |} qs
  = ({| w_pc := AtEmptyTest; w_state := (extract fast5s s).2;
        w_buffer := buf ++ [Features (concat ((outcomes fast5s (st_rng s)).1.*1))] |},
     qs).
Proof.
  unfold _get_a_batch_features_str. cbn [w_pc w_state w_buffer].
  by rewrite extract_features_run.
Qed.

Lemma length_act sys a : length (act sys a).1 = length sys.1.
Proof.
  destruct a as [|i|i]; [done| |]; unfold schedule_step;
    (destruct (sys.1 !! i) as [w|]; [|done]).
  - destruct (worker_act w sys.2). cbn. by rewrite length_insert.
  - destruct (flush w sys.2). cbn. by rewrite length_insert.
Qed.

Lemma length_run sys schedule : length (foldl act sys schedule).1 = length sys.1.
Proof.
  revert sys. induction schedule as [|a schedule IH]; intros sys; [done|].
  cbn [foldl]. by rewrite IH, length_act.
Qed.

(** A worker's action leaves everything of the queues but the pipe of the
    work queue as it was, and takes from this pipe at most. *)
Lemma worker_act_queues w qs :
  fast5s_buffer (worker_act w qs).2 = fast5s_buffer qs
  ∧ featurestr_q (worker_act w qs).2 = featurestr_q qs
  ∧ (fast5s_q qs = [] → fast5s_q (worker_act w qs).2 = []).
Proof.
  destruct w as [[| |fast5s|] s buf], qs as [B P fq];
    cbn [fast5s_q fast5s_buffer featurestr_q]; [| | |done].
  - by destruct P.
  - by destruct P.
  - by rewrite worker_extract.
Qed.

Lemma flush_queues w qs :
  fast5s_buffer (flush w qs).2 = fast5s_buffer qs
  ∧ fast5s_q (flush w qs).2 = fast5s_q qs
  ∧ w_pc (flush w qs).1 = w_pc w
  ∧ w_state (flush w qs).1 = w_state w
  ∧ featurestr_q (flush w qs).2 ++ w_buffer (flush w qs).1
    = featurestr_q qs ++ w_buffer w.
Proof.
  unfold flush. destruct (w_buffer w) as [|m rest] eqn:Hbuf; cbn; [by rewrite Hbuf|].
  split_and!; [done..|]. by rewrite <- app_assoc.
Qed.

(** *** A worker in step with the feeder thread *)

Lemma run_idle ws qs i s (actions : list action) :
  ws !! i = Some {| w_pc := Returned; w_state := s; w_buffer := [] |} →
  fast5s_buffer qs = [] →
  Forall (λ a, a = Feed ∨ a = Act i ∨ a = Flush i) actions →
  foldl act (ws, qs) actions = (ws, qs).
Proof.
  intros Hw HB Hactions. induction Hactions as [|a actions Ha _ IH]; [done|].
  cbn [foldl]. destruct Ha as [->|[->| ->]].
  - unfold schedule_step, feed. cbn [fst snd]. by rewrite HB.
  - rewrite (act_Act _ _ _ _ Hw). cbn. by rewrite list_insert_id.
  - rewrite (act_Flush _ _ _ _ Hw). cbn. by rewrite list_insert_id.
Qed.

Lemma lockstep_actions i n :
  Forall (λ a, a = Feed ∨ a = Act i ∨ a = Flush i) (lockstep i n).
Proof.
  unfold lockstep. induction n as [|n IH]; [done|].
  cbn [replicate concat]. apply Forall_app. split; [|done].
  repeat (constructor; [auto|]). constructor.
Qed.

(** With nothing in the pipe, a worker at the test of the loop that keeps
    pace with the feeder thread works through every batch of the buffer in
    order, and returns when it finds the pipe empty with nothing left to be
    written. *)
Lemma run_lockstep B : ∀ n ws i s fq,
  ws !! i = Some {| w_pc := AtEmptyTest; w_state := s; w_buffer := [] |} →
  length B ≤ n →
  ∃ s',
    foldl act (ws, {| fast5s_buffer := B; fast5s_q := []; featurestr_q := fq |})
      (lockstep i n ++ [Act i])
    = (<[i := {| w_pc := Returned; w_state := s'; w_buffer := [] |}]> ws,
       {| fast5s_buffer := []; fast5s_q := [];
          featurestr_q := fq ++ (Features <$> (records_by_batch B (st_rng s)).1) |})
    ∧ st_rng s' = (records_by_batch B (st_rng s)).2.
Proof.
  induction B as [|fast5s B IH]; intros n ws i s fq Hw Hn.
  - exists s. split; [|done]. cbn [batch_records fst fmap list_fmap].
    rewrite app_nil_r. assert (i < length ws) as Hi by by eapply lookup_lt_Some.
    destruct n as [|n].
    + cbn [lockstep replicate concat app foldl]. by rewrite (act_Act _ _ _ _ Hw).
    + unfold lockstep. cbn [replicate concat]. fold (lockstep i n).
      change (([Feed; Act i; Act i; Act i; Flush i] ++ lockstep i n) ++ [Act i])
        with ([Feed; Act i] ++ ([Act i; Act i; Flush i] ++ lockstep i n ++ [Act i])).
      rewrite foldl_app. cbn [foldl].
      change (act (ws, ?qs) Feed) with (ws, feed qs). unfold feed at 1.
      cbn [fast5s_buffer]. rewrite (act_Act _ _ _ _ Hw). cbn [fst snd
        _get_a_batch_features_str w_pc w_state w_buffer fast5s_q].
      eapply run_idle; [by apply list_lookup_insert_eq|done|].
      cbn [app]. do 3 (constructor; [auto|]). apply Forall_app. split.
      * apply lockstep_actions.
      * repeat (constructor; [auto|]). constructor.
  - destruct n as [|n]; [cbn in Hn; lia|].
    assert (i < length ws) as Hi by by eapply lookup_lt_Some.
    unfold lockstep. cbn [replicate concat app foldl]. fold (lockstep i n).
    change (act (ws, ?qs) Feed) with (ws, feed qs). unfold feed at 1.
    cbn [fast5s_buffer fast5s_q featurestr_q app].
    rewrite (act_Act _ _ _ _ Hw). cbn [fst snd _get_a_batch_features_str w_pc
      w_state w_buffer fast5s_q fast5s_buffer featurestr_q].
    erewrite act_Act by by apply list_lookup_insert_eq.
    cbn [fst snd _get_a_batch_features_str w_pc w_state w_buffer fast5s_q
      fast5s_buffer featurestr_q].
    erewrite act_Act by (apply list_lookup_insert_eq; by rewrite length_insert).
    rewrite worker_extract. cbn [fst snd app].
    erewrite act_Flush by (apply list_lookup_insert_eq; by rewrite !length_insert).
    cbn [fst snd flush w_pc w_state w_buffer fast5s_q fast5s_buffer featurestr_q].
    rewrite !list_insert_insert_eq.
    match goal with
    | |- context [foldl act (<[i := ?w1]> ws, ?qs1) _] =>
        destruct (IH n (<[i := w1]> ws) i (w_state w1) (featurestr_q qs1))
          as (s' & Hrun & Hrng);
          [by apply list_lookup_insert_eq|cbn in Hn; lia|]
    end.
    cbn [w_state featurestr_q] in Hrun, Hrng. exists s'. rewrite Hrun, list_insert_insert_eq.
    rewrite extract_features_run in Hrng |- *. cbv zeta in Hrng |- *.
    cbn [st_rng snd] in Hrng |- *. cbn [batch_records]. cbv zeta.
    destruct (records_by_batch B (outcomes fast5s (st_rng s)).2) as [records g'].
    cbn [fst snd fmap list_fmap] in *. by rewrite <- app_assoc.
Qed.

(** With nothing in the pipe, workers at rest that test the queue one after
    the other all return. *)
Lemma run_tests n : ∀ k ws qs,
  fast5s_q qs = [] → Forall at_rest ws →
  ∃ ws', foldl act (ws, qs) (Act <$> seq k n) = (ws', qs)
         ∧ length ws' = length ws
         ∧ Forall at_rest ws'
         ∧ (∀ i w, ws' !! i = Some w →
                   (k ≤ i < k + n → w_pc w = Returned)
                   ∧ (∀ w0, ws !! i = Some w0 → w_pc w0 = Returned →
                            w_pc w = Returned)).
Proof.
  induction n as [|n IH]; intros k ws qs HP Hrest.
  { exists ws. split_and!; [done..|]. intros i w Hw. split; [lia|].
    intros w0 Hw0. by simplify_eq. }
  cbn [seq fmap list_fmap foldl].
  destruct (ws !! k) as [w|] eqn:Hw.
  - rewrite (act_Act _ _ _ _ Hw).
    pose proof (proj1 (Forall_lookup _ _) Hrest k w Hw) as [Hpc Hbuf].
    assert (worker_act w qs
            = ({| w_pc := Returned; w_state := w_state w; w_buffer := [] |}, qs))
      as ->.
    { unfold _get_a_batch_features_str. destruct w as [pc s buf]. cbn in *.
      subst buf. destruct Hpc as [-> | ->]; [by rewrite HP|done]. }
    cbn [fst snd].
    destruct (IH (S k) (<[k := {| w_pc := Returned; w_state := w_state w;
                                   w_buffer := [] |}]> ws) qs HP)
      as (ws' & Hrun & Hlen & Hrest' & Hpcs).
    { apply Forall_insert; [done|]. split; [by right|done]. }
    exists ws'. rewrite Hrun, Hlen, length_insert. split_and!; [done..|].
    intros i w' Hw'. destruct (Hpcs i w' Hw') as [Hin Hkeep]. split.
    + intros Hi. destruct (decide (i = k)) as [->|Hne]; [|apply Hin; lia].
      eapply Hkeep; [apply list_lookup_insert_eq; by eapply lookup_lt_Some|done].
    + intros w0 Hw0 Hret. destruct (decide (i = k)) as [->|Hne].
      * eapply Hkeep; [apply list_lookup_insert_eq; by eapply lookup_lt_Some|done].
      * eapply Hkeep; [|exact Hret]. by rewrite list_lookup_insert_ne.
  - rewrite (proj1 (act_none _ _ _ Hw)).
    destruct (IH (S k) ws qs HP Hrest) as (ws' & Hrun & Hlen & Hrest' & Hpcs).
    exists ws'. split_and!; [done..|].
    intros i w' Hw'. destruct (Hpcs i w' Hw') as [Hin Hkeep]. split; [|done].
    intros Hi. destruct (decide (i = k)) as [->|Hne]; [|apply Hin; lia].
    apply lookup_lt_Some in Hw'. apply lookup_ge_None in Hw. lia.
Qed.

Lemma all_joined_at_rest ws :
  Forall at_rest ws → (∀ i w, ws !! i = Some w → w_pc w = Returned) →
  all_joined ws = true.
Proof.
  intros Hrest Hret. apply forallb_forall. intros w Hin%list_elem_of_In.
  pose proof (proj1 (Forall_forall _ _) Hrest w Hin) as [_ Hbuf].
  apply list_elem_of_lookup in Hin as [i Hw]. by rewrite (Hret i w Hw), Hbuf.
Qed.

Lemma all_joined_lookup ws i w :
  all_joined ws = true → ws !! i = Some w → w_pc w = Returned ∧ w_buffer w = [].
Proof.
  intros Hall Hw. unfold all_joined in Hall.
  apply (proj1 (forallb_forall _ _)) with (x := w) in Hall.
  - destruct (w_pc w), (w_buffer w); done.
  - by eapply list_elem_of_In, list_elem_of_lookup_2.
Qed.

Lemma all_joined_idle ws : all_joined ws = true → in_hand ws = [] ∧ pending ws = [].
Proof.
  induction ws as [|w ws IH]; [done|]. cbn [all_joined forallb].
  intros [Hw Hws]%andb_prop. unfold in_hand, pending. rewrite !bind_cons.
  destruct (IH Hws) as [IH1 IH2]. unfold in_hand, pending in IH1, IH2.
  rewrite IH1, IH2. unfold hand. by destruct (w_pc w), (w_buffer w).
Qed.

Lemma start_at_rest (worker_rng : nat → rng) n :
  Forall at_rest (start worker_rng <$> seq 0 n).
Proof. apply Forall_fmap, Forall_forall. intros i _. split; [by left|done]. Qed.

Lemma start_idle (worker_rng : nat → rng) n :
  in_hand (start worker_rng <$> seq 0 n) = []
  ∧ pending (start worker_rng <$> seq 0 n) = [].
Proof.
  unfold in_hand, pending. induction (seq 0 n) as [|j l [IH1 IH2]]; [done|].
  by rewrite fmap_cons, !bind_cons, IH1, IH2.
Qed.

Lemma lookup_start (worker_rng : nat → rng) n i :
  i < n → (start worker_rng <$> seq 0 n) !! i = Some (start worker_rng i).
Proof. intros Hi. by rewrite list_lookup_fmap, lookup_seq_lt. Qed.

(** *** A worker alone *)

(** With one worker, the batches are taken in the order of the queue and
    the messages come in the order of the batches. *)
Lemma lone_act w0 qs0 sys a taken :
  (∃ w, sys.1 = [w]
        ∧ taken ++ hand w ++ fast5s_q sys.2 ++ fast5s_buffer sys.2
          = hand w0 ++ fast5s_q qs0 ++ fast5s_buffer qs0
        ∧ featurestr_q sys.2 ++ w_buffer w
          = featurestr_q qs0 ++ w_buffer w0
            ++ (Features <$> (records_by_batch taken (st_rng (w_state w0))).1)
        ∧ st_rng (w_state w) = (records_by_batch taken (st_rng (w_state w0))).2) →
  ∃ taken' w, (act sys a).1 = [w]
        ∧ taken' ++ hand w ++ fast5s_q (act sys a).2 ++ fast5s_buffer (act sys a).2
          = hand w0 ++ fast5s_q qs0 ++ fast5s_buffer qs0
        ∧ featurestr_q (act sys a).2 ++ w_buffer w
          = featurestr_q qs0 ++ w_buffer w0
            ++ (Features <$> (records_by_batch taken' (st_rng (w_state w0))).1)
        ∧ st_rng (w_state w) = (records_by_batch taken' (st_rng (w_state w0))).2.
Proof.
  destruct sys as [ws [B P fq]]. cbn [fst snd fast5s_q fast5s_buffer featurestr_q].
  intros (w & -> & Hq & Hfq & Hrng). destruct a as [|i|i].
  - exists taken, w. unfold schedule_step, feed.
    cbn [fst snd fast5s_q fast5s_buffer featurestr_q].
    destruct B as [|fast5s B]; cbn [fst snd fast5s_q fast5s_buffer featurestr_q];
      [done|]. split_and!; [done| |done..]. by rewrite <- Hq, <- !app_assoc.
  - destruct i as [|i]; [|exists taken, w; by rewrite (proj1 (act_none [w] _ (S i) eq_refl))].
    rewrite (act_Act [w] _ 0 w eq_refl). cbn [insert list_insert fst snd].
    destruct w as [[| |fast5s|] s buf]; unfold hand in *;
      cbn [w_pc w_state w_buffer app] in *.
    + exists taken. eexists. split; [done|]. by destruct P.
    + exists taken. eexists. split; [done|]. destruct P as [|fast5s P]; [done|].
      cbn [fst snd w_pc w_state w_buffer fast5s_q fast5s_buffer featurestr_q app].
      by split_and!.
    + exists (taken ++ [fast5s]). rewrite worker_extract. eexists. split; [done|].
      cbn [fst snd w_pc w_state w_buffer fast5s_q fast5s_buffer featurestr_q app].
      destruct (records_by_batch_snoc taken fast5s (st_rng (w_state w0)))
        as [-> ->].
      rewrite extract_features_run. cbv zeta. cbn [st_rng snd].
      rewrite <- Hrng. split_and!; [by rewrite <- Hq, <- !app_assoc| |done].
      by rewrite fmap_app, (app_assoc fq), Hfq, <- !app_assoc.
    + exists taken. eexists. by split.
  - destruct i as [|i]; [|exists taken, w; by rewrite (proj2 (act_none [w] _ (S i) eq_refl))].
    rewrite (act_Flush [w] _ 0 w eq_refl). cbn [insert list_insert fst snd].
    destruct (flush_queues w {| fast5s_buffer := B; fast5s_q := P; featurestr_q := fq |})
      as (-> & -> & Hpc & Hs & Hfq').
    exists taken. eexists. split; [done|]. unfold hand in *.
    by rewrite Hpc, Hs, Hfq'.
Qed.

Lemma lone_run w0 qs0 schedule :
  ∃ taken w,
    (foldl act ([w0], qs0) schedule).1 = [w]
    ∧ taken ++ hand w ++ fast5s_q (foldl act ([w0], qs0) schedule).2
        ++ fast5s_buffer (foldl act ([w0], qs0) schedule).2
      = hand w0 ++ fast5s_q qs0 ++ fast5s_buffer qs0
    ∧ featurestr_q (foldl act ([w0], qs0) schedule).2 ++ w_buffer w
      = featurestr_q qs0 ++ w_buffer w0
        ++ (Features <$> (records_by_batch taken (st_rng (w_state w0))).1)
    ∧ st_rng (w_state w) = (records_by_batch taken (st_rng (w_state w0))).2.
Proof.
  induction schedule as [|a schedule IH] using rev_ind.
  { exists [], w0. cbn. by rewrite !app_nil_r. }
  rewrite foldl_app. cbn [foldl]. destruct IH as (taken & w & IH).
  apply (lone_act w0 qs0 _ a taken). by exists w.
Qed.

(** X24. A worker that is alone in taking from the work queue takes the
    batches in the order in which they were put and skips none: at any
    moment the batches it has worked through, the one it holds, those in
    the pipe and those still to be written to the pipe, one after the
    other, are what it started from. It has put one message for each batch
    worked through, in the same order, after the messages that were there,
    and their records put end to end are the records of [_extract_features]
    on the files of the batches worked through. Whether a batch is left
    when the worker returns is not said. *)
Theorem get_a_batch_features_str_alone w0 qs0 schedule :
  ∃ w qs taken messages err s2,
    foldl (schedule_step draw h5py_File get_refloc_of_methysite_in_motif
            corrected_group basecall_subgroup normalize_method motif_seqs methyloc chrom2len
            kmer_len raw_signals_len methy_label) ([w0], qs0) schedule = ([w], qs)
    ∧ taken ++ hand w ++ fast5s_q qs ++ fast5s_buffer qs
      = hand w0 ++ fast5s_q qs0 ++ fast5s_buffer qs0
    ∧ featurestr_q qs ++ w_buffer w
      = featurestr_q qs0 ++ w_buffer w0 ++ (Features <$> messages)
    ∧ length messages = length taken
    ∧ _extract_features draw h5py_File get_refloc_of_methysite_in_motif
        corrected_group basecall_subgroup normalize_method motif_seqs methyloc chrom2len
        kmer_len raw_signals_len methy_label
        (concat taken) (w_state w0)
      = (Ok (concat messages, err), s2)
    ∧ st_rng (w_state w) = st_rng s2.
Proof.
  destruct (lone_run w0 qs0 schedule) as (taken & w & Hws & Hq & Hfq & Hrng).
  destruct (foldl act ([w0], qs0) schedule) as [ws qs]. cbn [fst snd] in *. subst ws.
  destruct (records_by_batch_concat taken (st_rng (w_state w0))) as [Hcat Hg].
  exists w, qs, taken, (records_by_batch taken (st_rng (w_state w0))).1.
  eexists _, _. split_and!; [done..|apply length_records_by_batch| |].
  - rewrite extract_features_run. cbv zeta. by rewrite Hcat.
  - cbn [st_rng]. by rewrite Hrng, Hg.
Qed.

(** *** The call as a whole *)

(** X25. With no worker process ([nproc] zero or negative) the call returns,
    whatever the files, and the output file is empty: no read is
    processed. *)
Theorem extract_features_no_worker worker_rng schedule fast5_files batch_size nproc :
  (nproc ≤ 0)%Z → batch_size ≠ 0%Z →
  extract_features draw h5py_File get_refloc_of_methysite_in_motif
    corrected_group basecall_subgroup normalize_method motif_seqs methyloc chrom2len
    kmer_len raw_signals_len methy_label
    worker_rng schedule fast5_files batch_size nproc
  = Some [].
Proof.
  intros Hn Hb. unfold extract_features.
  destruct (fill_some fast5_files batch_size Hb) as [batches ->]. cbn [mbind option_bind].
  replace (worker_count nproc) with 0
    by (unfold worker_count; destruct (Z.ltb_spec 1 nproc); lia).
  cbn [seq fmap list_fmap].
  assert (∀ sys, sys.1 = [] →
                 (foldl act sys schedule).1 = []
                 ∧ featurestr_q (foldl act sys schedule).2 = featurestr_q sys.2)
    as Hrun.
  { induction schedule as [|a schedule IH]; intros [ws qs] Hws; [done|].
    cbn in Hws. subst ws. cbn [foldl]. destruct a as [|i|i].
    - change (act ([], qs) Feed) with (@nil (worker rng R), feed qs).
      destruct (IH ([], feed qs) eq_refl) as [-> ->]. split; [done|].
      unfold feed. by destruct (fast5s_buffer qs).
    - rewrite (proj1 (act_none _ _ _ (lookup_nil i))). by apply IH.
    - rewrite (proj2 (act_none _ _ _ (lookup_nil i))). by apply IH. }
  by destruct (Hrun ([], {| fast5s_buffer := batches; fast5s_q := [];
                            featurestr_q := [] |}) eq_refl) as [-> ->].
Qed.

(** X26. With one worker process ([nproc] one or two), whenever the call
    returns, the output file holds what [_extract_features] returns, from
    the state in which the worker starts, for the files of the first
    batches, in the order of the files: the worker stops at the first
    moment it finds the pipe of the work queue empty, however many batches
    are still to be written to it, and the rest of the files is left
    out. *)
Theorem extract_features_single_worker worker_rng schedule fast5_files batch_size nproc
    out :
  (nproc = 1 ∨ nproc = 2)%Z → (0 < batch_size)%Z →
  extract_features draw h5py_File get_refloc_of_methysite_in_motif
    corrected_group basecall_subgroup normalize_method motif_seqs methyloc chrom2len
    kmer_len raw_signals_len methy_label
    worker_rng schedule fast5_files batch_size nproc
  = Some out →
  ∃ batches k rest err s',
    _fill_files_queue [] fast5_files batch_size = Some batches
    ∧ fast5_files = concat (take k batches) ++ rest
    ∧ _extract_features draw h5py_File get_refloc_of_methysite_in_motif
        corrected_group basecall_subgroup normalize_method motif_seqs methyloc chrom2len
        kmer_len raw_signals_len methy_label
        (concat (take k batches)) (fresh (worker_rng 0))
      = (Ok (out, err), s').
Proof.
  intros Hn Hb. unfold extract_features.
  destruct (fill_batches fast5_files batch_size Hb) as (batches & -> & Hcat & _).
  cbn [mbind option_bind].
  replace (worker_count nproc) with 1
    by (unfold worker_count; destruct (Z.ltb_spec 1 nproc); lia).
  cbn [seq fmap list_fmap]. cbv zeta.
  destruct (lone_run (start worker_rng 0)
              {| fast5s_buffer := batches; fast5s_q := []; featurestr_q := [] |}
              schedule) as (taken & w & Hws & Hq & Hfq & Hrng).
  destruct (foldl act _ schedule) as [ws [B P fq]].
  cbn [fst snd fast5s_q fast5s_buffer featurestr_q w_buffer w_state hand w_pc app]
    in *. subst ws.
  destruct (all_joined [w]) eqn:Hall; [|done]. intros Hout.
  destruct (all_joined_lookup [w] 0 w Hall eq_refl) as [Hpc Hbuf].
  unfold hand in Hq. rewrite Hpc in Hq. rewrite Hbuf, app_nil_r in Hfq.
  cbn [app] in Hq. subst fq.
  unfold _write_featurestr_to_file in Hout. rewrite write_loop_features in Hout.
  cbn in Hout. injection Hout as <-.
  destruct (records_by_batch_concat taken (worker_rng 0)) as [Hrecs _].
  exists batches, (length taken), (concat (P ++ B)). eexists _, _.
  assert (take (length taken) batches = taken) as ->
    by (rewrite <- Hq; by rewrite take_app_length).
  split_and!; [done| |].
  - by rewrite <- Hcat, <- Hq, concat_app.
  - rewrite extract_features_run. cbv zeta. cbn [st_rng fresh]. by rewrite Hrecs.
Qed.

(** *** Workers that wait for ever *)

Lemma starved_act sys j a : starved j sys → starved j (act sys a).
Proof.
  destruct sys as [ws qs]. intros (w & Hj & Hpc & HP & HB). cbn [fst snd] in *.
  destruct a as [|i|i].
  - exists w. unfold schedule_step, feed. cbn [fst snd]. by rewrite HB.
  - destruct (ws !! i) as [wi|] eqn:Hw;
      [|rewrite (proj1 (act_none _ _ _ Hw)); by exists w].
    rewrite (act_Act _ _ _ _ Hw).
    destruct (worker_act_queues wi qs) as (HB' & _ & HP').
    destruct (decide (i = j)) as [->|Hne].
    + rewrite Hj in Hw. injection Hw as <-.
      assert (worker_act w qs = (w, qs)) as ->
        by (unfold _get_a_batch_features_str; by rewrite Hpc, HP).
      exists w. cbn [fst snd]. by rewrite list_insert_id.
    + exists w. cbn [fst snd]. rewrite list_lookup_insert_ne by done.
      by rewrite HB', HB, (HP' HP).
  - destruct (ws !! i) as [wi|] eqn:Hw;
      [|rewrite (proj2 (act_none _ _ _ Hw)); by exists w].
    rewrite (act_Flush _ _ _ _ Hw).
    destruct (flush_queues wi qs) as (HB' & HP' & Hpc' & _).
    destruct (decide (i = j)) as [->|Hne].
    + rewrite Hj in Hw. injection Hw as <-. exists (flush w qs).1.
      cbn [fst snd]. rewrite list_lookup_insert_eq by by eapply lookup_lt_Some.
      by rewrite HB', HP', Hpc'.
    + exists w. cbn [fst snd]. rewrite list_lookup_insert_ne by done.
      by rewrite HB', HP'.
Qed.

Lemma starved_run sys j schedule : starved j sys → starved j (foldl act sys schedule).
Proof.
  revert sys. induction schedule as [|a schedule IH]; intros sys Hsys; [done|].
  cbn [foldl]. by apply IH, starved_act.
Qed.

Lemma starved_not_joined sys j : starved j sys → all_joined sys.1 = false.
Proof.
  intros (w & Hj & Hpc & _). destruct (all_joined sys.1) eqn:Hall; [|done].
  destruct (all_joined_lookup _ _ _ Hall Hj) as [Hret _]. congruence.
Qed.

(** X27. With two worker processes or more ([nproc] three or more) and a file
    to process, the call may never return: one worker finds the work queue
    not empty, another takes every batch before the first one reaches
    [get], and the first one then waits in [get] for ever, so that the main
    process waits in [join] whatever happens next. *)
Theorem extract_features_may_hang worker_rng fast5_files batch_size nproc :
  (3 ≤ nproc)%Z → (0 < batch_size)%Z → fast5_files ≠ [] →
  ∃ schedule, ∀ rest,
    extract_features draw h5py_File get_refloc_of_methysite_in_motif
      corrected_group basecall_subgroup normalize_method motif_seqs methyloc chrom2len
      kmer_len raw_signals_len methy_label
      worker_rng (schedule ++ rest) fast5_files batch_size nproc
    = None.
Proof.
  intros Hn Hb Hfiles.
  exists ([Feed; Act 1; Act 0; Act 0; Act 0; Flush 0]
          ++ lockstep 0 (length fast5_files) ++ [Act 0]).
  intros rest. unfold extract_features.
  destruct (fill_batches fast5_files batch_size Hb) as (batches & -> & Hcat & Hlen).
  cbn [mbind option_bind]. cbv zeta.
  assert (2 ≤ worker_count nproc) as Hws
    by (unfold worker_count; destruct (Z.ltb_spec 1 nproc); lia).
  set (ws := _ <$> seq 0 (worker_count nproc)).
  assert (ws !! 0 = Some (start worker_rng 0)) as H0 by (apply lookup_start; lia).
  assert (ws !! 1 = Some (start worker_rng 1)) as H1 by (apply lookup_start; lia).
  assert (1 < length ws) as Hlen1 by by eapply lookup_lt_Some.
  destruct batches as [|fast5s batches]; [by destruct Hfiles|].
  rewrite (starved_not_joined _ 1); [done|].
  rewrite foldl_app. apply starved_run. rewrite foldl_app. cbn [foldl].
  change (act (ws, ?qs) Feed) with (ws, feed qs). unfold feed.
  cbn [fast5s_buffer fast5s_q featurestr_q app].
  rewrite (act_Act _ _ _ _ H1). cbn [fst snd _get_a_batch_features_str w_pc w_state
    w_buffer fast5s_q fast5s_buffer featurestr_q].
  erewrite act_Act by by rewrite list_lookup_insert_ne.
  cbn [fst snd _get_a_batch_features_str w_pc w_state w_buffer fast5s_q
    fast5s_buffer featurestr_q].
  erewrite act_Act by (apply list_lookup_insert_eq; rewrite length_insert; lia).
  cbn [fst snd _get_a_batch_features_str w_pc w_state w_buffer fast5s_q
    fast5s_buffer featurestr_q].
  erewrite act_Act by (apply list_lookup_insert_eq; rewrite !length_insert; lia).
  rewrite worker_extract. cbn [fst snd app].
  erewrite act_Flush by (apply list_lookup_insert_eq; rewrite !length_insert; lia).
  cbn [fst snd flush w_pc w_state w_buffer fast5s_q fast5s_buffer featurestr_q app].
  rewrite !list_insert_insert_eq.
  match goal with
  | |- context [foldl act (<[0 := ?w1]> ?ws1, ?qs1) _] =>
      destruct (run_lockstep batches (length fast5_files) (<[0 := w1]> ws1) 0
                  (w_state w1) (featurestr_q qs1)) as (s' & Hrun & _);
        [apply list_lookup_insert_eq; rewrite length_insert; lia|cbn in Hlen; lia|]
  end.
  cbn [w_state featurestr_q] in Hrun. rewrite Hrun.
  exists {| w_pc := AtGet; w_state := fresh (worker_rng 1); w_buffer := [] |}.
  cbn [fst snd fast5s_q fast5s_buffer w_pc]. split; [|done].
  rewrite !list_lookup_insert_ne by done. by apply list_lookup_insert_eq.
Qed.

(** *** No batch twice *)

(** At any point every batch is in one place, once: worked through, with
    its message in the pipe of the result queue or still to be written to
    it; in the hand of a worker; in the pipe of the work queue; or still to
    be written to it. *)
Lemma act_accounted batches sys a runs :
  featurestr_q sys.2 ++ pending sys.1 ≡ₚ (λ r, Features (records_of_run r)) <$> runs →
  runs.*1 ++ in_hand sys.1 ++ fast5s_q sys.2 ++ fast5s_buffer sys.2 ≡ₚ batches →
  ∃ runs',
    featurestr_q (act sys a).2 ++ pending (act sys a).1
    ≡ₚ (λ r, Features (records_of_run r)) <$> runs'
    ∧ runs'.*1 ++ in_hand (act sys a).1 ++ fast5s_q (act sys a).2
        ++ fast5s_buffer (act sys a).2 ≡ₚ batches.
Proof.
  destruct sys as [ws [B P fq]]. cbn [fst snd fast5s_q fast5s_buffer featurestr_q].
  intros Hfq Hperm. destruct a as [|i|i].
  - exists runs. unfold schedule_step, feed.
    cbn [fst snd fast5s_q fast5s_buffer featurestr_q].
    destruct B as [|fast5s B]; cbn [fst snd fast5s_q fast5s_buffer featurestr_q];
      [done|]. split; [done|]. by rewrite <- Hperm, <- !app_assoc.
  - destruct (ws !! i) as [w|] eqn:Hw;
      [|rewrite (proj1 (act_none _ _ _ Hw)); by exists runs].
    rewrite (act_Act _ _ _ _ Hw). cbn [fst snd]. unfold in_hand, pending in *.
    set (w' := (worker_act w {| fast5s_buffer := B; fast5s_q := P;
                                featurestr_q := fq |}).1).
    destruct (bind_insert hand ws i w w' Hw) as (h1 & h2 & Hh & ->).
    destruct (bind_insert w_buffer ws i w w' Hw) as (p1 & p2 & Hp & ->).
    rewrite Hh in Hperm. rewrite Hp in Hfq. clear Hh Hp Hw. subst w'.
    destruct w as [[| |fast5s|] s buf]; unfold hand in *;
      cbn [w_pc w_buffer] in Hperm, Hfq.
    + exists runs. by destruct P.
    + exists runs. destruct P as [|fast5s P]; [done|].
      cbn [_get_a_batch_features_str w_pc w_state w_buffer fast5s_q fast5s_buffer
        featurestr_q fst snd].
      split; [done|]. rewrite <- Hperm. cbn [app].
      apply Permutation_app_head. rewrite <- !app_assoc.
      apply Permutation_app_head. cbn [app]. apply Permutation_middle.
    + exists (runs ++ [(fast5s, s)]). rewrite worker_extract.
      cbn [fst snd w_pc w_buffer fast5s_q fast5s_buffer featurestr_q].
      split.
      * rewrite fmap_app. cbn [fmap list_fmap fst snd]. rewrite <- Hfq.
        rewrite <- !app_assoc. do 3 apply Permutation_app_head. cbn [app].
        symmetry. rewrite Permutation_app_comm. by cbn [app].
      * rewrite fmap_app. cbn [fmap list_fmap fst]. rewrite <- Hperm. cbn [app].
        rewrite <- !app_assoc. cbn [app].
        apply Permutation_app_head, (Permutation_middle h1 _ fast5s).
    + by exists runs.
  - destruct (ws !! i) as [w|] eqn:Hw;
      [|rewrite (proj2 (act_none _ _ _ Hw)); by exists runs].
    rewrite (act_Flush _ _ _ _ Hw). cbn [fst snd]. unfold in_hand, pending in *.
    set (qs := {| fast5s_buffer := B; fast5s_q := P; featurestr_q := fq |}) in *.
    destruct (bind_insert hand ws i w (flush w qs).1 Hw) as (h1 & h2 & Hh & ->).
    destruct (bind_insert w_buffer ws i w (flush w qs).1 Hw) as (p1 & p2 & Hp & ->).
    rewrite Hh in Hperm. rewrite Hp in Hfq. clear Hh Hp Hw.
    exists runs. unfold flush, hand in *. subst qs.
    destruct (w_buffer w) as [|m rest] eqn:Hbuf;
      cbn [fst snd w_pc w_buffer fast5s_q fast5s_buffer featurestr_q] in *;
      [by rewrite Hbuf|].
    split; [|done]. rewrite <- Hfq, <- !app_assoc. apply Permutation_app_head.
    cbn [app]. by rewrite <- (Permutation_middle p1).
Qed.

Lemma run_accounted batches schedule :
  ∀ sys runs,
    featurestr_q sys.2 ++ pending sys.1
    ≡ₚ (λ r, Features (records_of_run r)) <$> runs →
    runs.*1 ++ in_hand sys.1 ++ fast5s_q sys.2 ++ fast5s_buffer sys.2 ≡ₚ batches →
    ∃ runs',
      featurestr_q (foldl act sys schedule).2 ++ pending (foldl act sys schedule).1
      ≡ₚ (λ r, Features (records_of_run r)) <$> runs'
      ∧ runs'.*1 ++ in_hand (foldl act sys schedule).1
          ++ fast5s_q (foldl act sys schedule).2
          ++ fast5s_buffer (foldl act sys schedule).2 ≡ₚ batches.
Proof.
  induction schedule as [|a schedule IH]; intros sys runs Hfq Hperm; [by exists runs|].
  cbn [foldl]. destruct (act_accounted batches sys a runs Hfq Hperm) as (runs' & ? & ?).
  by eapply IH.
Qed.

(** What the call has written when it returns: the records of runs of
    [_extract_features] on batches, no batch twice. *)
Lemma returned_accounted worker_rng schedule fast5_files batch_size nproc out :
  extract_features draw h5py_File get_refloc_of_methysite_in_motif corrected_group
    basecall_subgroup normalize_method motif_seqs methyloc chrom2len kmer_len
    raw_signals_len methy_label worker_rng schedule fast5_files batch_size nproc
  = Some out →
  ∃ batches (runs : list (list string * estate rng R)),
    _fill_files_queue [] fast5_files batch_size = Some batches
    ∧ runs.*1 ⊆+ batches
    ∧ out = concat (records_of_run <$> runs).
Proof.
  unfold extract_features.
  destruct (_fill_files_queue [] fast5_files batch_size) as [batches|]; [|done].
  cbn [mbind option_bind]. cbv zeta.
  set (ws := _ <$> seq 0 (worker_count nproc)).
  set (sys := (ws, {| fast5s_buffer := batches; fast5s_q := []; featurestr_q := [] |})).
  destruct (start_idle worker_rng (worker_count nproc)) as [Hhand Hpend].
  destruct (run_accounted batches schedule sys []) as (runs & Hfq & Hperm);
    [by unfold sys, ws; cbn [fst snd featurestr_q]; rewrite Hpend
    |by unfold sys, ws; cbn [fst snd fast5s_q fast5s_buffer]; rewrite Hhand|].
  destruct (foldl act sys schedule) as [ws' [B P fq]].
  cbn [fst snd fast5s_q fast5s_buffer featurestr_q] in *.
  destruct (all_joined ws') eqn:Hall; [|done]. intros Hout.
  destruct (all_joined_idle ws' Hall) as [Hhand' Hpend'].
  rewrite Hhand' in Hperm. rewrite Hpend', app_nil_r in Hfq. cbn [app] in Hperm.
  apply Permutation_fmap_inv in Hfq as (runs' & Hfq & Hruns).
  assert (fq = Features <$> (records_of_run <$> runs')) as ->
    by (by rewrite Hfq, <- list_fmap_compose).
  unfold _write_featurestr_to_file in Hout. rewrite write_loop_features in Hout.
  cbn in Hout. injection Hout as <-. exists batches, runs'. split_and!; [done| |done].
  rewrite Hruns, <- Hperm. apply submseteq_inserts_r. done.
Qed.

(** X28. Whenever the call returns, whatever the number of workers and the
    order in which things happen, no batch has been worked through twice
    and nothing else has been written: the output file holds, one after the
    other, what [_extract_features] returned for batches of the work queue,
    each batch at most once, each from some state of the worker that took
    it. That every batch is there is not said. *)
Theorem extract_features_no_batch_twice worker_rng schedule fast5_files batch_size
    nproc out :
  extract_features draw h5py_File get_refloc_of_methysite_in_motif
    corrected_group basecall_subgroup normalize_method motif_seqs methyloc chrom2len
    kmer_len raw_signals_len methy_label
    worker_rng schedule fast5_files batch_size nproc
  = Some out →
  ∃ batches (runs : list (list string * estate rng R * list (feature R))),
    _fill_files_queue [] fast5_files batch_size = Some batches
    ∧ runs.*1.*1 ⊆+ batches
    ∧ Forall (λ r, ∃ err s',
                _extract_features draw h5py_File get_refloc_of_methysite_in_motif
                  corrected_group basecall_subgroup normalize_method motif_seqs methyloc chrom2len
                  kmer_len raw_signals_len methy_label
                  r.1.1 r.1.2
                = (Ok (r.2, err), s')) runs
    ∧ out = concat (runs.*2).
Proof.
  intros (batches & runs & Hfill & Hsub & ->)%returned_accounted.
  exists batches, ((λ r, (r, records_of_run r)) <$> runs). split_and!.
  - done.
  - replace (((λ r, (r, records_of_run r)) <$> runs).*1) with runs; [done|].
    clear. induction runs as [|r runs IH]; [done|]. cbn [fmap list_fmap fst].
    f_equal. exact IH.
  - apply Forall_fmap, Forall_forall. intros [fast5s s] _. unfold compose.
    cbn [fst snd]. rewrite extract_features_run. by eexists _, _.
  - by rewrite <- list_fmap_compose.
Qed.

(** X29. A configuration the design rejects never shows at the top: with an
    even [kmer_len], or a normalization method that is neither [zscore] nor
    [mad], whenever the call returns the output file is empty, whatever the
    files, the number of workers and the order in which they act. *)
Theorem extract_features_bad_config_empty worker_rng schedule fast5_files batch_size
    nproc out :
  bad_config normalize_method kmer_len →
  extract_features draw h5py_File get_refloc_of_methysite_in_motif
    corrected_group basecall_subgroup normalize_method motif_seqs methyloc chrom2len
    kmer_len raw_signals_len methy_label
    worker_rng schedule fast5_files batch_size nproc
  = Some out →
  out = [].
Proof.
  intros Hbad (batches & runs & _ & _ & ->)%returned_accounted.
  induction runs as [|[fast5s s] runs IH]; [done|].
  cbn [fmap list_fmap concat fst snd]. rewrite IH, app_nil_r.
  by destruct (bad_config_outcomes draw h5py_File get_refloc_of_methysite_in_motif
                 corrected_group basecall_subgroup normalize_method motif_seqs methyloc
                 chrom2len kmer_len raw_signals_len methy_label fast5s (st_rng s) Hbad)
    as (_ & -> & _).
Qed.

(** X30. What the call writes depends on the order in which things happen.
    With a worker or more and a positive batch size, when the first worker
    keeps pace with the feeder thread of the main process, the output file
    holds what [_extract_features] returns for the whole list of files; when
    every worker tests the work queue before the feeder thread has written
    the first batch, every worker returns at once, the call returns and the
    output file is empty, no file having been read. *)
Theorem extract_features_may_skip_batches worker_rng fast5_files batch_size nproc
    recs err s' :
  (1 ≤ nproc)%Z → (0 < batch_size)%Z →
  _extract_features draw h5py_File get_refloc_of_methysite_in_motif
    corrected_group basecall_subgroup normalize_method motif_seqs methyloc chrom2len
    kmer_len raw_signals_len methy_label
    fast5_files (fresh (worker_rng 0))
  = (Ok (recs, err), s') →
  extract_features draw h5py_File get_refloc_of_methysite_in_motif
    corrected_group basecall_subgroup normalize_method motif_seqs methyloc chrom2len
    kmer_len raw_signals_len methy_label
    worker_rng
    (lockstep 0 (length fast5_files) ++ (Act <$> seq 0 (worker_count nproc)))
    fast5_files batch_size nproc
  = Some recs
  ∧ extract_features draw h5py_File get_refloc_of_methysite_in_motif
      corrected_group basecall_subgroup normalize_method motif_seqs methyloc chrom2len
      kmer_len raw_signals_len methy_label
      worker_rng (Act <$> seq 0 (worker_count nproc)) fast5_files batch_size nproc
    = Some [].
Proof.
  intros Hn Hb Hrecs. unfold extract_features.
  destruct (fill_batches fast5_files batch_size Hb) as (batches & -> & Hcat & Hlen).
  cbn [mbind option_bind]. cbv zeta.
  assert (1 ≤ worker_count nproc) as Hws
    by (unfold worker_count; destruct (Z.ltb_spec 1 nproc); lia).
  set (ws := _ <$> seq 0 (worker_count nproc)).
  assert (length ws = worker_count nproc) as Hlws
    by (unfold ws; by rewrite length_fmap, length_seq).
  assert (ws !! 0 = Some (start worker_rng 0)) as H0 by (apply lookup_start; lia).
  pose proof (start_at_rest worker_rng (worker_count nproc)) as Hrest. fold ws in Hrest.
  split.
  - destruct (worker_count nproc) as [|n] eqn:Hcount; [lia|].
    rewrite <- cons_seq, fmap_cons, cons_middle, app_assoc, foldl_app.
    destruct (run_lockstep batches (length fast5_files) ws 0 _ [] H0 Hlen)
      as (s1 & -> & _).
    match goal with
    | |- context [foldl act (<[0 := ?w1]> ws, ?qs1) _] =>
        destruct (run_tests n 1 (<[0 := w1]> ws) qs1)
          as (ws' & -> & Hlen' & Hrest' & Hpcs);
          [done|apply Forall_insert; [exact Hrest|split; [by right|done]]|]
    end.
    rewrite length_insert in Hlen'. cbn [fst snd featurestr_q app].
    rewrite all_joined_at_rest; [|done|].
    + unfold _write_featurestr_to_file. rewrite write_loop_features. cbn.
      f_equal. destruct (records_by_batch_concat batches (worker_rng 0)) as [-> _].
      rewrite Hcat. rewrite extract_features_run in Hrecs. cbv zeta in Hrecs.
      by simplify_eq.
    + intros i w Hw. destruct (Hpcs i w Hw) as [Hin Hkeep].
      destruct i as [|i].
      * eapply Hkeep; [apply list_lookup_insert_eq; lia|done].
      * apply Hin. apply lookup_lt_Some in Hw. lia.
  - match goal with
    | |- context [foldl act (ws, ?qs1) _] =>
        destruct (run_tests (worker_count nproc) 0 ws qs1)
          as (ws' & -> & Hlen' & Hrest' & Hpcs); [done|exact Hrest|]
    end.
    cbn [fst snd featurestr_q]. rewrite all_joined_at_rest; [done..|].
    intros i w Hw. apply (Hpcs i w Hw). apply lookup_lt_Some in Hw. lia.
Qed.
End PipelineExtras.

(** *** Instances *)

Lemma fill_files_queue_partition_witness :
  ∃ batches,
    _fill_files_queue [["z"]] ["a"; "b"; "c"; "d"; "e"] 2 = Some ([["z"]] ++ batches)
    ∧ concat batches = ["a"; "b"; "c"; "d"; "e"]
    ∧ Forall (λ batch : list string, (0 < len batch ≤ 2)%Z) batches.
Proof. apply (fill_files_queue_partition [["z"]] ["a"; "b"; "c"; "d"; "e"] 2). lia. Defined.

Lemma fill_files_queue_count_witness :
  ∃ batches,
    _fill_files_queue [] ["a"; "b"; "c"; "d"; "e"] 2 = Some ([] ++ batches)
    ∧ len batches = ((len ["a"; "b"; "c"; "d"; "e"] + 2 - 1) `div` 2)%Z
    ∧ ∀ i (batch : list string), batches !! i = Some batch → S i < length batches →
                 len batch = 2%Z.
Proof. apply (fill_files_queue_count [] ["a"; "b"; "c"; "d"; "e"] 2). lia. Defined.

Lemma fill_files_queue_degenerate_witness :
  _fill_files_queue [["z"]] ["a"; "b"; "c"] (-2) = Some [["z"]]
  ∧ _fill_files_queue [["z"]] ["a"; "b"; "c"] 0 = None
  ∧ _fill_files_queue [["z"]] ([] : list string) (-2) = Some [["z"]].
Proof.
  destruct (fill_files_queue_degenerate [["z"]] ["a"; "b"; "c"] (-2)) as (Hneg & Hzero & Hnone).
  split_and!; [apply Hneg; lia|exact Hzero|apply Hnone; lia].
Defined.

Lemma extract_features_no_worker_witness :
  example_pipeline "mad" 3 [Feed; Act 0; Flush 1; Act 0] ["plus.fast5"; "minus.fast5"] 1 0
  = Some [].
Proof.
  apply (extract_features_no_worker (Numpy0 := integer_samples)); [lia|done].
Defined.

Lemma extract_features_single_worker_witness :
  ∃ out,
    example_pipeline "mad" 3 [Feed; Act 0; Act 0; Act 0; Act 0; Flush 0]
      ["plus.fast5"; "missing.fast5"; "minus.fast5"] 2 2 = Some out
    ∧ ∃ batches k rest err s',
        _fill_files_queue [] ["plus.fast5"; "missing.fast5"; "minus.fast5"] 2
        = Some batches
        ∧ ["plus.fast5"; "missing.fast5"; "minus.fast5"]
          = concat (take k batches) ++ rest
        ∧ example_extract "mad" 3 (concat (take k batches)) example_state
          = (Ok (out, err), s').
Proof.
  destruct (example_pipeline "mad" 3 [Feed; Act 0; Act 0; Act 0; Act 0; Flush 0]
              ["plus.fast5"; "missing.fast5"; "minus.fast5"] 2 2) as [out|] eqn:Hout;
    [|by vm_compute in Hout].
  exists out. split; [reflexivity|].
  apply (extract_features_single_worker (Numpy0 := integer_samples) last_first_draw
           example_files find_sites "RawGenomeCorrected_000" "BaseCalled_template"
           "mad" ["CG"] 0 example_chrom2len 3 4 "1" (λ _, 0)
           [Feed; Act 0; Act 0; Act 0; Act 0; Flush 0]
           ["plus.fast5"; "missing.fast5"; "minus.fast5"] 2 2 out);
    [by right|lia|exact Hout].
Defined.

Lemma extract_features_may_hang_witness :
  ∃ schedule, ∀ rest,
    example_pipeline "mad" 3 (schedule ++ rest) ["plus.fast5"; "minus.fast5"] 1 3 = None.
Proof.
  apply (extract_features_may_hang (Numpy0 := integer_samples)); [lia|lia|done].
Defined.

Lemma extract_features_no_batch_twice_witness :
  ∃ out,
    example_pipeline "mad" 3
      [Feed; Feed; Act 0; Act 0; Act 1; Act 1; Act 1; Act 0; Flush 1; Flush 0;
       Act 0; Act 1]
      ["plus.fast5"; "minus.fast5"] 1 3 = Some out
    ∧ ∃ batches (runs : list (list string * estate nat Z * list (feature Z))),
        _fill_files_queue [] ["plus.fast5"; "minus.fast5"] 1 = Some batches
        ∧ runs.*1.*1 ⊆+ batches
        ∧ Forall (λ r, ∃ err s',
                    example_extract "mad" 3 r.1.1 r.1.2 = (Ok (r.2, err), s')) runs
        ∧ out = concat (runs.*2).
Proof.
  destruct (example_pipeline "mad" 3
              [Feed; Feed; Act 0; Act 0; Act 1; Act 1; Act 1; Act 0; Flush 1; Flush 0;
               Act 0; Act 1]
              ["plus.fast5"; "minus.fast5"] 1 3) as [out|] eqn:Hout;
    [|by vm_compute in Hout].
  exists out. split; [reflexivity|].
  apply (extract_features_no_batch_twice (Numpy0 := integer_samples) last_first_draw
           example_files find_sites "RawGenomeCorrected_000" "BaseCalled_template"
           "mad" ["CG"] 0 example_chrom2len 3 4 "1" (λ _, 0)
           [Feed; Feed; Act 0; Act 0; Act 1; Act 1; Act 1; Act 0; Flush 1; Flush 0;
            Act 0; Act 1]
           ["plus.fast5"; "minus.fast5"] 1 3 out Hout).
Defined.

Lemma extract_features_bad_config_empty_witness :
  bad_config "mad" 4
  ∧ ∃ out,
      example_pipeline "mad" 4
        [Feed; Feed; Act 0; Act 0; Act 1; Act 1; Act 1; Act 0; Flush 1; Flush 0;
         Act 0; Act 1]
        ["plus.fast5"; "minus.fast5"] 1 3 = Some out
      ∧ out = [].
Proof.
  assert (bad_config "mad" 4) as Hbad by (by left).
  split; [exact Hbad|].
  destruct (example_pipeline "mad" 4
              [Feed; Feed; Act 0; Act 0; Act 1; Act 1; Act 1; Act 0; Flush 1; Flush 0;
               Act 0; Act 1]
              ["plus.fast5"; "minus.fast5"] 1 3) as [out|] eqn:Hout;
    [|by vm_compute in Hout].
  exists out. split; [reflexivity|].
  exact (extract_features_bad_config_empty (Numpy0 := integer_samples) last_first_draw
           example_files find_sites "RawGenomeCorrected_000" "BaseCalled_template"
           "mad" ["CG"] 0 example_chrom2len 4 4 "1" (λ _, 0)
           [Feed; Feed; Act 0; Act 0; Act 1; Act 1; Act 1; Act 0; Flush 1; Flush 0;
            Act 0; Act 1]
           ["plus.fast5"; "minus.fast5"] 1 3 out Hbad Hout).
Defined.

Lemma extract_features_may_skip_batches_witness :
  ∃ recs err s',
    example_extract "mad" 3 ["plus.fast5"; "minus.fast5"] example_state
    = (Ok (recs, err), s')
    ∧ recs ≠ []
    ∧ example_pipeline "mad" 3
        (lockstep 0 (length ["plus.fast5"; "minus.fast5"])
         ++ (Act <$> seq 0 (worker_count 3)))
        ["plus.fast5"; "minus.fast5"] 1 3 = Some recs
    ∧ example_pipeline "mad" 3 (Act <$> seq 0 (worker_count 3))
        ["plus.fast5"; "minus.fast5"] 1 3 = Some [].
Proof.
  destruct (example_extract "mad" 3 ["plus.fast5"; "minus.fast5"] example_state)
    as [[[recs err]|e] s'] eqn:Hrecs; [|by vm_compute in Hrecs].
  exists recs, err, s'. split; [reflexivity|].
  split; [by vm_compute in Hrecs; injection Hrecs as <- _ _|].
  apply (extract_features_may_skip_batches (Numpy0 := integer_samples) last_first_draw
           example_files find_sites "RawGenomeCorrected_000" "BaseCalled_template"
           "mad" ["CG"] 0 example_chrom2len 3 4 "1" (λ _, 0)
           ["plus.fast5"; "minus.fast5"] 1 3 recs err s');
    [lia|lia|exact Hrecs].
Defined.
